(** * Evolvatron hyper-parameter sweep: trial evaluation, fitness codec and
      progress monitor

    A shallow embedding of [optuna_sweep.py], [optuna_sweep_rosenbrock.py]
    and [monitor_optuna.py].

    Numbers.  A Python [int] is a [Z].  A Python [float] is a [pyfloat]:
    the rational a finite float denotes, or one of the three non-finite
    values.  A decimal text is read as the nearest binary64 number
    ([binary64], which overflows to an infinity); the sign tests, [int()]
    truncating toward zero and raising on the non-finite values, and floor
    division are as in Python.  The decoder's subtraction of the integer
    part is exact on binary64 numbers; the monitor's arithmetic on
    durations is done on rationals.

    Effects.  Python exceptions are the [Raise] results of a small error
    monad; the objective additionally threads the state of the trial
    (parameters suggested so far, user attributes, console output) and its
    local variable [result], which is unbound until the [try] body assigns
    it.  The trainer is an oracle from command lines to what a child
    process does, including a program that cannot be started and output
    that cannot be decoded. *)

From Stdlib Require Import ZArith QArith Qabs Qround List Bool Ascii String Lia Lqa.
From Stdlib Require Import Permutation Sorted.
Import ListNotations.

Set Implicit Arguments.

(* ================================================================== *)
(** * Python values *)

Module Py.

(** ** Exceptions and results *)

Definition str := string.

(** What a pipe of a child process delivered: bytes that decode to a text
    under the encoding of the locale (the text is the decoded one, line
    ends translated), or bytes that do not (under UTF-8, the three bytes
    FF FE 0A for one). *)
Inductive captured : Type :=
| Text (s : str)
| Undecodable.

(** [UnicodeDecodeError] is a subclass of [ValueError], [FileNotFoundError]
    and [PermissionError] are subclasses of [OSError]; [OSError] stands for
    the instances that are neither of the two.  A [TimeoutExpired] carries
    the bytes captured so far, a [CalledProcessError] the decoded output. *)
Inductive exn : Type :=
| TimeoutExpired (output stderr : captured)
| CalledProcessError (returncode : Z) (output stderr : str)
| FileNotFoundError
| PermissionError
| OSError
| ValueError
| UnicodeDecodeError
| OverflowError
| TypeError
| UnboundLocalError.

Inductive result (A : Type) : Type :=
| Return (a : A)
| Raise (e : exn).
Arguments Return {A} a.
Arguments Raise {A} e.

Definition rbind {A B} (r : result A) (k : A -> result B) : result B :=
  match r with
  | Return a => k a
  | Raise e => Raise e
  end.

(** ** Floats *)

Inductive pyfloat : Type :=
| Fin (q : Q)
| PosInf
| NegInf
| NaN.

(** Two floats denote the same value (rationals are compared by [Qeq], not
    by their representation as a fraction). *)
Definition feq (a b : pyfloat) : Prop :=
  match a, b with
  | Fin x, Fin y => x == y
  | PosInf, PosInf | NegInf, NegInf | NaN, NaN => True
  | _, _ => False
  end.

Definition Qltb (x y : Q) : bool := negb (Qle_bool y x).

(** [a < b] and [a > b] on floats: every comparison with NaN is false. *)
Definition float_lt (a b : pyfloat) : bool :=
  match a, b with
  | NaN, _ | _, NaN => false
  | _, NegInf => false
  | NegInf, _ => true
  | PosInf, _ => false
  | _, PosInf => true
  | Fin x, Fin y => Qltb x y
  end.

Definition float_gt (a b : pyfloat) : bool := float_lt b a.

Definition isnan (a : pyfloat) : bool :=
  match a with NaN => true | _ => false end.

(** [int(x)]: truncation toward zero; [OverflowError] on an infinity,
    [ValueError] on NaN. *)
Definition int (x : pyfloat) : result Z :=
  match x with
  | Fin q => Return (Z.quot (Qnum q) (Zpos (Qden q)))
  | PosInf | NegInf => Raise OverflowError
  | NaN => Raise ValueError
  end.

(** [math.floor(x)], with the same exceptions as [int]. *)
Definition floor (x : pyfloat) : result Z :=
  match x with
  | Fin q => Return (Qfloor q)
  | PosInf | NegInf => Raise OverflowError
  | NaN => Raise ValueError
  end.

(** [x - n] and [n + x] for a float [x] and an int [n]. *)
Definition float_sub_int (x : pyfloat) (n : Z) : pyfloat :=
  match x with
  | Fin q => Fin (q - inject_Z n)
  | other => other
  end.

Definition int_add_float (n : Z) (x : pyfloat) : pyfloat :=
  match x with
  | Fin q => Fin (inject_Z n + q)
  | other => other
  end.

(** ** Binary64 *)

(** The nearest integer, a tie going to the even one. *)
Definition round_half_even (q : Q) : Z :=
  let f := Qfloor q in
  match (q - inject_Z f ?= 1 # 2)%Q with
  | Lt => f
  | Gt => (f + 1)%Z
  | Eq => if Z.even f then f else (f + 1)%Z
  end.

(** The binary64 number nearest to a positive rational [a]: with
    [2 ^ k <= a < 2 ^ (k + 1)], the multiple of [2 ^ (k - 52)] (of
    [2 ^ -1074] for a subnormal) nearest to [a]; [None] when that is
    [2 ^ 1024] or more. *)
Definition binary64_abs (a : Q) : option Q :=
  let k0 := (Z.log2 (Qnum a) - Z.log2 (Zpos (Qden a)))%Z in
  let k := if Qle_bool (2 ^ k0)%Q a then k0 else (k0 - 1)%Z in
  let p := Z.max (k - 52) (-1074)%Z in
  let r := (inject_Z (round_half_even (a / 2 ^ p)) * 2 ^ p)%Q in
  if Qle_bool (2 ^ 1024)%Q r then None else Some (Qred r).

(** The float a decimal literal or text denotes: the nearest binary64
    number, an infinity on overflow. *)
Definition binary64 (q : Q) : pyfloat :=
  match (q ?= 0)%Q with
  | Eq => Fin 0
  | Gt => match binary64_abs q with
          | Some r => Fin r
          | None => PosInf
          end
  | Lt => match binary64_abs (- q) with
          | Some r => Fin (- r)
          | None => NegInf
          end
  end.

End Py.

Import Py.

Declare Scope py_scope.
Delimit Scope py_scope with py.
Notation "x <- c ;; k" := (rbind c (fun x => k))
  (at level 61, c at next level, right associativity) : py_scope.
Infix "=~" := feq (at level 70, no associativity) : py_scope.
Open Scope py_scope.
Open Scope Z_scope.

(* ================================================================== *)
(** * FitnessCodec *)

Module FitnessCodec.

(** Modelled from the spec: the encoder runs inside the external trainer and
    is not part of the Python sources.  The spec (4.1) gives
    [encode(primary_pct, secondary) = primary_pct + secondary]; the docstring
    of the Rosenbrock objective gives the same sum (60 + -0.05 = 59.95). *)
Definition encode (primary_pct : Z) (secondary : pyfloat) : pyfloat :=
  int_add_float primary_pct secondary.

(** monitor_optuna.py, lines 51-52 (and 62-63), optuna_sweep_rosenbrock.py,
    lines 196-197 (and 226-227):
<<
    solve_rate = int(best_value) if best_value > 0 else 0
    avg_fitness = best_value - solve_rate
>> *)
Definition decode (value : pyfloat) : result (Z * pyfloat) :=
  solve_rate <- (if float_gt value (Fin 0) then int value else Return 0) ;;
  Return (solve_rate, float_sub_int value solve_rate).

(** Agreement of two decoding results: same exception, or same integer part
    and secondaries denoting the same number. *)
Definition decoded_eq (a b : result (Z * pyfloat)) : Prop :=
  match a, b with
  | Return (p, s), Return (p', s') => p = p' /\ s =~ s'
  | Raise e, Raise e' => e = e'
  | _, _ => False
  end.

End FitnessCodec.

(* ================================================================== *)
(** * Python strings: [strip], [split], [float(...)] *)

Module PyStr.

Definition newline : ascii := "010"%char.

(** [str.isspace] on the code points below 256: TAB..CR, FS..US, SPACE,
    NEL (133) and NBSP (160). *)
Definition isspace (c : ascii) : bool :=
  let n := nat_of_ascii c in
  ((9 <=? n) && (n <=? 13) || (28 <=? n) && (n <=? 32)
   || (n =? 133) || (n =? 160))%nat.

Fixpoint lstrip (s : str) : str :=
  match s with
  | EmptyString => EmptyString
  | String c s' => if isspace c then lstrip s' else s
  end.

Fixpoint rstrip (s : str) : str :=
  match s with
  | EmptyString => EmptyString
  | String c s' =>
      match rstrip s' with
      | EmptyString => if isspace c then EmptyString else String c EmptyString
      | r => String c r
      end
  end.

(** [s.strip()] *)
Definition strip (s : str) : str := lstrip (rstrip s).

(** [s.split('\n')]: never empty, [''.split('\n') == ['']]. *)
Fixpoint split_lines (s : str) : list str :=
  match s with
  | EmptyString => [EmptyString]
  | String c s' =>
      if Ascii.eqb c newline then EmptyString :: split_lines s'
      else match split_lines s' with
           | l :: ls => String c l :: ls
           | [] => [String c EmptyString]
           end
  end.

(** [xs[-1]] on a list that [split] returned. *)
Definition last_item (xs : list str) : str := last xs EmptyString.

(** A line with no character other than white space. *)
Fixpoint blank (s : str) : bool :=
  match s with
  | EmptyString => true
  | String c s' => isspace c && blank s'
  end.

(** The last line of [s] that is not blank, when there is one. *)
Fixpoint last_nonblank (lines : list str) : option str :=
  match lines with
  | [] => None
  | l :: ls =>
      match last_nonblank ls with
      | Some l' => Some l'
      | None => if blank l then None else Some l
      end
  end.

Definition last_nonblank_line (s : str) : option str :=
  last_nonblank (split_lines s).

(** ** [float(s)] on a string

    The grammar of the Python language reference:
<<
    floatvalue  ::= [sign] (floatnumber | "inf" | "infinity" | "nan")
    floatnumber ::= number [exponent]
    number      ::= [digitpart] "." digitpart | digitpart ["."]
    exponent    ::= ("e" | "E") [sign] digitpart
    digitpart   ::= digit (["_"] digit)*
>>
    after white space has been removed on both sides; the three words are
    matched without regard to case.  The value is the binary64 number
    nearest to [mantissa * 10 ^ exponent].

    The white space [float] removes is not the white space of [str.strip]:
    the characters below 127 are left as they are and then tested with the
    C locale's [isspace] (TAB..CR and SPACE), so that the separators FS..US
    stay and are refused; a character from 127 on that [str.isspace] accepts
    (NEL, NBSP) is replaced by a space first. *)

Definition float_isspace (c : ascii) : bool :=
  let n := nat_of_ascii c in
  ((9 <=? n) && (n <=? 13) || (n =? 32) || (n =? 133) || (n =? 160))%nat.

(** FS, GS, RS, US: white space for [str.strip], not for [float]. *)
Definition is_separator (c : ascii) : bool :=
  let n := nat_of_ascii c in ((28 <=? n) && (n <=? 31))%nat.

Fixpoint float_lstrip (s : str) : str :=
  match s with
  | EmptyString => EmptyString
  | String c s' => if float_isspace c then float_lstrip s' else s
  end.

Fixpoint float_rstrip (s : str) : str :=
  match s with
  | EmptyString => EmptyString
  | String c s' =>
      match float_rstrip s' with
      | EmptyString =>
          if float_isspace c then EmptyString else String c EmptyString
      | r => String c r
      end
  end.

Definition float_strip (s : str) : str := float_lstrip (float_rstrip s).

Definition is_digit (c : ascii) : bool :=
  let n := nat_of_ascii c in ((48 <=? n) && (n <=? 57))%nat.

Definition digit_value (c : ascii) : Z := Z.of_nat (nat_of_ascii c) - 48.

(** The rest of a [digitpart] whose first digit has been read: the value so
    far, the number of digits so far, and the input left. *)
Fixpoint digits_rest (acc : Z) (n : nat) (s : str) : Z * nat * str :=
  match s with
  | String c s' =>
      if is_digit c then digits_rest (10 * acc + digit_value c) (S n) s'
      else if Ascii.eqb c "_"%char then
        match s' with
        | String d s'' =>
            if is_digit d
            then digits_rest (10 * acc + digit_value d) (S n) s''
            else (acc, n, s)
        | EmptyString => (acc, n, s)
        end
      else (acc, n, s)
  | EmptyString => (acc, n, s)
  end.

Definition digitpart (s : str) : option (Z * nat * str) :=
  match s with
  | String c s' =>
      if is_digit c then Some (digits_rest (digit_value c) 1 s') else None
  | EmptyString => None
  end.

(** [number] of the grammar: the mantissa as an integer, the number of digits after the
    point, and the input left. *)
Definition decimal_number (s : str) : option (Z * nat * str) :=
  match digitpart s with
  | Some (i, _, String "."%char r) =>
      match digitpart r with
      | Some (f, k, r') => Some (i * 10 ^ Z.of_nat k + f, k, r')
      | None => Some (i, O, r)
      end
  | Some (i, _, r) => Some (i, O, r)
  | None =>
      match s with
      | String "."%char r =>
          match digitpart r with
          | Some (f, k, r') => Some (f, k, r')
          | None => None
          end
      | _ => None
      end
  end.

Definition sign (s : str) : bool * str :=
  match s with
  | String "+"%char r => (false, r)
  | String "-"%char r => (true, r)
  | _ => (false, s)
  end.

(** [exponent], when the input is all of it. *)
Definition exponent (s : str) : option Z :=
  match s with
  | EmptyString => Some 0
  | String c r =>
      if Ascii.eqb c "e"%char || Ascii.eqb c "E"%char then
        let (neg, r') := sign r in
        match digitpart r' with
        | Some (e, _, EmptyString) => Some (if neg then - e else e)
        | _ => None
        end
      else None
  end.

Definition scale10 (m e : Z) : Q :=
  if 0 <=? e then inject_Z (m * 10 ^ e) else m # Z.to_pos (10 ^ (- e)).

Definition lower (c : ascii) : ascii :=
  let n := nat_of_ascii c in
  if ((65 <=? n) && (n <=? 90))%nat then ascii_of_nat (n + 32) else c.

Fixpoint lowercase (s : str) : str :=
  match s with
  | EmptyString => EmptyString
  | String c s' => String (lower c) (lowercase s')
  end.

Definition float_literal (s : str) : option pyfloat :=
  let (neg, body) := sign s in
  let word := lowercase body in
  if (String.eqb word "inf" || String.eqb word "infinity")%string
  then Some (if neg then NegInf else PosInf)
  else if String.eqb word "nan" then Some NaN
  else match decimal_number body with
       | Some (m, k, r) =>
           match exponent r with
           | Some e =>
               let q := scale10 m (e - Z.of_nat k) in
               Some (binary64 (if neg then - q else q)%Q)
           | None => None
           end
       | None => None
       end.

(** [float(s)]: [ValueError] when [s], without the white space [float]
    removes, is not a [floatvalue]. *)
Definition float (s : str) : result pyfloat :=
  match float_literal (float_strip s) with
  | Some x => Return x
  | None => Raise ValueError
  end.

(** ** The line [strip] and [split] leave *)

(** The lines from the first one that is not blank on. *)
Fixpoint skip_blank (lines : list str) : list str :=
  match lines with
  | [] => []
  | l :: ls => if blank l then skip_blank ls else lines
  end.

(** The last line of [s] that is not blank, as [s.strip()] leaves it:
    without its trailing white space, and without its leading white space
    too when no line before it holds anything but white space. *)
Definition trimmed_last_line (s : str) : option str :=
  match skip_blank (split_lines s) with
  | [] => None
  | first :: rest =>
      match last_nonblank rest with
      | Some l => Some (rstrip l)
      | None => Some (strip first)
      end
  end.

(** A text with none of the separators FS..US. *)
Fixpoint no_separator (s : str) : bool :=
  match s with
  | EmptyString => true
  | String c s' => negb (is_separator c) && no_separator s'
  end.

End PyStr.

(* ================================================================== *)
(** * The trial object, the child process and the objective's monad *)

Module Trial.

Inductive distribution : Type :=
| IntDistribution (low high : Z)
| FloatDistribution (low high : Q)
| CategoricalDistribution (choices : list bool).

Inductive param_value : Type :=
| PInt (v : Z)
| PFloat (v : Q)
| PBool (v : bool).

(** One [trial.suggest_*] call: what was asked and what the sampler gave. *)
Record suggestion : Type := Suggestion {
  s_name : str;
  s_dist : distribution;
  s_value : param_value
}.

(** The sampler (TPE and its random state) is an oracle. *)
Record Sampler : Type := {
  sample_int : str -> Z -> Z -> Z;
  sample_float : str -> Q -> Q -> Q;
  sample_categorical : str -> list bool -> bool
}.

(** The [trial] argument of the objective. *)
Record handle : Type := {
  number : nat;
  sampler : Sampler
}.

(** What [subprocess.run] returns. *)
Record CompletedProcess : Type := {
  returncode : Z;
  stdout : str;
  stderr : str
}.

(** A line printed by the objective. *)
Inductive line : Type :=
| Line_timed_out (n : nat)
| Line_failed_with_error (n : nat) (e : exn)
| Line_stderr (text : str)
| Line_failed_to_parse (n : nat) (e : exn)
| Line_output (text : str).

(** The state the objective works on: the suggestions recorded in the trial
    (in the order they were made), its user attributes, the console, and the
    objective's local variable [result]. *)
Record state : Type := {
  params : list suggestion;
  user_attrs : list (str * pyfloat);
  console : list line;
  local_result : option CompletedProcess
}.

Definition fresh : state :=
  {| params := []; user_attrs := []; console := []; local_result := None |}.

Definition M (A : Type) : Type := state -> result A * state.

Definition ret {A} (a : A) : M A := fun st => (Return a, st).

Definition bind {A B} (c : M A) (k : A -> M B) : M B :=
  fun st =>
    match c st with
    | (Return a, st') => k a st'
    | (Raise e, st') => (Raise e, st')
    end.

Definition raise {A} (e : exn) : M A := fun st => (Raise e, st).

(** [try: body except ...: handler]: a handler of [None] is an exception
    that no clause catches. *)
Definition try_except {A} (body : M A) (handler : exn -> option (M A)) : M A :=
  fun st =>
    match body st with
    | (Return a, st') => (Return a, st')
    | (Raise e, st') =>
        match handler e with
        | Some h => h st'
        | None => (Raise e, st')
        end
    end.

(** State updates: one more suggestion, attribute or printed line; the
    assignment to [result]. *)
Definition add_param (s : suggestion) (st : state) : state :=
  {| params := params st ++ [s]; user_attrs := user_attrs st;
     console := console st; local_result := local_result st |}.

Definition add_attr (key : str) (v : pyfloat) (st : state) : state :=
  {| params := params st; user_attrs := user_attrs st ++ [(key, v)];
     console := console st; local_result := local_result st |}.

Definition add_line (l : line) (st : state) : state :=
  {| params := params st; user_attrs := user_attrs st;
     console := console st ++ [l]; local_result := local_result st |}.

Definition set_result (r : CompletedProcess) (st : state) : state :=
  {| params := params st; user_attrs := user_attrs st;
     console := console st; local_result := Some r |}.

Definition record (s : suggestion) : M unit :=
  fun st => (Return tt, add_param s st).

(** [trial.suggest_int(name, low, high)]; the library refuses an empty
    range with a [ValueError]. *)
Definition suggest_int (t : handle) (name : str) (low high : Z) : M Z :=
  if high <? low then raise ValueError
  else
    let v := sample_int (sampler t) name low high in
    bind (record (Suggestion name (IntDistribution low high) (PInt v)))
         (fun _ => ret v).

Definition suggest_float (t : handle) (name : str) (low high : Q) : M Q :=
  if Qltb high low then raise ValueError
  else
    let v := sample_float (sampler t) name low high in
    bind (record (Suggestion name (FloatDistribution low high) (PFloat v)))
         (fun _ => ret v).

Definition suggest_categorical (t : handle) (name : str) (choices : list bool)
  : M bool :=
  let v := sample_categorical (sampler t) name choices in
  bind (record (Suggestion name (CategoricalDistribution choices) (PBool v)))
       (fun _ => ret v).

Definition set_user_attr (key : str) (v : pyfloat) : M unit :=
  fun st => (Return tt, add_attr key v st).

(** [print(...)]; the console is taken to accept every text. *)
Definition print (l : line) : M unit :=
  fun st => (Return tt, add_line l st).

Definition assign_result (r : CompletedProcess) : M unit :=
  fun st => (Return tt, set_result r st).

Definition lift {A} (r : result A) : M A := fun st => (r, st).

(** ** The child process *)

(** One token of the command line.  [name=value] tokens keep the value
    (the decimal text of a number is not modelled; a [BoolArg] is the
    lower-cased [true]/[false]). *)
Inductive arg : Type :=
| Word (w : str)
| IntArg (name : str) (v : Z)
| FloatArg (name : str) (v : Q)
| BoolArg (name : str) (v : bool).

(** What the launched program does: it cannot be started (there is no such
    executable, it may not be executed, or the system refuses for another
    reason); or it exits by itself after [seconds] with a status and what
    its two pipes delivered; or it never exits.  For a child that is killed,
    [out] and [err] are what had been captured by then. *)
Inductive child : Type :=
| NoSuchExecutable
| NotPermitted
| CannotStart
| Exits (seconds : Q) (status : Z) (out err : captured)
| Hangs (out err : captured).

(** The decoding [text=True] asks for, with the default strict error
    handling. *)
Definition decode_output (c : captured) : result str :=
  match c with
  | Text s => Return s
  | Undecodable => Raise UnicodeDecodeError
  end.

(** [subprocess.run(args, capture_output=True, text=True, timeout=t,
    check=True)] on a child (library code, POSIX): starting the program
    raises the [OSError]; [communicate] raises [TimeoutExpired] with the
    bytes read so far when the limit is reached, and otherwise decodes
    standard output, then standard error, once the child has exited; the
    exit status is checked on the decoded result. *)
Definition subprocess_run (c : child) (timeout : Q) : result CompletedProcess :=
  match c with
  | NoSuchExecutable => Raise FileNotFoundError
  | NotPermitted => Raise PermissionError
  | CannotStart => Raise OSError
  | Hangs out err => Raise (TimeoutExpired out err)
  | Exits seconds status out err =>
      if Qltb timeout seconds then Raise (TimeoutExpired out err)
      else
        (out' <- decode_output out ;;
         err' <- decode_output err ;;
         if status =? 0
         then Return {| returncode := status; stdout := out'; stderr := err' |}
         else Raise (CalledProcessError status out' err'))%py
  end.

(** The child is still running when the time limit is reached. *)
Definition exceeds_budget (c : child) (timeout : Q) : bool :=
  match c with
  | Exits seconds _ _ _ => Qltb timeout seconds
  | Hangs _ _ => true
  | _ => false
  end.

(** The program is started. *)
Definition starts (c : child) : bool :=
  match c with
  | Exits _ _ _ _ | Hangs _ _ => true
  | _ => false
  end.

(** What the child wrote can be decoded, both streams. *)
Definition decodes (c : child) : bool :=
  match c with
  | Exits _ _ (Text _) (Text _) => true
  | Exits _ _ _ _ => false
  | _ => true
  end.

(** The child is started and, unless it is killed at the time limit, what
    it wrote can be decoded. *)
Definition runs_cleanly (c : child) (timeout : Q) : bool :=
  starts c && (exceeds_budget c timeout || decodes c).

End Trial.

Declare Scope trial_scope.
Delimit Scope trial_scope with trial.
Notation "x <- c ;; k" := (Trial.bind c (fun x => k))
  (at level 61, c at next level, right associativity) : trial_scope.
Notation "c ;; k" := (Trial.bind c (fun _ => k))
  (at level 61, right associativity) : trial_scope.

(* ================================================================== *)
(** * The evaluation block shared by the two sweeps *)

Module Evaluation.
Import Trial PyStr.
Local Open Scope trial_scope.
Local Open Scope string_scope.

(** The body of the [try] statement (optuna_sweep.py, lines 115-130;
    optuna_sweep_rosenbrock.py, lines 114-129):
<<
    result = subprocess.run(args, ..., timeout=T, check=True)
    fitness_str = result.stdout.strip().split('\n')[-1]
    fitness = float(fitness_str)
    trial.set_user_attr("fitness", fitness)
    return fitness
>> *)
Definition try_block (os : list arg -> child) (timeout : Q) (args : list arg)
  : M pyfloat :=
  result <- lift (subprocess_run (os args) timeout) ;;
  assign_result result ;;
  let fitness_str := last_item (split_lines (strip (stdout result))) in
  fitness <- lift (float fitness_str) ;;
  set_user_attr "fitness" fitness ;;
  ret fitness.

(** The three [except] clauses (optuna_sweep.py, lines 132-142;
    optuna_sweep_rosenbrock.py, lines 131-141).  The third one,
    [except ValueError as e], prints [e] and then [result.stdout]: [result]
    is the local variable the [try] body assigns, unbound when the
    exception came out of [subprocess.run] itself. *)
Definition except_clauses (trial : handle) (e : exn) : option (M pyfloat) :=
  match e with
  | TimeoutExpired _ _ =>
      Some (print (Line_timed_out (number trial)) ;;
            ret NegInf)
  | CalledProcessError _ _ err =>
      Some (print (Line_failed_with_error (number trial) e) ;;
            print (Line_stderr err) ;;
            ret NegInf)
  | ValueError | UnicodeDecodeError =>
      Some (print (Line_failed_to_parse (number trial) e) ;;
            (fun st =>
               match local_result st with
               | Some result => print (Line_output (stdout result)) st
               | None => (Raise UnboundLocalError, st)
               end) ;;
            ret NegInf)
  | _ => None
  end.

End Evaluation.

(* ================================================================== *)
(** * optuna_sweep.py *)

Module OptunaSweep.
Import Trial Evaluation.
Local Open Scope trial_scope.
Local Open Scope string_scope.

Definition project : str := "Evolvatron.OptunaEval/Evolvatron.OptunaEval.csproj".

(** [objective(trial)], lines 25-142.  [os] maps a command line to the
    behaviour of the process it starts. *)
Definition objective (os : list arg -> child) (trial : handle) : M pyfloat :=
  species_count <- suggest_int trial "species_count" 4 30 ;;
  individuals_per_species <- suggest_int trial "individuals_per_species" 20 100 ;;
  min_species_count <-
    suggest_int trial "min_species_count" 2 (Z.max 2 (species_count / 3)) ;;
  elites <- suggest_int trial "elites" 1 4 ;;
  tournament_size <- suggest_int trial "tournament_size" 4 32 ;;
  parent_pool_percentage <- suggest_float trial "parent_pool_percentage" 0.5 1.0 ;;
  grace_generations <- suggest_int trial "grace_generations" 0 3 ;;
  stagnation_threshold <- suggest_int trial "stagnation_threshold" 3 15 ;;
  species_diversity_threshold <-
    suggest_float trial "species_diversity_threshold" 0.01 0.20 ;;
  relative_performance_threshold <-
    suggest_float trial "relative_performance_threshold" 0.3 0.9 ;;
  weight_jitter <- suggest_float trial "weight_jitter" 0.8 1.0 ;;
  weight_jitter_stddev <- suggest_float trial "weight_jitter_stddev" 0.1 0.5 ;;
  weight_reset <- suggest_float trial "weight_reset" 0.0 0.2 ;;
  weight_l1_shrink <- suggest_float trial "weight_l1_shrink" 0.0 0.4 ;;
  l1_shrink_factor <- suggest_float trial "l1_shrink_factor" 0.85 0.95 ;;
  activation_swap <- suggest_float trial "activation_swap" 0.0 0.20 ;;
  node_param_mutate <- suggest_float trial "node_param_mutate" 0.0 0.1 ;;
  node_param_stddev <- suggest_float trial "node_param_stddev" 0.05 0.2 ;;
  edge_add <- suggest_float trial "edge_add" 0.0 0.15 ;;
  edge_delete_random <- suggest_float trial "edge_delete_random" 0.0 0.05 ;;
  edge_split <- suggest_float trial "edge_split" 0.0 0.05 ;;
  edge_redirect <- suggest_float trial "edge_redirect" 0.0 0.10 ;;
  edge_swap <- suggest_float trial "edge_swap" 0.0 0.05 ;;
  weak_edge_pruning_enabled <-
    suggest_categorical trial "weak_edge_pruning_enabled" [true; false] ;;
  weak_edge_pruning_threshold <-
    suggest_float trial "weak_edge_pruning_threshold" 0.001 0.05 ;;
  weak_edge_pruning_base_rate <-
    suggest_float trial "weak_edge_pruning_base_rate" 0.5 0.9 ;;
  weak_edge_pruning_on_birth <-
    suggest_categorical trial "weak_edge_pruning_on_birth" [true; false] ;;
  weak_edge_pruning_during_evolution <-
    suggest_categorical trial "weak_edge_pruning_during_evolution" [true; false] ;;
  let args := [
    Word "dotnet"; Word "run"; Word "--project"; Word project;
    Word "-c"; Word "Release"; Word "--";
    IntArg "species_count" species_count;
    IntArg "individuals_per_species" individuals_per_species;
    IntArg "min_species_count" min_species_count;
    IntArg "elites" elites;
    IntArg "tournament_size" tournament_size;
    FloatArg "parent_pool_percentage" parent_pool_percentage;
    IntArg "grace_generations" grace_generations;
    IntArg "stagnation_threshold" stagnation_threshold;
    FloatArg "species_diversity_threshold" species_diversity_threshold;
    FloatArg "relative_performance_threshold" relative_performance_threshold;
    FloatArg "weight_jitter" weight_jitter;
    FloatArg "weight_jitter_stddev" weight_jitter_stddev;
    FloatArg "weight_reset" weight_reset;
    FloatArg "weight_l1_shrink" weight_l1_shrink;
    FloatArg "l1_shrink_factor" l1_shrink_factor;
    FloatArg "activation_swap" activation_swap;
    FloatArg "node_param_mutate" node_param_mutate;
    FloatArg "node_param_stddev" node_param_stddev;
    FloatArg "edge_add" edge_add;
    FloatArg "edge_delete_random" edge_delete_random;
    FloatArg "edge_split" edge_split;
    FloatArg "edge_redirect" edge_redirect;
    FloatArg "edge_swap" edge_swap;
    BoolArg "weak_edge_pruning_enabled" weak_edge_pruning_enabled;
    FloatArg "weak_edge_pruning_threshold" weak_edge_pruning_threshold;
    FloatArg "weak_edge_pruning_base_rate" weak_edge_pruning_base_rate;
    BoolArg "weak_edge_pruning_on_birth" weak_edge_pruning_on_birth;
    BoolArg "weak_edge_pruning_during_evolution" weak_edge_pruning_during_evolution
  ] in
  try_except (try_block os 600 args) (except_clauses trial).

(** The command line as a function of what the sampler answers: the
    [args] of [objective] with every sampled value written out. *)
Definition command_line (trial : handle) : list arg :=
  let s := sampler trial in
  let species_count := sample_int s "species_count" 4 30 in
  let individuals_per_species :=
    sample_int s "individuals_per_species" 20 100 in
  let min_species_count :=
    sample_int s "min_species_count" 2 (Z.max 2 (species_count / 3)) in
  let elites := sample_int s "elites" 1 4 in
  let tournament_size := sample_int s "tournament_size" 4 32 in
  let parent_pool_percentage :=
    sample_float s "parent_pool_percentage" 0.5 1.0 in
  let grace_generations := sample_int s "grace_generations" 0 3 in
  let stagnation_threshold := sample_int s "stagnation_threshold" 3 15 in
  let species_diversity_threshold :=
    sample_float s "species_diversity_threshold" 0.01 0.20 in
  let relative_performance_threshold :=
    sample_float s "relative_performance_threshold" 0.3 0.9 in
  let weight_jitter := sample_float s "weight_jitter" 0.8 1.0 in
  let weight_jitter_stddev := sample_float s "weight_jitter_stddev" 0.1 0.5 in
  let weight_reset := sample_float s "weight_reset" 0.0 0.2 in
  let weight_l1_shrink := sample_float s "weight_l1_shrink" 0.0 0.4 in
  let l1_shrink_factor := sample_float s "l1_shrink_factor" 0.85 0.95 in
  let activation_swap := sample_float s "activation_swap" 0.0 0.20 in
  let node_param_mutate := sample_float s "node_param_mutate" 0.0 0.1 in
  let node_param_stddev := sample_float s "node_param_stddev" 0.05 0.2 in
  let edge_add := sample_float s "edge_add" 0.0 0.15 in
  let edge_delete_random := sample_float s "edge_delete_random" 0.0 0.05 in
  let edge_split := sample_float s "edge_split" 0.0 0.05 in
  let edge_redirect := sample_float s "edge_redirect" 0.0 0.10 in
  let edge_swap := sample_float s "edge_swap" 0.0 0.05 in
  let weak_edge_pruning_enabled :=
    sample_categorical s "weak_edge_pruning_enabled" [true; false] in
  let weak_edge_pruning_threshold :=
    sample_float s "weak_edge_pruning_threshold" 0.001 0.05 in
  let weak_edge_pruning_base_rate :=
    sample_float s "weak_edge_pruning_base_rate" 0.5 0.9 in
  let weak_edge_pruning_on_birth :=
    sample_categorical s "weak_edge_pruning_on_birth" [true; false] in
  let weak_edge_pruning_during_evolution :=
    sample_categorical s "weak_edge_pruning_during_evolution" [true; false] in
  [
    Word "dotnet"; Word "run"; Word "--project"; Word project;
    Word "-c"; Word "Release"; Word "--";
    IntArg "species_count" species_count;
    IntArg "individuals_per_species" individuals_per_species;
    IntArg "min_species_count" min_species_count;
    IntArg "elites" elites;
    IntArg "tournament_size" tournament_size;
    FloatArg "parent_pool_percentage" parent_pool_percentage;
    IntArg "grace_generations" grace_generations;
    IntArg "stagnation_threshold" stagnation_threshold;
    FloatArg "species_diversity_threshold" species_diversity_threshold;
    FloatArg "relative_performance_threshold" relative_performance_threshold;
    FloatArg "weight_jitter" weight_jitter;
    FloatArg "weight_jitter_stddev" weight_jitter_stddev;
    FloatArg "weight_reset" weight_reset;
    FloatArg "weight_l1_shrink" weight_l1_shrink;
    FloatArg "l1_shrink_factor" l1_shrink_factor;
    FloatArg "activation_swap" activation_swap;
    FloatArg "node_param_mutate" node_param_mutate;
    FloatArg "node_param_stddev" node_param_stddev;
    FloatArg "edge_add" edge_add;
    FloatArg "edge_delete_random" edge_delete_random;
    FloatArg "edge_split" edge_split;
    FloatArg "edge_redirect" edge_redirect;
    FloatArg "edge_swap" edge_swap;
    BoolArg "weak_edge_pruning_enabled" weak_edge_pruning_enabled;
    FloatArg "weak_edge_pruning_threshold" weak_edge_pruning_threshold;
    FloatArg "weak_edge_pruning_base_rate" weak_edge_pruning_base_rate;
    BoolArg "weak_edge_pruning_on_birth" weak_edge_pruning_on_birth;
    BoolArg "weak_edge_pruning_during_evolution" weak_edge_pruning_during_evolution
  ].

End OptunaSweep.

(* ================================================================== *)
(** * optuna_sweep_rosenbrock.py *)

Module OptunaSweepRosenbrock.
Import Trial Evaluation.
Local Open Scope trial_scope.
Local Open Scope string_scope.

Definition project : str :=
  "Evolvatron.OptunaEval.Rosenbrock/Evolvatron.OptunaEval.Rosenbrock.csproj".

(** [objective(trial)], lines 26-141. *)
Definition objective (os : list arg -> child) (trial : handle) : M pyfloat :=
  species_count <- suggest_int trial "species_count" 10 40 ;;
  individuals_per_species <- suggest_int trial "individuals_per_species" 50 150 ;;
  min_species_count <-
    suggest_int trial "min_species_count" 3 (Z.max 3 (species_count / 3)) ;;
  elites <- suggest_int trial "elites" 2 8 ;;
  tournament_size <- suggest_int trial "tournament_size" 4 30 ;;
  parent_pool_percentage <- suggest_float trial "parent_pool_percentage" 0.5 1.0 ;;
  grace_generations <- suggest_int trial "grace_generations" 0 5 ;;
  stagnation_threshold <- suggest_int trial "stagnation_threshold" 4 20 ;;
  species_diversity_threshold <-
    suggest_float trial "species_diversity_threshold" 0.01 0.25 ;;
  relative_performance_threshold <-
    suggest_float trial "relative_performance_threshold" 0.3 0.95 ;;
  weight_jitter <- suggest_float trial "weight_jitter" 0.7 1.0 ;;
  weight_jitter_stddev <- suggest_float trial "weight_jitter_stddev" 0.05 0.6 ;;
  weight_reset <- suggest_float trial "weight_reset" 0.0 0.25 ;;
  weight_l1_shrink <- suggest_float trial "weight_l1_shrink" 0.0 0.3 ;;
  l1_shrink_factor <- suggest_float trial "l1_shrink_factor" 0.8 0.98 ;;
  activation_swap <- suggest_float trial "activation_swap" 0.0 0.30 ;;
  node_param_mutate <- suggest_float trial "node_param_mutate" 0.0 0.15 ;;
  node_param_stddev <- suggest_float trial "node_param_stddev" 0.02 0.3 ;;
  edge_add <- suggest_float trial "edge_add" 0.0 0.20 ;;
  edge_delete_random <- suggest_float trial "edge_delete_random" 0.0 0.08 ;;
  edge_split <- suggest_float trial "edge_split" 0.0 0.08 ;;
  edge_redirect <- suggest_float trial "edge_redirect" 0.0 0.15 ;;
  edge_swap <- suggest_float trial "edge_swap" 0.0 0.08 ;;
  weak_edge_pruning_enabled <-
    suggest_categorical trial "weak_edge_pruning_enabled" [true; false] ;;
  weak_edge_pruning_threshold <-
    suggest_float trial "weak_edge_pruning_threshold" 0.001 0.08 ;;
  weak_edge_pruning_base_rate <-
    suggest_float trial "weak_edge_pruning_base_rate" 0.4 0.95 ;;
  weak_edge_pruning_on_birth <-
    suggest_categorical trial "weak_edge_pruning_on_birth" [true; false] ;;
  weak_edge_pruning_during_evolution <-
    suggest_categorical trial "weak_edge_pruning_during_evolution" [true; false] ;;
  let args := [
    Word "dotnet"; Word "run"; Word "--project"; Word project;
    Word "-c"; Word "Release"; Word "--";
    IntArg "species_count" species_count;
    IntArg "individuals_per_species" individuals_per_species;
    IntArg "min_species_count" min_species_count;
    IntArg "elites" elites;
    IntArg "tournament_size" tournament_size;
    FloatArg "parent_pool_percentage" parent_pool_percentage;
    IntArg "grace_generations" grace_generations;
    IntArg "stagnation_threshold" stagnation_threshold;
    FloatArg "species_diversity_threshold" species_diversity_threshold;
    FloatArg "relative_performance_threshold" relative_performance_threshold;
    FloatArg "weight_jitter" weight_jitter;
    FloatArg "weight_jitter_stddev" weight_jitter_stddev;
    FloatArg "weight_reset" weight_reset;
    FloatArg "weight_l1_shrink" weight_l1_shrink;
    FloatArg "l1_shrink_factor" l1_shrink_factor;
    FloatArg "activation_swap" activation_swap;
    FloatArg "node_param_mutate" node_param_mutate;
    FloatArg "node_param_stddev" node_param_stddev;
    FloatArg "edge_add" edge_add;
    FloatArg "edge_delete_random" edge_delete_random;
    FloatArg "edge_split" edge_split;
    FloatArg "edge_redirect" edge_redirect;
    FloatArg "edge_swap" edge_swap;
    BoolArg "weak_edge_pruning_enabled" weak_edge_pruning_enabled;
    FloatArg "weak_edge_pruning_threshold" weak_edge_pruning_threshold;
    FloatArg "weak_edge_pruning_base_rate" weak_edge_pruning_base_rate;
    BoolArg "weak_edge_pruning_on_birth" weak_edge_pruning_on_birth;
    BoolArg "weak_edge_pruning_during_evolution" weak_edge_pruning_during_evolution
  ] in
  try_except (try_block os 1200 args) (except_clauses trial).

(** The command line as a function of what the sampler answers: the
    [args] of [objective] with every sampled value written out. *)
Definition command_line (trial : handle) : list arg :=
  let s := sampler trial in
  let species_count := sample_int s "species_count" 10 40 in
  let individuals_per_species :=
    sample_int s "individuals_per_species" 50 150 in
  let min_species_count :=
    sample_int s "min_species_count" 3 (Z.max 3 (species_count / 3)) in
  let elites := sample_int s "elites" 2 8 in
  let tournament_size := sample_int s "tournament_size" 4 30 in
  let parent_pool_percentage :=
    sample_float s "parent_pool_percentage" 0.5 1.0 in
  let grace_generations := sample_int s "grace_generations" 0 5 in
  let stagnation_threshold := sample_int s "stagnation_threshold" 4 20 in
  let species_diversity_threshold :=
    sample_float s "species_diversity_threshold" 0.01 0.25 in
  let relative_performance_threshold :=
    sample_float s "relative_performance_threshold" 0.3 0.95 in
  let weight_jitter := sample_float s "weight_jitter" 0.7 1.0 in
  let weight_jitter_stddev := sample_float s "weight_jitter_stddev" 0.05 0.6 in
  let weight_reset := sample_float s "weight_reset" 0.0 0.25 in
  let weight_l1_shrink := sample_float s "weight_l1_shrink" 0.0 0.3 in
  let l1_shrink_factor := sample_float s "l1_shrink_factor" 0.8 0.98 in
  let activation_swap := sample_float s "activation_swap" 0.0 0.30 in
  let node_param_mutate := sample_float s "node_param_mutate" 0.0 0.15 in
  let node_param_stddev := sample_float s "node_param_stddev" 0.02 0.3 in
  let edge_add := sample_float s "edge_add" 0.0 0.20 in
  let edge_delete_random := sample_float s "edge_delete_random" 0.0 0.08 in
  let edge_split := sample_float s "edge_split" 0.0 0.08 in
  let edge_redirect := sample_float s "edge_redirect" 0.0 0.15 in
  let edge_swap := sample_float s "edge_swap" 0.0 0.08 in
  let weak_edge_pruning_enabled :=
    sample_categorical s "weak_edge_pruning_enabled" [true; false] in
  let weak_edge_pruning_threshold :=
    sample_float s "weak_edge_pruning_threshold" 0.001 0.08 in
  let weak_edge_pruning_base_rate :=
    sample_float s "weak_edge_pruning_base_rate" 0.4 0.95 in
  let weak_edge_pruning_on_birth :=
    sample_categorical s "weak_edge_pruning_on_birth" [true; false] in
  let weak_edge_pruning_during_evolution :=
    sample_categorical s "weak_edge_pruning_during_evolution" [true; false] in
  [
    Word "dotnet"; Word "run"; Word "--project"; Word project;
    Word "-c"; Word "Release"; Word "--";
    IntArg "species_count" species_count;
    IntArg "individuals_per_species" individuals_per_species;
    IntArg "min_species_count" min_species_count;
    IntArg "elites" elites;
    IntArg "tournament_size" tournament_size;
    FloatArg "parent_pool_percentage" parent_pool_percentage;
    IntArg "grace_generations" grace_generations;
    IntArg "stagnation_threshold" stagnation_threshold;
    FloatArg "species_diversity_threshold" species_diversity_threshold;
    FloatArg "relative_performance_threshold" relative_performance_threshold;
    FloatArg "weight_jitter" weight_jitter;
    FloatArg "weight_jitter_stddev" weight_jitter_stddev;
    FloatArg "weight_reset" weight_reset;
    FloatArg "weight_l1_shrink" weight_l1_shrink;
    FloatArg "l1_shrink_factor" l1_shrink_factor;
    FloatArg "activation_swap" activation_swap;
    FloatArg "node_param_mutate" node_param_mutate;
    FloatArg "node_param_stddev" node_param_stddev;
    FloatArg "edge_add" edge_add;
    FloatArg "edge_delete_random" edge_delete_random;
    FloatArg "edge_split" edge_split;
    FloatArg "edge_redirect" edge_redirect;
    FloatArg "edge_swap" edge_swap;
    BoolArg "weak_edge_pruning_enabled" weak_edge_pruning_enabled;
    FloatArg "weak_edge_pruning_threshold" weak_edge_pruning_threshold;
    FloatArg "weak_edge_pruning_base_rate" weak_edge_pruning_base_rate;
    BoolArg "weak_edge_pruning_on_birth" weak_edge_pruning_on_birth;
    BoolArg "weak_edge_pruning_during_evolution" weak_edge_pruning_during_evolution
  ].

End OptunaSweepRosenbrock.

(* ================================================================== *)
(** * Trial outcomes *)

Module Outcome.
Import Trial Evaluation.

(** Modelled from the spec: [TrialOutcome] (section 3).  The Python code has
    no such type: the outcome of an evaluation is the way the body of its
    [try] statement ends, a returned fitness or the exception that one of
    the three [except] clauses catches (the third one catches the
    [ValueError] of [float] and the [UnicodeDecodeError] of an output that
    does not decode). *)
Inductive TrialOutcome : Type :=
| Success (fitness : pyfloat)
| Timeout
| ProcessError (message : str)
| ParseError.

(** [None]: an exception that no clause catches. *)
Definition classify (r : result pyfloat) : option TrialOutcome :=
  match r with
  | Return fitness => Some (Success fitness)
  | Raise (TimeoutExpired _ _) => Some Timeout
  | Raise (CalledProcessError _ _ err) => Some (ProcessError err)
  | Raise ValueError | Raise UnicodeDecodeError => Some ParseError
  | Raise _ => None
  end.

(** The outcome of evaluating the command line [args] under [timeout]. *)
Definition outcome (os : list arg -> child) (timeout : Q) (args : list arg)
  : option TrialOutcome :=
  classify (fst (try_block os timeout args fresh)).

Definition is_failure (o : TrialOutcome) : bool :=
  match o with
  | Success _ => false
  | _ => true
  end.

End Outcome.

(* ================================================================== *)
(** * The study: what the optimizer stores about a trial *)

Module Study.

Inductive TrialState : Type := RUNNING | COMPLETE | PRUNED | FAIL | WAITING.

Definition state_eqb (a b : TrialState) : bool :=
  match a, b with
  | RUNNING, RUNNING | COMPLETE, COMPLETE | PRUNED, PRUNED
  | FAIL, FAIL | WAITING, WAITING => true
  | _, _ => false
  end.

(** The fields of a stored trial that the monitor reads.  Times are seconds
    on the clock of the store. *)
Record FrozenTrial : Type := {
  number : nat;
  state : TrialState;
  value : option pyfloat;
  datetime_start : option Q;
  datetime_complete : option Q
}.

(** The optimizer's treatment of one trial (library code, not part of the
    repository; this is its documented contract).  The objective is called
    once; a returned float other than NaN is stored as the trial's value and
    the trial is COMPLETE; NaN, or an exception leaving the objective, makes
    the trial FAIL, with no value. *)
Definition run_trial (objective : Trial.handle -> Trial.M pyfloat)
    (trial : Trial.handle) (started finished : Q) : FrozenTrial :=
  match fst (objective trial Trial.fresh) with
  | Return v =>
      if isnan v
      then {| number := Trial.number trial; state := FAIL; value := None;
              datetime_start := Some started;
              datetime_complete := Some finished |}
      else {| number := Trial.number trial; state := COMPLETE; value := Some v;
              datetime_start := Some started;
              datetime_complete := Some finished |}
  | Raise _ =>
      {| number := Trial.number trial; state := FAIL; value := None;
         datetime_start := Some started; datetime_complete := Some finished |}
  end.

(** A trial that has been started and is still being evaluated. *)
Definition running_trial (n : nat) (started : Q) : FrozenTrial :=
  {| number := n; state := RUNNING; value := None;
     datetime_start := Some started; datetime_complete := None |}.

Definition value_lt (a b : FrozenTrial) : bool :=
  match value a, value b with
  | Some x, Some y => float_lt x y
  | _, _ => false
  end.

(** [study.best_trial] for a study that maximizes (library code): a
    COMPLETE trial of maximal value, the earliest one here; [ValueError]
    when no trial is COMPLETE. *)
Definition best_trial (trials : list FrozenTrial) : result FrozenTrial :=
  match filter (fun t => state_eqb (state t) COMPLETE) trials with
  | [] => Raise ValueError
  | t :: ts =>
      Return (fold_left (fun best u => if value_lt best u then u else best)
                        ts t)
  end.

End Study.

(* ================================================================== *)
(** * monitor_optuna.py *)

Module Monitor.
Import Study FitnessCodec.

(** Line 41. *)
Definition completed_trials (trials : list FrozenTrial) : list FrozenTrial :=
  filter (fun t => state_eqb (state t) COMPLETE) trials.

(** Line 42. *)
Definition running_trials (trials : list FrozenTrial) : list FrozenTrial :=
  filter (fun t => state_eqb (state t) RUNNING) trials.

(** [a < b] on two sort keys [t.value]: comparing with [None] is a
    [TypeError]. *)
Definition key_lt (a b : option pyfloat) : result bool :=
  match a, b with
  | Some x, Some y => Return (float_lt x y)
  | _, _ => Raise TypeError
  end.

(** [sorted(l, key=lambda t: t.value, reverse=True)]: a stable sort into
    descending order (elements with equal keys keep their order).  It is an
    insertion sort here; Python's sort returns the same list whenever the
    keys are totally ordered, which excludes NaN. *)
Fixpoint insert_desc (x : FrozenTrial) (l : list FrozenTrial)
  : result (list FrozenTrial) :=
  match l with
  | [] => Return [x]
  | y :: l' =>
      below <- key_lt (value x) (value y) ;;
      if below : bool
      then r <- insert_desc x l' ;; Return (y :: r)
      else Return (x :: y :: l')
  end.

Fixpoint sorted_desc (l : list FrozenTrial) : result (list FrozenTrial) :=
  match l with
  | [] => Return []
  | x :: xs => s <- sorted_desc xs ;; insert_desc x s
  end.

(** Line 60. *)
Definition top_trials (completed : list FrozenTrial)
  : result (list FrozenTrial) :=
  s <- sorted_desc completed ;; Return (firstn 5 s).

(** Lines 51-52 and 62-63 on a stored value. *)
Definition decode_value (v : option pyfloat) : result (Z * pyfloat) :=
  match v with
  | Some x => decode x
  | None => Raise TypeError
  end.

(** Lines 47-57. *)
Record BestReport : Type := {
  best_number : nat;
  best_value : option pyfloat;
  solve_rate : Z;
  seeds : Z;
  avg_fitness : pyfloat
}.

Definition best_report (trials : list FrozenTrial) : result BestReport :=
  best <- best_trial trials ;;
  d <- decode_value (value best) ;;
  Return {| best_number := number best; best_value := value best;
            solve_rate := fst d; seeds := fst d / 20; avg_fitness := snd d |}.

(** Lines 61-64. *)
Record TopLine : Type := {
  rank : nat;
  trial_number : nat;
  trial_value : option pyfloat;
  sr : Z;
  af : pyfloat
}.

Fixpoint top_lines (i : nat) (l : list FrozenTrial) : result (list TopLine) :=
  match l with
  | [] => Return []
  | t :: l' =>
      d <- decode_value (value t) ;;
      rest <- top_lines (S i) l' ;;
      Return ({| rank := i; trial_number := number t; trial_value := value t;
                 sr := fst d; af := snd d |} :: rest)
  end.

(** [l[-10:]] *)
Definition recent (completed : list FrozenTrial) : list FrozenTrial :=
  skipn (List.length completed - 10) completed.

(** [(t.datetime_complete - t.datetime_start).total_seconds()] *)
Definition duration (t : FrozenTrial) : result Q :=
  match datetime_complete t, datetime_start t with
  | Some c, Some s => Return (c - s)%Q
  | _, _ => Raise TypeError
  end.

Fixpoint sum_durations (l : list FrozenTrial) : result Q :=
  match l with
  | [] => Return 0%Q
  | t :: l' =>
      d <- duration t ;;
      rest <- sum_durations l' ;;
      Return (d + rest)%Q
  end.

(** The fixed number of trials the progress lines are computed against
    (lines 71 and 74). *)
Definition target_total : Z := 200.

(** Lines 67-76. *)
Record Progress : Type := {
  avg_time : Q;
  remaining : Z;
  eta_seconds : Q;
  eta_hours : Q;
  percent : Z
}.

Definition progress (completed : list FrozenTrial) : result (option Progress) :=
  if (1 <? List.length completed)%nat then
    let recent := recent completed in
    if (1 <? List.length recent)%nat then
      total <- sum_durations recent ;;
      let avg_time := (total / inject_Z (Z.of_nat (List.length recent)))%Q in
      let remaining := target_total - Z.of_nat (List.length completed) in
      let eta_seconds := (inject_Z remaining * avg_time)%Q in
      let eta_hours := (eta_seconds / 3600)%Q in
      Return (Some {| avg_time := avg_time; remaining := remaining;
                      eta_seconds := eta_seconds; eta_hours := eta_hours;
                      percent := Z.of_nat (List.length completed) * 100 / 200 |})
    else Return None
  else Return None.

(** What one pass of the loop prints (lines 40-76). *)
Record Summary : Type := {
  n_completed : nat;
  n_running : nat;
  n_total : nat;
  best : option BestReport;
  top : list TopLine;
  eta : option Progress
}.

Definition iteration (trials : list FrozenTrial) : result Summary :=
  let completed := completed_trials trials in
  let running := running_trials trials in
  match completed with
  | [] =>
      Return {| n_completed := List.length completed; n_running := List.length running;
                n_total := List.length trials;
                best := None; top := []; eta := None |}
  | _ :: _ =>
      b <- best_report trials ;;
      tops <- top_trials completed ;;
      lines <- top_lines 1 tops ;;
      p <- progress completed ;;
      Return {| n_completed := List.length completed; n_running := List.length running;
                n_total := List.length trials;
                best := Some b; top := lines; eta := p |}
  end.

(** The loop body with its [except Exception] clause (lines 33-85): an
    exception is printed and the loop goes on. *)
Inductive printed : Type :=
| Status (s : Summary)
| Error (e : exn).

Definition loop_body (trials : list FrozenTrial) : printed :=
  match iteration trials with
  | Return s => Status s
  | Raise e => Error e
  end.

End Monitor.

(* ================================================================== *)
(** * The spec's wording of the progress computations *)

Module ProgressSpec.
Import Study.

(** "Sorted by fitness descending, ties by trial index ascending": [a] is
    listed before [b] when its value is greater, or when neither value is
    greater and its number is smaller. *)
Definition ranks_before (a b : FrozenTrial) : Prop :=
  value_lt b a = true \/
  (value_lt a b = false /\ value_lt b a = false /\ (number a < number b)%nat).

(** A stored trial that has a value other than NaN. *)
Definition valued (t : FrozenTrial) : bool :=
  match value t with
  | Some v => negb (isnan v)
  | None => false
  end.

(** A stored trial that has both of its times. *)
Definition timed (t : FrozenTrial) : bool :=
  match datetime_complete t, datetime_start t with
  | Some _, Some _ => true
  | _, _ => false
  end.

(** Wall-clock seconds of a trial that has both of its times. *)
Definition seconds (t : FrozenTrial) : Q :=
  match datetime_complete t, datetime_start t with
  | Some c, Some s => (c - s)%Q
  | _, _ => 0%Q
  end.

(** "The last [n], or fewer if not yet available". *)
Definition last_n (n : nat) (l : list FrozenTrial) : list FrozenTrial :=
  rev (firstn n (rev l)).

(** "Mean wall-clock duration per trial" over a window. *)
Definition mean_duration (window : list FrozenTrial) : Q :=
  (fold_right Qplus 0 (map seconds window)
   / inject_Z (Z.of_nat (List.length window)))%Q.

(** [eta = remaining * mean_duration], [remaining = target_total -
    completed_count], over the last ten completed records. *)
Definition eta_spec (target_total : Z) (completed : list FrozenTrial) : Q :=
  (inject_Z (target_total - Z.of_nat (List.length completed))
   * mean_duration (last_n 10 completed))%Q.

(** A value that [int()] accepts: not positive infinity (negative infinity
    and NaN are not positive, so that [int()] is not called on them). *)
Definition decodable (t : FrozenTrial) : bool :=
  match value t with
  | Some PosInf => false
  | Some _ => true
  | None => false
  end.

End ProgressSpec.

(* ================================================================== *)
(** * Concrete inputs used by the examples *)

Module Examples.
Import Trial Study.
Local Open Scope string_scope.

(** A sampler that always answers the lower bound (the first choice). *)
Definition lowest : Sampler :=
  {| sample_int := fun _ low _ => low;
     sample_float := fun _ low _ => low;
     sample_categorical := fun _ choices => hd true choices |}.

(** A sampler that answers 6 for [species_count]. *)
Definition six_species : Sampler :=
  {| sample_int := fun name low _ =>
       if String.eqb name "species_count" then 6 else low;
     sample_float := fun _ low _ => low;
     sample_categorical := fun _ choices => hd true choices |}.

Definition trial0 : handle := {| Trial.number := 0; sampler := lowest |}.
Definition trial6 : handle := {| Trial.number := 0; sampler := six_species |}.

(** Trainers: one that never exits after printing a number, one that fails
    after printing a number, one that prints noise, a number and blank
    lines, one that prints no number, one that cannot be started, one that
    may not be executed. *)
Definition hangs (_ : list arg) : child :=
  Hangs (Text "42.0") (Text EmptyString).
Definition slow (_ : list arg) : child :=
  Exits 5000 0 (Text "42.0") (Text EmptyString).
Definition crashes (_ : list arg) : child :=
  Exits 12 1 (Text "42.0") (Text "boom").
Definition noisy (_ : list arg) : child :=
  Exits 12 0 (Text "warming up
gen 1 best -0.31
  59.95  
 
") (Text EmptyString).
Definition silent (_ : list arg) : child := Exits 12 0 (Text " 
") (Text EmptyString).
Definition garbled (_ : list arg) : child :=
  Exits 12 0 (Text "done") (Text EmptyString).
Definition missing (_ : list arg) : child := NoSuchExecutable.
Definition forbidden (_ : list arg) : child := NotPermitted.

(** Trainers whose standard output does not decode (the bytes FF FE 0A
    under UTF-8): one that exits with status 0, one that exits with
    status 1. *)
Definition undecodable (_ : list arg) : child :=
  Exits 12 0 Undecodable (Text EmptyString).
Definition crashes_undecodable (_ : list arg) : child :=
  Exits 12 1 Undecodable (Text "boom").

(** The separator FS (code 28), and trainers whose last line has it after
    or before the number: the texts ['0.5\n2.5\x1c\n'] and
    ['0.5\n\x1c2.5\n']. *)
Definition FS : str := String "028"%char EmptyString.
Definition LF : str := String PyStr.newline EmptyString.
Definition separator_after (_ : list arg) : child :=
  Exits 12 0 (Text ("0.5" ++ LF ++ "2.5" ++ FS ++ LF)) (Text EmptyString).
Definition separator_before (_ : list arg) : child :=
  Exits 12 0 (Text ("0.5" ++ LF ++ FS ++ "2.5" ++ LF)) (Text EmptyString).

(** A completed record. *)
Definition completed_at (n : nat) (v : Q) (started finished : Q) : FrozenTrial :=
  {| Study.number := n; state := COMPLETE; value := Some (Fin v);
     datetime_start := Some started; datetime_complete := Some finished |}.

(** A completed record whose value is the example of the Rosenbrock
    objective's docstring, 59.95. *)
Definition docstring_example : FrozenTrial :=
  {| Study.number := 0; state := COMPLETE; value := Some (binary64 59.95);
     datetime_start := Some 0%Q; datetime_complete := Some 60%Q |}.

(** The five records of the spec's ranking example. *)
Definition ranking_example : list FrozenTrial :=
  [ completed_at 0 10 0 60; completed_at 1 55.2 60 120;
    completed_at 2 3 120 180; completed_at 3 55.2 180 240;
    completed_at 4 90 240 300 ].

(** [n] completed records, numbered from 0, each taking 30 seconds. *)
Definition steady (n : nat) : list FrozenTrial :=
  map (fun i => completed_at i 1 (inject_Z (Z.of_nat i) * 30)
                              (inject_Z (Z.of_nat i) * 30 + 30))
      (seq 0 n).

(** [n] completed records whose two times are equal. *)
Definition instant (n : nat) : list FrozenTrial :=
  map (fun i => completed_at i 1 0 0) (seq 0 n).

End Examples.

(* ================================================================== *)
(** * Samplers that respect the declared ranges *)

Module Bounds.
Import Trial.

(** The library answers a [suggest_int] within the range it is asked. *)
Definition int_in_range (s : Sampler) : Prop :=
  forall (name : str) (low high : Z),
    low <= high -> low <= sample_int s name low high <= high.

(** The [name=value] tokens of a command line, and the names and values of
    a list of suggestions. *)
Definition token (a : arg) : option (str * param_value) :=
  match a with
  | Word _ => None
  | IntArg name v => Some (name, PInt v)
  | FloatArg name v => Some (name, PFloat v)
  | BoolArg name v => Some (name, PBool v)
  end.

Definition suggested (s : suggestion) : option (str * param_value) :=
  Some (s_name s, s_value s).

End Bounds.

(* ================================================================== *)
(** * The sweep's [main]: optimisation and final results *)

Module Optimizer.
Import Trial Study.

(** What the store keeps of a trial beside the fields the monitor reads:
    its parameters, in the order they were suggested. *)
Record StoredTrial : Type := {
  frozen : FrozenTrial;
  stored_params : list suggestion
}.

(** What varies from trial to trial: the sampler's answers and the clock. *)
Record Env : Type := {
  sampler_at : nat -> Sampler;
  started_at : nat -> Q;
  finished_at : nat -> Q
}.

Definition handle_of (env : Env) (n : nat) : handle :=
  {| Trial.number := n; sampler := sampler_at env n |}.

Definition run_stored (objective : handle -> M pyfloat) (env : Env) (n : nat)
  : StoredTrial :=
  {| frozen := run_trial objective (handle_of env n)
                         (started_at env n) (finished_at env n);
     stored_params := params (snd (objective (handle_of env n) fresh)) |}.

(** [study.optimize(objective, n_trials=n, n_jobs=1)] (library code): the
    trials are run one after the other, each numbered with the number of
    trials already in the study; every trial is stored; an exception that
    leaves the objective ends the optimisation and is raised again (no
    exception is listed to be caught). *)
Fixpoint optimize (objective : handle -> M pyfloat) (env : Env)
    (n_trials : nat) (study : list StoredTrial)
  : list StoredTrial * option exn :=
  match n_trials with
  | O => (study, None)
  | S n' =>
      let number := List.length study in
      let study' := study ++ [run_stored objective env number] in
      match fst (objective (handle_of env number) fresh) with
      | Raise e => (study', Some e)
      | Return _ => optimize objective env n' study'
      end
  end.

Definition stored_lt (a b : StoredTrial) : bool :=
  value_lt (frozen a) (frozen b).

(** [study.best_trial] with its parameters. *)
Definition best_stored (study : list StoredTrial) : result StoredTrial :=
  match filter (fun t => state_eqb (state (frozen t)) COMPLETE) study with
  | [] => Raise ValueError
  | t :: ts =>
      Return (fold_left (fun best u => if stored_lt best u then u else best)
                        ts t)
  end.

(** optuna_sweep.py, lines 185-198: the best trial's number, value and
    parameters ([study.best_params], a dict in insertion order), printed
    and written to the results file. *)
Record Results : Type := {
  best_number : nat;
  best_fitness : option pyfloat;
  best_params : list (str * param_value)
}.

Definition results (study : list StoredTrial) : result Results :=
  best <- best_stored study ;;
  Return {| best_number := Study.number (frozen best);
            best_fitness := value (frozen best);
            best_params :=
              map (fun s => (s_name s, s_value s)) (stored_params best) |}.

(** optuna_sweep.py, [main], lines 157-198, on a study that may hold
    trials already ([load_if_exists=True]). *)
Definition main (os : list arg -> child) (env : Env) (n_trials : nat)
    (study : list StoredTrial) : result Results :=
  match optimize (OptunaSweep.objective os) env n_trials study with
  | (_, Some e) => Raise e
  | (study', None) => results study'
  end.

End Optimizer.

(* ================================================================== *)
(** * optuna_sweep_rosenbrock.py: the final report *)

Module RosenbrockReport.
Import Study FitnessCodec.

(** Line 223, the sort key [t.value if t.value is not None else
    float('-inf')]. *)
Definition report_key (t : FrozenTrial) : pyfloat :=
  match value t with
  | Some v => v
  | None => NegInf
  end.

(** [sorted(study.trials, key=..., reverse=True)], stable and descending as
    in the monitor; the keys are floats, so that no comparison fails. *)
Fixpoint insert_by_key (x : FrozenTrial) (l : list FrozenTrial)
  : list FrozenTrial :=
  match l with
  | [] => [x]
  | y :: l' =>
      if float_lt (report_key x) (report_key y)
      then y :: insert_by_key x l'
      else x :: y :: l'
  end.

Fixpoint sorted_by_key (l : list FrozenTrial) : list FrozenTrial :=
  match l with
  | [] => []
  | x :: xs => insert_by_key x (sorted_by_key xs)
  end.

(** One entry of the "Top 10 Trials" section (line 228; the parameter lines
    that follow it in the file are not modelled). *)
Record Entry : Type := {
  e_rank : nat;
  e_number : nat;
  e_value : pyfloat;
  e_sr : Z;
  e_af : pyfloat
}.

(** Lines 224-228: [for i, t in enumerate(trials[:10], 1)], writing the
    trials that have a value. *)
Fixpoint entries (i : nat) (l : list FrozenTrial) : result (list Entry) :=
  match l with
  | [] => Return []
  | t :: l' =>
      match value t with
      | Some v =>
          d <- decode v ;;
          rest <- entries (S i) l' ;;
          Return ({| e_rank := i; e_number := number t; e_value := v;
                     e_sr := fst d; e_af := snd d |} :: rest)
      | None => entries (S i) l'
      end
  end.

Definition top10 (trials : list FrozenTrial) : result (list Entry) :=
  entries 1 (firstn 10 (sorted_by_key trials)).

(** Lines 192-197 and 223-228: the best trial, its decoded value, the top
    ten. *)
Record Report : Type := {
  r_best_number : nat;
  r_best_value : option pyfloat;
  r_solve_rate_approx : Z;
  r_avg_fitness_approx : pyfloat;
  r_top : list Entry
}.

Definition report (trials : list FrozenTrial) : result Report :=
  best <- best_trial trials ;;
  d <- Monitor.decode_value (value best) ;;
  top <- top10 trials ;;
  Return {| r_best_number := number best; r_best_value := value best;
            r_solve_rate_approx := fst d; r_avg_fitness_approx := snd d;
            r_top := top |}.

(** A trial whose sort key is a number, and "listed not after": the key of
    [a] is not less than the key of [b]. *)
Definition keyed (t : FrozenTrial) : Prop := isnan (report_key t) = false.

Definition key_not_less (a b : FrozenTrial) : Prop :=
  float_lt (report_key a) (report_key b) = false.

End RosenbrockReport.

(* ================================================================== *)
(** * monitor_optuna.py: the loop *)

Module MonitorLoop.
Import Study Monitor.

(** One pass of [while True]: what [optuna.load_study] gives, and whether
    Ctrl+C arrives while the pass sleeps. *)
Record pass : Type := {
  load : result (list FrozenTrial);
  ctrl_c : bool
}.

Inductive shown : Type :=
| Shown (p : printed)
| MonitoringStopped.

(** How a run over finitely many passes ends: the loop is still going, it
    was left through [break], or a [KeyboardInterrupt] left [main]. *)
Inductive ending : Type :=
| StillRunning
| Stopped
| Interrupted.

(** Lines 32-85.  The [try] body loads the study, prints the status and
    sleeps; [except KeyboardInterrupt] prints and breaks; [except Exception]
    prints the error and sleeps, outside the [try] body, where no clause
    catches a [KeyboardInterrupt]. *)
Fixpoint main (passes : list pass) : list shown * ending :=
  match passes with
  | [] => ([], StillRunning)
  | p :: rest =>
      match (trials <- load p ;; iteration trials) with
      | Return s =>
          if ctrl_c p
          then ([Shown (Status s); MonitoringStopped], Stopped)
          else let (out, e) := main rest in (Shown (Status s) :: out, e)
      | Raise err =>
          if ctrl_c p
          then ([Shown (Error err)], Interrupted)
          else let (out, e) := main rest in (Shown (Error err) :: out, e)
      end
  end.

Definition quiet (p : pass) : bool := negb (ctrl_c p).

(** What a pass prints. *)
Definition shows (p : pass) : shown :=
  match (trials <- load p ;; iteration trials) with
  | Return s => Shown (Status s)
  | Raise err => Shown (Error err)
  end.

End MonitorLoop.

(* ================================================================== *)
(** * What an evaluation prints *)

Module Diagnostics.
Import Trial PyStr.

(** The lines an evaluation of trial [n] prints, by what the child does:
    nothing when the fitness is parsed (or the child cannot be started and
    the exception leaves the objective), the trial's number when it timed
    out, the exception and the captured standard error when it failed, the
    exception and the captured standard output when no number is parsed,
    and the exception alone when the output does not decode, whatever the
    exit status. *)
Definition printed_lines (n : nat) (timeout : Q) (c : child) : list line :=
  match c with
  | Hangs _ _ => [Line_timed_out n]
  | Exits seconds status out err =>
      if Qltb timeout seconds then [Line_timed_out n]
      else
        match out, err with
        | Text out, Text err =>
            if status =? 0 then
              match float (last_item (split_lines (strip out))) with
              | Return _ => []
              | Raise e => [Line_failed_to_parse n e; Line_output out]
              end
            else [Line_failed_with_error n (CalledProcessError status out err);
                  Line_stderr err]
        | _, _ => [Line_failed_to_parse n UnicodeDecodeError]
        end
  | _ => []
  end.

End Diagnostics.

(* ================================================================== *)
(** * optuna_sweep_rosenbrock.py: [main] *)

Module RosenbrockMain.
Import Trial Study Optimizer RosenbrockReport.

(** Lines 157-228: the optimisation, then the report on the trials of the
    study. *)
Definition main (os : list arg -> child) (env : Env) (n_trials : nat)
    (study : list StoredTrial) : result Report :=
  match optimize (OptunaSweepRosenbrock.objective os) env n_trials study with
  | (_, Some e) => Raise e
  | (study', None) => report (map frozen study')
  end.

End RosenbrockMain.

(* ================================================================== *)
(** * Concrete inputs for the sweeps' [main] *)

Module SweepExamples.
Import Trial Optimizer Examples.

(** Every trial is answered by the sampler [lowest] and takes 600 seconds
    on the clock. *)
Definition steady_env : Env :=
  {| sampler_at := fun _ => lowest;
     started_at := fun i => (inject_Z (Z.of_nat i) * 600)%Q;
     finished_at := fun i => (inject_Z (Z.of_nat i) * 600 + 600)%Q |}.

End SweepExamples.

(* ================================================================== *)
(** * Facts about the numbers *)

Section Numbers.

Lemma Qltb_lt (x y : Q) : Qltb x y = true <-> (x < y)%Q.
Proof.
  unfold Qltb. rewrite negb_true_iff. split; intro H.
  - apply Qnot_le_lt. intro L. apply Qle_bool_iff in L. congruence.
  - destruct (Qle_bool y x) eqn:E; trivial.
    apply Qle_bool_iff in E. exfalso. apply (Qlt_not_le _ _ H E).
Qed.

Lemma Qltb_ge (x y : Q) : Qltb x y = false <-> (y <= x)%Q.
Proof.
  unfold Qltb. rewrite negb_false_iff. apply Qle_bool_iff.
Qed.

Lemma Qfloor_unique (x : Q) (n : Z) :
  (inject_Z n <= x)%Q -> (x < inject_Z n + 1)%Q -> Qfloor x = n.
Proof.
  intros Hlo Hhi.
  pose proof (Qfloor_le x) as F1. pose proof (Qlt_floor x) as F2.
  assert (A : (inject_Z (Qfloor x) < inject_Z (n + 1))%Q).
  { rewrite inject_Z_plus. change (inject_Z 1) with 1%Q. lra. }
  assert (B : (inject_Z n < inject_Z (Qfloor x + 1))%Q).
  { rewrite inject_Z_plus in F2 |- *.
    change (inject_Z 1) with 1%Q in F2 |- *. lra. }
  rewrite <- Zlt_Qlt in A, B. lia.
Qed.

Lemma int_of_positive (q : Q) :
  (0 < q)%Q -> Z.quot (Qnum q) (Zpos (Qden q)) = Qfloor q.
Proof.
  intro H. unfold Qfloor. destruct q as [n d]. simpl.
  apply Z.quot_div_nonneg; [|lia].
  unfold Qlt in H. simpl in H. lia.
Qed.

End Numbers.

(* ================================================================== *)
(** * FitnessCodec: decoding *)

Section Codec.
Import FitnessCodec.

Lemma feq_refl (a : pyfloat) : a =~ a.
Proof. destruct a; simpl; trivial. reflexivity. Qed.

Lemma float_sub_zero (a : pyfloat) : float_sub_int a 0 =~ a.
Proof. destruct a; simpl; trivial. change (inject_Z 0) with 0%Q. ring. Qed.

Lemma decoded_eq_refl (r : result (Z * pyfloat)) : decoded_eq r r.
Proof. destruct r as [[p s]|e]; simpl; auto using feq_refl. Qed.

Lemma decode_Fin (q : Q) :
  decode (Fin q) =
  if Qltb 0 q
  then Return (Qfloor q, Fin (q - inject_Z (Qfloor q)))
  else Return (0, Fin (q - inject_Z 0)).
Proof.
  unfold decode. cbn [float_gt float_lt].
  destruct (Qltb 0 q) eqn:G; cbn [int rbind float_sub_int]; trivial.
  apply Qltb_lt in G. rewrite (int_of_positive G). reflexivity.
Qed.

(** [decode] returns for every value but positive infinity. *)
Lemma decode_returns_unless_infinite (value : pyfloat) :
  value <> PosInf ->
  exists p s,
    decode value = Return (p, s) /\
    (float_gt value (Fin 0) = true ->
     floor value = Return p /\ s = float_sub_int value p) /\
    (float_gt value (Fin 0) = false -> p = 0 /\ s =~ value).
Proof.
  intro N. destruct value as [q| | |]; [|congruence|..].
  - rewrite decode_Fin. cbn [float_gt float_lt floor].
    destruct (Qltb 0 q) eqn:G.
    + do 2 eexists. split; [reflexivity|]. split; [now split|discriminate].
    + do 2 eexists. split; [reflexivity|]. split; [discriminate|].
      intros _. split; [reflexivity|]. exact (float_sub_zero (Fin q)).
  - exists 0, NegInf. split; [reflexivity|]. split; [discriminate|now split].
  - exists 0, NaN. split; [reflexivity|]. split; [discriminate|now split].
Qed.

(** C2: the claim fails at positive infinity, a value greater than 0 for
    which [decode] returns nothing ([int()] raises [OverflowError]); and
    at 59.95 the secondary [decode] returns, [59.95 - 59], is not the float
    [0.95]. *)
Lemma decode_fails_at_infinity_and_is_inexact_at_59_95 :
  float_gt PosInf (Fin 0) = true /\
  decode PosInf = Raise OverflowError /\
  (forall p s, decode PosInf <> Return (p, s)) /\
  ~ decoded_eq (decode (binary64 59.95)) (Return (59, binary64 0.95)).
Proof.
  split; [reflexivity|]. split; [reflexivity|]. split; [discriminate|].
  vm_compute. intros [_ H]. discriminate H.
Qed.

(** C2, as the code has it.  For every float other than positive infinity
    [decode] returns: for a positive value the integer part is its floor
    (which is what [int()] truncates a positive number to) and the
    secondary is the value minus that; for any other value (zero, a
    negative number, negative infinity, NaN) the integer part is 0 and the
    secondary is the value.  At positive infinity it raises
    [OverflowError].  [decode(0.0)] is [(0, 0.0)], [decode(-0.37)] is
    [(0, -0.37)], and [decode(59.95)] is [(59, 59.95 - 59)], a secondary
    within [1e-14] of 0.95. *)
Theorem decode_floor_or_zero_unless_infinite :
  (forall value, value <> PosInf ->
     exists p s,
       decode value = Return (p, s) /\
       (float_gt value (Fin 0) = true ->
        floor value = Return p /\ s = float_sub_int value p) /\
       (float_gt value (Fin 0) = false -> p = 0 /\ s =~ value)) /\
  decode PosInf = Raise OverflowError /\
  decoded_eq (decode (binary64 0.0)) (Return (0, binary64 0.0)) /\
  decoded_eq (decode (binary64 (-0.37))) (Return (0, binary64 (-0.37))) /\
  (exists s,
     decode (binary64 59.95) = Return (59, Fin s) /\
     Fin s = float_sub_int (binary64 59.95) 59 /\
     (Qabs (s - 0.95) < 1 # 100000000000000)%Q).
Proof.
  split; [exact decode_returns_unless_infinite|].
  split; [reflexivity|].
  split; [vm_compute; split; reflexivity|].
  split; [vm_compute; split; reflexivity|].
  eexists. split; [vm_compute; reflexivity|]. split; [reflexivity|].
  reflexivity.
Qed.

(** The value 2.5 decodes to 2 and 0.5. *)
Lemma decode_floor_or_zero_unless_infinite_witness :
  exists p s,
    decode (Fin 2.5) = Return (p, s) /\
    (float_gt (Fin 2.5) (Fin 0) = true ->
     floor (Fin 2.5) = Return p /\ s = float_sub_int (Fin 2.5) p) /\
    (float_gt (Fin 2.5) (Fin 0) = false -> p = 0 /\ s =~ Fin 2.5).
Proof.
  apply (proj1 decode_floor_or_zero_unless_infinite (Fin 2.5)).
  discriminate.
Defined.

(** No decoder can invert [encode] on integers 0..100 and secondaries of
    magnitude below 1: two such pairs have the same code. *)
Remark encode_is_not_injective :
  encode 60 (Fin (-0.05)) =~ encode 59 (Fin 0.95).
Proof. vm_compute. reflexivity. Qed.

(** C1, at the example of the Rosenbrock objective's docstring
    (optuna_sweep_rosenbrock.py, lines 30-32): a solve rate of 60 percent
    and an average fitness of -0.05 are encoded as 59.95, within the
    claim's ranges.  The code decodes that value to 59 and 0.95 (to within
    [1e-14]; exactly so for the exact sum), not to 60 and -0.05, and the
    monitor shows it as 59 percent and 2 of 5 seeds. *)
Theorem docstring_example_decodes_to_59 :
  (0 <= 60 <= 100)%Z /\ (Qabs (-0.05) < 1)%Q /\
  encode 60 (Fin (-0.05)) =~ Fin 59.95 /\
  decoded_eq (decode (encode 60 (Fin (-0.05)))) (Return (59, Fin 0.95)) /\
  ~ decoded_eq (decode (encode 60 (Fin (-0.05)))) (Return (60, Fin (-0.05))) /\
  (exists s,
     decode (binary64 59.95) = Return (59, Fin s) /\
     (Qabs (s - 0.95) < 1 # 100000000000000)%Q) /\
  (exists r,
     Monitor.best_report [Examples.docstring_example] = Return r /\
     Monitor.solve_rate r = 59 /\ Monitor.seeds r = 2).
Proof.
  split; [lia|]. split; [reflexivity|]. split; [vm_compute; reflexivity|].
  split; [vm_compute; split; reflexivity|].
  split; [vm_compute; intros [H _]; discriminate H|].
  split.
  - eexists. split; [vm_compute; reflexivity|reflexivity].
  - eexists. split; [vm_compute; reflexivity|]. split; reflexivity.
Qed.

(** The decoder on an exact sum.  For an integer [pct] in 0..100 and a
    secondary of magnitude below 1, decoding the rational [pct + secondary]
    gives back [(pct, secondary)] when the secondary is not negative or
    [pct] is 0, and gives [(pct - 1, secondary + 1)] otherwise. *)
Lemma roundtrip_characterised (pct : Z) (sec : Q) :
  0 <= pct <= 100 -> (Qabs sec < 1)%Q ->
  decoded_eq (decode (encode pct (Fin sec)))
    (if Qle_bool 0 sec || (pct =? 0)
     then Return (pct, Fin sec)
     else Return (pct - 1, Fin (sec + 1))).
Proof.
  intros Hp Hs.
  apply Qabs_Qlt_condition in Hs. destruct Hs as [Hlo Hhi].
  unfold encode, int_add_float. rewrite decode_Fin.
  assert (P0 : (0 <= inject_Z pct)%Q).
  { change 0%Q with (inject_Z 0). rewrite <- Zle_Qle. lia. }
  destruct (Qltb 0 (inject_Z pct + sec)) eqn:G.
  - apply Qltb_lt in G.
    destruct (Qle_bool 0 sec) eqn:S; cbn [orb].
    + apply Qle_bool_iff in S.
      rewrite (@Qfloor_unique _ pct) by lra.
      split; [reflexivity|]. simpl. ring.
    + assert (S' : (sec < 0)%Q).
      { apply Qnot_le_lt. intro L. apply Qle_bool_iff in L. congruence. }
      destruct (pct =? 0) eqn:Z0.
      * apply Z.eqb_eq in Z0. subst pct. change (inject_Z 0) with 0%Q in G. lra.
      * apply Z.eqb_neq in Z0.
        assert (P1 : (1 <= inject_Z pct)%Q).
        { change 1%Q with (inject_Z 1). rewrite <- Zle_Qle. lia. }
        assert (E : (inject_Z (pct - 1) == inject_Z pct - 1)%Q).
        { unfold Z.sub. rewrite inject_Z_plus. reflexivity. }
        rewrite (@Qfloor_unique _ (pct - 1)) by (rewrite E; lra).
        split; [reflexivity|]. simpl. rewrite E. ring.
  - apply Qltb_ge in G.
    destruct (Qle_bool 0 sec) eqn:S; cbn [orb].
    + apply Qle_bool_iff in S.
      assert (pct = 0).
      { assert (A : (inject_Z pct <= inject_Z 0)%Q)
          by (change (inject_Z 0) with 0%Q; lra).
        rewrite <- Zle_Qle in A. lia. }
      subst pct. split; [reflexivity|]. simpl. change (inject_Z 0) with 0%Q. ring.
    + assert (S' : (sec < 0)%Q).
      { apply Qnot_le_lt. intro L. apply Qle_bool_iff in L. congruence. }
      destruct (pct =? 0) eqn:Z0.
      * apply Z.eqb_eq in Z0. subst pct. split; [reflexivity|]. simpl.
        change (inject_Z 0) with 0%Q. ring.
      * apply Z.eqb_neq in Z0.
        assert (P1 : (1 <= inject_Z pct)%Q).
        { change 1%Q with (inject_Z 1). rewrite <- Zle_Qle. lia. }
        lra.
Qed.

End Codec.

(* ================================================================== *)
(** * Strings: what [objective] hands to [float] *)

Section Strings.
Import PyStr.
Local Open Scope string_scope.

Lemma isspace_newline : isspace newline = true.
Proof. reflexivity. Qed.

Lemma split_lines_nonempty (s : str) : split_lines s <> [].
Proof.
  destruct s as [|c s]; simpl; [discriminate|].
  destruct (Ascii.eqb c newline); [discriminate|].
  destruct (split_lines s); discriminate.
Qed.

Lemma last_item_cons (x : str) (xs : list str) :
  xs <> [] -> last_item (x :: xs) = last_item xs.
Proof. destruct xs; [congruence|reflexivity]. Qed.

Lemma blank_rstrip (s : str) : blank s = true <-> rstrip s = EmptyString.
Proof.
  induction s as [|c s IH]; simpl; [tauto|].
  destruct (rstrip s) eqn:R.
  - destruct (isspace c); simpl; [tauto|].
    split; discriminate.
  - rewrite andb_true_iff. split; [|discriminate].
    intros [_ B]. apply IH in B. discriminate.
Qed.

Lemma lstrip_rstrip (s : str) : lstrip (rstrip s) = rstrip (lstrip s).
Proof.
  induction s as [|c s IH]; simpl; trivial.
  destruct (isspace c) eqn:W.
  - rewrite <- IH. destruct (rstrip s); simpl; rewrite ?W; reflexivity.
  - simpl. destruct (rstrip s); simpl; rewrite W; reflexivity.
Qed.

Lemma rstrip_idempotent (s : str) : rstrip (rstrip s) = rstrip s.
Proof.
  induction s as [|c s IH]; simpl; trivial.
  destruct (rstrip s) eqn:R.
  - destruct (isspace c) eqn:W; simpl; rewrite ?W; reflexivity.
  - simpl. simpl in IH. rewrite IH. reflexivity.
Qed.

Lemma strip_rstrip (s : str) : strip (rstrip s) = strip s.
Proof. unfold strip. now rewrite rstrip_idempotent. Qed.

Lemma split_lines_single_empty (t : str) :
  split_lines t = [EmptyString] -> t = EmptyString.
Proof.
  destruct t as [|c t]; trivial. simpl.
  destruct (Ascii.eqb c newline).
  - intro H. injection H as H. now apply split_lines_nonempty in H.
  - destruct (split_lines t); discriminate.
Qed.

Lemma split_lines_hd_tl (s : str) :
  split_lines s = hd EmptyString (split_lines s) :: tl (split_lines s).
Proof.
  pose proof (split_lines_nonempty s). now destruct (split_lines s).
Qed.

Lemma rstrip_cons_empty (c : ascii) (s : str) :
  rstrip s = EmptyString ->
  rstrip (String c s) = if isspace c then EmptyString else String c EmptyString.
Proof. intro H. simpl. now rewrite H. Qed.

Lemma rstrip_cons_nonempty (c : ascii) (s : str) :
  rstrip s <> EmptyString -> rstrip (String c s) = String c (rstrip s).
Proof. intro H. simpl. now destruct (rstrip s). Qed.

Lemma split_lines_newline (t : str) :
  split_lines (String newline t) = EmptyString :: split_lines t.
Proof. reflexivity. Qed.

Lemma split_lines_char (c : ascii) (t : str) :
  c <> newline ->
  split_lines (String c t) =
  String c (hd EmptyString (split_lines t)) :: tl (split_lines t).
Proof.
  intro H. cbn [split_lines].
  destruct (Ascii.eqb_spec c newline); [contradiction|].
  pose proof (split_lines_nonempty t). now destruct (split_lines t).
Qed.

(** The lines of a text whose trailing white space has been removed: the
    lines up to the last one that is not blank, that one without its
    trailing white space. *)
Lemma split_lines_rstrip (s : str) :
  match last_nonblank (tl (split_lines s)) with
  | None => split_lines (rstrip s) = [rstrip (hd EmptyString (split_lines s))]
  | Some x =>
      hd EmptyString (split_lines (rstrip s)) = hd EmptyString (split_lines s) /\
      tl (split_lines (rstrip s)) <> [] /\
      last_item (tl (split_lines (rstrip s))) = rstrip x
  end.
Proof.
  induction s as [|c s IH]; [reflexivity|].
  destruct (Ascii.eqb_spec c newline) as [->|Hc].
  - rewrite (split_lines_newline s). cbn [hd tl].
    rewrite (split_lines_hd_tl s). cbn [last_nonblank].
    destruct (last_nonblank (tl (split_lines s))) as [x|].
    + destruct IH as (H1 & H2 & H3).
      assert (R : rstrip s <> EmptyString) by (intro R; rewrite R in H2; now elim H2).
      rewrite rstrip_cons_nonempty by assumption. rewrite split_lines_newline. cbn [hd tl].
      repeat split.
      * apply split_lines_nonempty.
      * rewrite (split_lines_hd_tl (rstrip s)).
        rewrite last_item_cons by assumption. assumption.
    + destruct (blank (hd EmptyString (split_lines s))) eqn:B.
      * apply blank_rstrip in B. rewrite B in IH.
        apply split_lines_single_empty in IH.
        rewrite rstrip_cons_empty by assumption. rewrite isspace_newline. reflexivity.
      * assert (R : rstrip s <> EmptyString).
        { intro R. rewrite R in IH. injection IH as IH. symmetry in IH.
          apply blank_rstrip in IH. congruence. }
        rewrite rstrip_cons_nonempty by assumption. rewrite split_lines_newline, IH.
        cbn [hd tl]. repeat split. discriminate.
  - rewrite split_lines_char by assumption. cbn [hd tl].
    destruct (last_nonblank (tl (split_lines s))) as [x|].
    + destruct IH as (H1 & H2 & H3).
      assert (R : rstrip s <> EmptyString) by (intro R; rewrite R in H2; now elim H2).
      rewrite rstrip_cons_nonempty by assumption.
      rewrite split_lines_char by assumption. cbn [hd tl]. rewrite H1. repeat split; assumption.
    + destruct (rstrip s) as [|a r] eqn:R.
      * injection IH as IH.
        rewrite !rstrip_cons_empty by congruence.
        destruct (isspace c); [reflexivity|].
        now rewrite split_lines_char by assumption.
      * assert (RL : rstrip (hd EmptyString (split_lines s)) <> EmptyString).
        { intro RL. rewrite RL in IH.
          apply split_lines_single_empty in IH. discriminate. }
        rewrite <- R in *.
        rewrite !rstrip_cons_nonempty by congruence.
        rewrite split_lines_char by assumption. rewrite IH.
        reflexivity.
Qed.

Lemma last_line_rstrip (s : str) :
  last_item (split_lines (rstrip s)) =
  match last_nonblank_line s with
  | Some l => rstrip l
  | None => EmptyString
  end.
Proof.
  unfold last_nonblank_line.
  pose proof (split_lines_rstrip s) as H.
  rewrite (split_lines_hd_tl s). cbn [last_nonblank].
  destruct (last_nonblank (tl (split_lines s))) as [x|].
  - destruct H as (_ & H2 & H3).
    rewrite (split_lines_hd_tl (rstrip s)).
    now rewrite last_item_cons.
  - rewrite H. unfold last_item. cbn [last].
    destruct (blank (hd EmptyString (split_lines s))) eqn:B; trivial.
    now apply blank_rstrip.
Qed.

(** Removing the leading white space of a text removes its leading blank
    lines and the leading white space of the first line that is not
    blank. *)
Lemma split_lines_lstrip (s : str) :
  split_lines (lstrip s) =
  match skip_blank (split_lines s) with
  | [] => [EmptyString]
  | l :: rest => lstrip l :: rest
  end.
Proof.
  induction s as [|c s IH]; [reflexivity|].
  cbn [lstrip]. destruct (isspace c) eqn:W.
  - rewrite IH. destruct (Ascii.eqb_spec c newline) as [->|Hc].
    + rewrite split_lines_newline. reflexivity.
    + rewrite split_lines_char by assumption.
      rewrite (split_lines_hd_tl s) at 1.
      cbn [skip_blank blank]. rewrite W. cbn [andb].
      destruct (blank (hd EmptyString (split_lines s))); [reflexivity|].
      cbn [lstrip]. now rewrite W.
  - assert (Hc : c <> newline).
    { intros ->. rewrite isspace_newline in W. discriminate. }
    rewrite split_lines_char by assumption.
    cbn [skip_blank blank]. rewrite W. cbn [andb lstrip]. now rewrite W.
Qed.

Lemma skip_blank_head (lines : list str) (l : str) (rest : list str) :
  skip_blank lines = l :: rest -> blank l = false.
Proof.
  induction lines as [|x xs IH]; [discriminate|]. cbn [skip_blank].
  destruct (blank x) eqn:B; [exact IH|].
  intro H. injection H as <- _. exact B.
Qed.

Lemma last_nonblank_skip_blank (lines : list str) :
  last_nonblank (skip_blank lines) = last_nonblank lines.
Proof.
  induction lines as [|x xs IH]; [reflexivity|]. cbn [skip_blank].
  destruct (blank x) eqn:B; [|reflexivity].
  rewrite IH. cbn [last_nonblank]. rewrite B.
  now destruct (last_nonblank xs).
Qed.

Lemma blank_lstrip (s : str) : blank (lstrip s) = blank s.
Proof.
  induction s as [|c s IH]; [reflexivity|]. cbn [lstrip blank].
  destruct (isspace c) eqn:W; [exact IH|].
  cbn [blank]. now rewrite W.
Qed.

(** What [objective] hands to [float]: the last line that is not blank, as
    [strip] leaves it. *)
Lemma fitness_str_trimmed (s : str) :
  last_item (split_lines (strip s)) =
  match trimmed_last_line s with
  | Some t => t
  | None => EmptyString
  end.
Proof.
  unfold strip, trimmed_last_line.
  rewrite lstrip_rstrip, last_line_rstrip. unfold last_nonblank_line.
  rewrite split_lines_lstrip.
  destruct (skip_blank (split_lines s)) as [|first rest] eqn:K; [reflexivity|].
  cbn [last_nonblank].
  destruct (last_nonblank rest) as [x|]; [reflexivity|].
  rewrite blank_lstrip, (skip_blank_head _ K).
  unfold strip. now rewrite lstrip_rstrip.
Qed.

(** That line is the last one that is not blank, without its trailing
    white space, or without its white space on both sides. *)
Lemma trimmed_last_line_cases (s : str) :
  match last_nonblank_line s with
  | Some l =>
      trimmed_last_line s = Some (rstrip l) \/
      trimmed_last_line s = Some (strip l)
  | None => trimmed_last_line s = None
  end.
Proof.
  unfold last_nonblank_line, trimmed_last_line.
  rewrite <- last_nonblank_skip_blank.
  destruct (skip_blank (split_lines s)) as [|first rest] eqn:K; [reflexivity|].
  cbn [last_nonblank].
  destruct (last_nonblank rest) as [x|]; [now left|].
  rewrite (skip_blank_head _ K). now right.
Qed.

Lemma float_empty : float EmptyString = Raise ValueError.
Proof. reflexivity. Qed.

Lemma float_fitness_str (s : str) :
  float (last_item (split_lines (strip s))) =
  match trimmed_last_line s with
  | Some t => float t
  | None => Raise ValueError
  end.
Proof.
  rewrite fitness_str_trimmed.
  destruct (trimmed_last_line s); [reflexivity|apply float_empty].
Qed.

(** ** The white space of [strip] and the white space of [float] *)

(** [float] rounds to binary64, overflows to an infinity and underflows to
    zero; it removes spaces and refuses a separator on either side. *)
Example float_examples :
  float "59.95" = Return (binary64 59.95) /\
  float " 2.5 " = Return (binary64 2.5) /\
  float "1e400" = Return PosInf /\
  float "-1e400" = Return NegInf /\
  float "1e-400" = Return (Fin 0) /\
  float "-Infinity" = Return NegInf /\
  float "nan" = Return NaN /\
  float ("2.5" ++ Examples.FS) = Raise ValueError /\
  float (Examples.FS ++ "2.5") = Raise ValueError /\
  strip (Examples.FS ++ "2.5" ++ Examples.FS) = "2.5".
Proof. repeat split; vm_compute; reflexivity. Qed.

Lemma isspace_float_or_separator (c : ascii) :
  isspace c = float_isspace c || is_separator c.
Proof. destruct c as [[] [] [] [] [] [] [] []]; reflexivity. Qed.

Lemma isspace_no_separator (c : ascii) :
  is_separator c = false -> float_isspace c = isspace c.
Proof.
  intro H. rewrite isspace_float_or_separator, H. now rewrite orb_false_r.
Qed.

Lemma float_lstrip_no_separator (s : str) :
  no_separator s = true -> float_lstrip s = lstrip s.
Proof.
  induction s as [|c s IH]; [reflexivity|]. cbn [no_separator].
  rewrite andb_true_iff, negb_true_iff. intros [C S].
  cbn [float_lstrip lstrip]. rewrite (isspace_no_separator _ C).
  destruct (isspace c); [now apply IH|reflexivity].
Qed.

Lemma float_rstrip_no_separator (s : str) :
  no_separator s = true -> float_rstrip s = rstrip s.
Proof.
  induction s as [|c s IH]; [reflexivity|]. cbn [no_separator].
  rewrite andb_true_iff, negb_true_iff. intros [C S].
  cbn [float_rstrip rstrip]. rewrite (IH S), (isspace_no_separator _ C).
  reflexivity.
Qed.

Lemma no_separator_lstrip (s : str) :
  no_separator s = true -> no_separator (lstrip s) = true.
Proof.
  induction s as [|c s IH]; [reflexivity|]. cbn [no_separator lstrip].
  rewrite andb_true_iff. intros [C S].
  destruct (isspace c); [now apply IH|].
  cbn [no_separator]. now rewrite C, S.
Qed.

Lemma no_separator_rstrip (s : str) :
  no_separator s = true -> no_separator (rstrip s) = true.
Proof.
  induction s as [|c s IH]; [reflexivity|]. cbn [no_separator rstrip].
  rewrite andb_true_iff. intros [C S]. specialize (IH S).
  destruct (rstrip s) as [|a r].
  - destruct (isspace c); [reflexivity|].
    cbn [no_separator]. now rewrite C.
  - cbn [no_separator] in *. now rewrite C, IH.
Qed.

Lemma float_strip_no_separator (s : str) :
  no_separator s = true -> float_strip s = strip s.
Proof.
  intro H. unfold float_strip, strip.
  rewrite (float_rstrip_no_separator _ H).
  apply float_lstrip_no_separator. now apply no_separator_rstrip.
Qed.

Lemma lstrip_idempotent (s : str) : lstrip (lstrip s) = lstrip s.
Proof.
  induction s as [|c s IH]; [reflexivity|]. cbn [lstrip].
  destruct (isspace c) eqn:W; [exact IH|]. cbn [lstrip]. now rewrite W.
Qed.

Lemma strip_idempotent (s : str) : strip (strip s) = strip s.
Proof.
  unfold strip.
  rewrite (lstrip_rstrip s), rstrip_idempotent, <- (lstrip_rstrip s).
  apply lstrip_idempotent.
Qed.

(** On a line without separators [float] does not see what [strip] has
    removed. *)
Lemma float_rstrip_line (l : str) :
  no_separator l = true -> float (rstrip l) = float l.
Proof.
  intro H. unfold float.
  rewrite (float_strip_no_separator _ (no_separator_rstrip _ H)).
  rewrite (float_strip_no_separator _ H). now rewrite strip_rstrip.
Qed.

Lemma float_strip_line (l : str) :
  no_separator l = true -> float (strip l) = float l.
Proof.
  intro H. unfold float.
  assert (S : no_separator (strip l) = true)
    by (unfold strip; now apply no_separator_lstrip, no_separator_rstrip).
  rewrite (float_strip_no_separator _ S), (float_strip_no_separator _ H).
  now rewrite strip_idempotent.
Qed.

(** With no separator on the last line that is not blank, [objective]
    parses that line. *)
Lemma float_fitness_str_line (s l : str) :
  last_nonblank_line s = Some l ->
  no_separator l = true ->
  float (last_item (split_lines (strip s))) = float l.
Proof.
  intros L H. rewrite float_fitness_str.
  pose proof (trimmed_last_line_cases s) as C. rewrite L in C.
  destruct C as [-> | ->];
    [now apply float_rstrip_line|now apply float_strip_line].
Qed.

End Strings.

(* ================================================================== *)
(** * The evaluation block *)

Section EvaluationFacts.
Import Trial Evaluation Outcome PyStr Diagnostics.
Local Open Scope string_scope.

Variables (os : list arg -> child) (timeout : Q) (args : list arg).
Variable trial : handle.

Let evaluate : M pyfloat :=
  try_except (try_block os timeout args) (except_clauses trial).

Lemma float_raises_value_error (s : str) (e : exn) :
  float s = Raise e -> e = ValueError.
Proof.
  unfold float. destruct (float_literal (float_strip s)); congruence.
Qed.

(** What [subprocess.run] can do, by cases on the child. *)
Lemma subprocess_run_cases (c : child) :
  match subprocess_run c timeout with
  | Return r => exists seconds,
      c = Exits seconds 0 (Text (stdout r)) (Text (stderr r)) /\
      Qltb timeout seconds = false /\ returncode r = 0
  | Raise (TimeoutExpired out err) =>
      c = Hangs out err \/
      exists seconds status,
        c = Exits seconds status out err /\ Qltb timeout seconds = true
  | Raise (CalledProcessError status out err) => exists seconds,
      c = Exits seconds status (Text out) (Text err) /\
      Qltb timeout seconds = false /\ status <> 0
  | Raise FileNotFoundError => c = NoSuchExecutable
  | Raise PermissionError => c = NotPermitted
  | Raise OSError => c = CannotStart
  | Raise UnicodeDecodeError => exists seconds status out err,
      c = Exits seconds status out err /\
      Qltb timeout seconds = false /\ decodes c = false
  | Raise _ => False
  end.
Proof.
  destruct c as [| | |seconds status out err|out err]; simpl; auto.
  destruct (Qltb timeout seconds) eqn:T; [eauto 6|].
  destruct out as [out|], err as [err|]; simpl; eauto 8.
  destruct (Z.eqb_spec status 0) as [->|N]; simpl; eauto.
Qed.

(** The whole of an evaluation, by cases on the child: what the [try]
    statement gives back and the state it leaves. *)
Lemma evaluate_by_child (st : state) :
  evaluate st =
  match os args with
  | NoSuchExecutable => (Raise FileNotFoundError, st)
  | NotPermitted => (Raise PermissionError, st)
  | CannotStart => (Raise OSError, st)
  | Hangs _ _ => (Return NegInf, add_line (Line_timed_out (number trial)) st)
  | Exits seconds status out err =>
      if Qltb timeout seconds
      then (Return NegInf, add_line (Line_timed_out (number trial)) st)
      else
        match out, err with
        | Text out, Text err =>
            let r := {| returncode := status; stdout := out; stderr := err |} in
            if (status =? 0)%Z then
              match float (last_item (split_lines (strip out))) with
              | Return fitness =>
                  (Return fitness, add_attr "fitness" fitness (set_result r st))
              | Raise e =>
                  (Return NegInf,
                   add_line (Line_output out)
                     (add_line (Line_failed_to_parse (number trial) e)
                        (set_result r st)))
              end
            else
              (Return NegInf,
               add_line (Line_stderr err)
                 (add_line (Line_failed_with_error (number trial)
                              (CalledProcessError status out err)) st))
        | _, _ =>
            let st' :=
              add_line (Line_failed_to_parse (number trial) UnicodeDecodeError)
                       st in
            match local_result st with
            | Some r => (Return NegInf, add_line (Line_output (stdout r)) st')
            | None => (Raise UnboundLocalError, st')
            end
        end
  end.
Proof.
  unfold evaluate, try_except, try_block, bind, lift.
  destruct (os args) as [| | |seconds status out err|out err]; try reflexivity.
  cbn [subprocess_run].
  destruct (Qltb timeout seconds); [reflexivity|].
  destruct out as [out|];
    [|cbn; unfold bind, print, ret; cbn;
      destruct (local_result st); reflexivity].
  destruct err as [err|];
    [|cbn; unfold bind, print, ret; cbn;
      destruct (local_result st); reflexivity].
  cbn [decode_output rbind].
  destruct (status =? 0)%Z; [|reflexivity].
  cbn [assign_result stdout]. cbv zeta.
  destruct (float (last_item (split_lines (strip out)))) as [f|e] eqn:F;
    [reflexivity|].
  rewrite (float_raises_value_error _ F). reflexivity.
Qed.

(** The outcome, by cases on the child. *)
Lemma outcome_by_child :
  outcome os timeout args =
  match os args with
  | Hangs _ _ => Some Timeout
  | Exits seconds status out err =>
      if Qltb timeout seconds then Some Timeout
      else
        match out, err with
        | Text out, Text err =>
            if (status =? 0)%Z then
              match float (last_item (split_lines (strip out))) with
              | Return fitness => Some (Success fitness)
              | Raise _ => Some ParseError
              end
            else Some (ProcessError err)
        | _, _ => Some ParseError
        end
  | _ => None
  end.
Proof.
  unfold outcome, try_block, bind, lift.
  destruct (os args) as [| | |seconds status out err|out err]; try reflexivity.
  cbn [subprocess_run].
  destruct (Qltb timeout seconds); [reflexivity|].
  destruct out as [out|], err as [err|]; try reflexivity.
  cbn [decode_output rbind].
  destruct (status =? 0)%Z; [|reflexivity].
  cbn [assign_result stdout].
  destruct (float (last_item (split_lines (strip out)))) as [f|e] eqn:F;
    [reflexivity|].
  now rewrite (float_raises_value_error _ F).
Qed.

(** The evaluation block makes no suggestion. *)
Lemma evaluate_params (st : state) :
  params (snd (evaluate st)) = params st.
Proof.
  rewrite evaluate_by_child.
  destruct (os args) as [| | |seconds status out err|out err]; try reflexivity.
  destruct (Qltb timeout seconds); [reflexivity|].
  destruct out as [out|], err as [err|];
    try (cbv zeta; destruct (local_result st); reflexivity).
  cbv zeta. destruct (status =? 0)%Z; [|reflexivity].
  destruct (float _); reflexivity.
Qed.

End EvaluationFacts.

(* ================================================================== *)
(** * Sampling: the suggestions [objective] makes *)

Section SamplingFacts.
Import Trial Evaluation.
Local Open Scope string_scope.

Context {A : Type}.
Variable trial : handle.

Lemma bind_suggest_int (name : str) (low high : Z) (k : Z -> M A) (st : state) :
  (high <? low)%Z = false ->
  bind (suggest_int trial name low high) k st =
  k (sample_int (sampler trial) name low high)
    (add_param (Suggestion name (IntDistribution low high)
                  (PInt (sample_int (sampler trial) name low high))) st).
Proof. intro H. unfold suggest_int. rewrite H. reflexivity. Qed.

Lemma bind_suggest_float (name : str) (low high : Q) (k : Q -> M A) (st : state) :
  Qltb high low = false ->
  bind (suggest_float trial name low high) k st =
  k (sample_float (sampler trial) name low high)
    (add_param (Suggestion name (FloatDistribution low high)
                  (PFloat (sample_float (sampler trial) name low high))) st).
Proof. intro H. unfold suggest_float. rewrite H. reflexivity. Qed.

Lemma bind_suggest_categorical (name : str) (choices : list bool)
    (k : bool -> M A) (st : state) :
  bind (suggest_categorical trial name choices) k st =
  k (sample_categorical (sampler trial) name choices)
    (add_param (Suggestion name (CategoricalDistribution choices)
                  (PBool (sample_categorical (sampler trial) name choices))) st).
Proof. reflexivity. Qed.

End SamplingFacts.

Lemma max_bound_not_empty (low x : Z) : (Z.max low x <? low)%Z = false.
Proof. apply Z.ltb_ge. lia. Qed.

Ltac sample_step :=
  first
    [ rewrite bind_suggest_int by (reflexivity || apply max_bound_not_empty)
    | rewrite bind_suggest_float by reflexivity
    | rewrite bind_suggest_categorical ].

Section ObjectiveFacts.
Import Trial Evaluation.
Local Open Scope string_scope.

Variables (os : list arg -> child) (trial : handle) (st : state).

(** [optuna_sweep.py]: the objective makes its suggestions, the first three
    being [species_count], [individuals_per_species] and
    [min_species_count], and then evaluates the command line built from the
    sampled values, in the state that holds the suggestions. *)
Lemma sweep_objective_steps :
  let s := sampler trial in
  let species_count := sample_int s "species_count" 4 30 in
  let high := Z.max 2 (species_count / 3) in
  exists rest st',
    params st' =
      (params st ++
      [ Suggestion "species_count" (IntDistribution 4 30) (PInt species_count);
        Suggestion "individuals_per_species" (IntDistribution 20 100)
          (PInt (sample_int s "individuals_per_species" 20 100));
        Suggestion "min_species_count" (IntDistribution 2 high)
          (PInt (sample_int s "min_species_count" 2 high)) ] ++ rest)%list /\
    map s_name rest =
      [ "elites"; "tournament_size"; "parent_pool_percentage";
        "grace_generations"; "stagnation_threshold";
        "species_diversity_threshold"; "relative_performance_threshold";
        "weight_jitter"; "weight_jitter_stddev"; "weight_reset";
        "weight_l1_shrink"; "l1_shrink_factor"; "activation_swap";
        "node_param_mutate"; "node_param_stddev"; "edge_add";
        "edge_delete_random"; "edge_split"; "edge_redirect"; "edge_swap";
        "weak_edge_pruning_enabled"; "weak_edge_pruning_threshold";
        "weak_edge_pruning_base_rate"; "weak_edge_pruning_on_birth";
        "weak_edge_pruning_during_evolution" ] /\
    user_attrs st' = user_attrs st /\
    console st' = console st /\
    local_result st' = local_result st /\
    OptunaSweep.objective os trial st =
    try_except (try_block os 600 (OptunaSweep.command_line trial))
               (except_clauses trial) st'.
Proof.
  intros s species_count high. unfold OptunaSweep.objective.
  repeat sample_step.
  eexists. eexists.
  split; [|split; [|split; [|split; [|split; [|reflexivity]]]]];
    try reflexivity.
  - cbn [params add_param]. repeat rewrite <- app_assoc. cbn [app].
    reflexivity.
  - reflexivity.
Qed.

(** [optuna_sweep_rosenbrock.py]: the same, with its own bounds and time
    limit. *)
Lemma rosenbrock_objective_steps :
  let s := sampler trial in
  let species_count := sample_int s "species_count" 10 40 in
  let high := Z.max 3 (species_count / 3) in
  exists rest st',
    params st' =
      (params st ++
      [ Suggestion "species_count" (IntDistribution 10 40) (PInt species_count);
        Suggestion "individuals_per_species" (IntDistribution 50 150)
          (PInt (sample_int s "individuals_per_species" 50 150));
        Suggestion "min_species_count" (IntDistribution 3 high)
          (PInt (sample_int s "min_species_count" 3 high)) ] ++ rest)%list /\
    map s_name rest =
      [ "elites"; "tournament_size"; "parent_pool_percentage";
        "grace_generations"; "stagnation_threshold";
        "species_diversity_threshold"; "relative_performance_threshold";
        "weight_jitter"; "weight_jitter_stddev"; "weight_reset";
        "weight_l1_shrink"; "l1_shrink_factor"; "activation_swap";
        "node_param_mutate"; "node_param_stddev"; "edge_add";
        "edge_delete_random"; "edge_split"; "edge_redirect"; "edge_swap";
        "weak_edge_pruning_enabled"; "weak_edge_pruning_threshold";
        "weak_edge_pruning_base_rate"; "weak_edge_pruning_on_birth";
        "weak_edge_pruning_during_evolution" ] /\
    user_attrs st' = user_attrs st /\
    console st' = console st /\
    local_result st' = local_result st /\
    OptunaSweepRosenbrock.objective os trial st =
    try_except (try_block os 1200 (OptunaSweepRosenbrock.command_line trial))
               (except_clauses trial) st'.
Proof.
  intros s species_count high. unfold OptunaSweepRosenbrock.objective.
  repeat sample_step.
  eexists. eexists.
  split; [|split; [|split; [|split; [|split; [|reflexivity]]]]];
    try reflexivity.
  - cbn [params add_param]. repeat rewrite <- app_assoc. cbn [app].
    reflexivity.
  - reflexivity.
Qed.

End ObjectiveFacts.

(* ================================================================== *)
(** * What an objective returns and records *)

Section SweepFacts.
Import Trial Evaluation Outcome PyStr Diagnostics.
Local Open Scope string_scope.

(** An objective that samples without touching the attributes, the console
    or the local variable [result], and then runs the evaluation block on
    its command line. *)
Variable objective : (list arg -> child) -> handle -> M pyfloat.
Variable command_line : handle -> list arg.
Variable timeout : Q.
Hypothesis steps : forall os trial st, exists st',
  user_attrs st' = user_attrs st /\
  console st' = console st /\
  local_result st' = local_result st /\
  objective os trial st =
  try_except (try_block os timeout (command_line trial))
             (except_clauses trial) st'.

Variables (os : list arg -> child) (trial : handle) (st : state).

(** What [objective] gives back, by cases on the child; [result] is unbound
    when [objective] is entered. *)
Lemma objective_by_child :
  local_result st = None ->
  fst (objective os trial st) =
  match os (command_line trial) with
  | NoSuchExecutable => Raise FileNotFoundError
  | NotPermitted => Raise PermissionError
  | CannotStart => Raise OSError
  | Hangs _ _ => Return NegInf
  | Exits seconds status out err =>
      if Qltb timeout seconds then Return NegInf
      else
        match out, err with
        | Text out, Text _ =>
            if (status =? 0)%Z then
              match float (last_item (split_lines (strip out))) with
              | Return fitness => Return fitness
              | Raise _ => Return NegInf
              end
            else Return NegInf
        | _, _ => Raise UnboundLocalError
        end
  end.
Proof.
  intro L. destruct (steps os trial st) as (st' & _ & _ & L' & ->).
  rewrite evaluate_by_child, L', L.
  destruct (os (command_line trial)) as [| | |seconds status out err|out err];
    try reflexivity.
  destruct (Qltb timeout seconds); [reflexivity|].
  destruct out as [out|], err as [err|]; try reflexivity.
  cbv zeta. destruct (status =? 0)%Z; [|reflexivity].
  destruct (float _); reflexivity.
Qed.

(** The same by outcome. *)
Lemma objective_by_outcome :
  local_result st = None ->
  match outcome os timeout (command_line trial) with
  | Some (Success fitness) => fst (objective os trial st) = Return fitness
  | Some ParseError =>
      fst (objective os trial st) =
      if decodes (os (command_line trial)) then Return NegInf
      else Raise UnboundLocalError
  | Some _ => fst (objective os trial st) = Return NegInf
  | None =>
      starts (os (command_line trial)) = false /\
      exists e, fst (objective os trial st) = Raise e
  end.
Proof.
  intro L. rewrite (objective_by_child L), outcome_by_child.
  destruct (os (command_line trial)) as [| | |seconds status out err|out err];
    try reflexivity; try (split; [reflexivity|eexists; reflexivity]).
  destruct (Qltb timeout seconds); [reflexivity|].
  destruct out as [out|], err as [err|]; try reflexivity.
  destruct (status =? 0)%Z; [|reflexivity].
  destruct (float _); reflexivity.
Qed.

(** A child that is started and whose output decodes: [objective]
    returns. *)
Lemma objective_returns :
  local_result st = None ->
  runs_cleanly (os (command_line trial)) timeout = true ->
  exists v, fst (objective os trial st) = Return v.
Proof.
  intros L R. rewrite (objective_by_child L).
  destruct (os (command_line trial)) as [| | |seconds status out err|out err];
    try discriminate R; [|now eexists].
  unfold runs_cleanly in R. cbn [starts exceeds_budget decodes andb] in R.
  destruct (Qltb timeout seconds); [now eexists|].
  destruct out as [out|], err as [err|]; try discriminate R.
  destruct (status =? 0)%Z; [|now eexists].
  destruct (float _); now eexists.
Qed.

Lemma objective_failure (o : TrialOutcome) :
  local_result st = None ->
  runs_cleanly (os (command_line trial)) timeout = true ->
  outcome os timeout (command_line trial) = Some o ->
  is_failure o = true ->
  fst (objective os trial st) = Return NegInf.
Proof.
  intros L R H F. pose proof (objective_by_outcome L) as B.
  rewrite H in B. destruct o as [f| |m|]; [discriminate F|exact B..|].
  rewrite B. rewrite outcome_by_child in H. unfold runs_cleanly in R.
  destruct (os (command_line trial)) as [| | |seconds status out err|out err];
    try discriminate H.
  cbn [starts exceeds_budget decodes andb] in *.
  destruct (Qltb timeout seconds); [discriminate H|].
  now destruct out as [out|], err as [err|].
Qed.

(** A child still running at the time limit, whatever it wrote. *)
Lemma objective_timeout :
  exceeds_budget (os (command_line trial)) timeout = true ->
  outcome os timeout (command_line trial) = Some Timeout /\
  fst (objective os trial st) = Return NegInf.
Proof.
  intro H. rewrite outcome_by_child.
  destruct (steps os trial st) as (st' & _ & _ & _ & ->).
  rewrite evaluate_by_child.
  destruct (os (command_line trial)) as [| | |seconds status out err|out err];
    try discriminate H; cbn [exceeds_budget] in H; [rewrite H|]; now split.
Qed.

(** A child that exits in time with a status other than zero and an output
    that decodes. *)
Lemma objective_process_error (seconds : Q) (status : Z) (out err : str) :
  os (command_line trial) = Exits seconds status (Text out) (Text err) ->
  Qltb timeout seconds = false ->
  status <> 0 ->
  outcome os timeout (command_line trial) = Some (ProcessError err) /\
  fst (objective os trial st) = Return NegInf /\
  user_attrs (snd (objective os trial st)) = user_attrs st.
Proof.
  intros C T N. rewrite outcome_by_child.
  destruct (steps os trial st) as (st' & U & _ & _ & ->).
  rewrite evaluate_by_child, C, T. cbv zeta.
  destruct (Z.eqb_spec status 0); [contradiction|]. now repeat split.
Qed.

(** A child that exits with a status other than zero is no success,
    whatever it wrote and whether or not it decodes; what [objective]
    returns for it, when it returns, is negative infinity. *)
Lemma objective_no_success_after_failure
    (seconds : Q) (status : Z) (out err : captured) :
  os (command_line trial) = Exits seconds status out err ->
  status <> 0 ->
  (forall fitness,
     outcome os timeout (command_line trial) <> Some (Success fitness)) /\
  (forall v, fst (objective os trial st) = Return v -> v = NegInf).
Proof.
  intros C N. rewrite outcome_by_child.
  destruct (steps os trial st) as (st' & _ & _ & _ & ->).
  rewrite evaluate_by_child, C.
  destruct (Qltb timeout seconds);
    [split; [discriminate|intros v H; now injection H]|].
  destruct out as [out|], err as [err|]; cbv zeta;
    try (split; [discriminate|];
         destruct (local_result st'); intros v H;
         [now injection H|discriminate H]).
  destruct (Z.eqb_spec status 0); [contradiction|].
  split; [discriminate|intros v H; now injection H].
Qed.

(** A child that exits in time with status zero and an output that
    decodes. *)
Lemma objective_parses_last_line (seconds : Q) (out err : str) :
  os (command_line trial) = Exits seconds 0 (Text out) (Text err) ->
  Qltb timeout seconds = false ->
  fst (objective os trial st) =
  match trimmed_last_line out with
  | Some t =>
      match float t with
      | Return fitness => Return fitness
      | Raise _ => Return NegInf
      end
  | None => Return NegInf
  end.
Proof.
  intros C T.
  destruct (steps os trial st) as (st' & _ & _ & _ & ->).
  rewrite evaluate_by_child, C, T. cbv zeta. cbn [Z.eqb].
  rewrite float_fitness_str.
  destruct (trimmed_last_line out) as [t|]; [|reflexivity].
  destruct (float t); reflexivity.
Qed.

(** A child that exits in time and whose output does not decode. *)
Lemma objective_undecodable
    (seconds : Q) (status : Z) (out err : captured) :
  local_result st = None ->
  os (command_line trial) = Exits seconds status out err ->
  Qltb timeout seconds = false ->
  decodes (os (command_line trial)) = false ->
  outcome os timeout (command_line trial) = Some ParseError /\
  fst (objective os trial st) = Raise UnboundLocalError /\
  user_attrs (snd (objective os trial st)) = user_attrs st /\
  console (snd (objective os trial st)) =
    (console st ++
     [Line_failed_to_parse (number trial) UnicodeDecodeError])%list.
Proof.
  intros L C T D. rewrite outcome_by_child.
  destruct (steps os trial st) as (st' & U & K & L' & ->).
  rewrite evaluate_by_child, C, T, L', L. rewrite C in D.
  destruct out as [out|], err as [err|]; try discriminate D;
    cbn [fst snd add_line user_attrs console]; rewrite U, K; now repeat split.
Qed.

(** A child that cannot be started: the error of [subprocess.run] leaves
    [objective], which has printed nothing and set no attribute. *)
Lemma objective_not_started :
  starts (os (command_line trial)) = false ->
  fst (objective os trial st) =
    match os (command_line trial) with
    | NoSuchExecutable => Raise FileNotFoundError
    | NotPermitted => Raise PermissionError
    | _ => Raise OSError
    end /\
  user_attrs (snd (objective os trial st)) = user_attrs st /\
  console (snd (objective os trial st)) = console st.
Proof.
  intro S.
  destruct (steps os trial st) as (st' & U & K & _ & ->).
  rewrite evaluate_by_child.
  destruct (os (command_line trial)); try discriminate S; now repeat split.
Qed.

(** The attributes [objective] leaves. *)
Lemma objective_attrs :
  user_attrs (snd (objective os trial st)) =
    (user_attrs st ++
     match outcome os timeout (command_line trial) with
     | Some (Success fitness) => [("fitness", fitness)]
     | _ => []
     end)%list.
Proof.
  destruct (steps os trial st) as (st' & U & _ & _ & ->).
  rewrite evaluate_by_child, outcome_by_child, <- U.
  destruct (os (command_line trial)) as [| | |seconds status out err|out err];
    cbn [snd add_line user_attrs]; rewrite ?app_nil_r; try reflexivity.
  destruct (Qltb timeout seconds);
    [cbn [snd add_line user_attrs]; now rewrite app_nil_r|].
  destruct out as [out|], err as [err|]; cbv zeta;
    try (destruct (local_result st');
         cbn [snd add_line user_attrs]; now rewrite app_nil_r).
  destruct (status =? 0)%Z;
    [|cbn [snd add_line user_attrs]; now rewrite app_nil_r].
  destruct (float _) as [f|e];
    cbn [snd add_line add_attr set_result user_attrs];
    [reflexivity|now rewrite app_nil_r].
Qed.

(** The lines [objective] prints. *)
Lemma objective_console :
  local_result st = None ->
  console (snd (objective os trial st)) =
    (console st ++
     printed_lines (number trial) timeout (os (command_line trial)))%list.
Proof.
  intro L. destruct (steps os trial st) as (st' & _ & K & L' & ->).
  rewrite evaluate_by_child, L', L, <- K. unfold printed_lines.
  destruct (os (command_line trial)) as [| | |seconds status out err|out err];
    cbn [snd add_line console]; rewrite ?app_nil_r; try reflexivity.
  destruct (Qltb timeout seconds); [reflexivity|].
  destruct out as [out|], err as [err|]; cbv zeta; try reflexivity.
  destruct (status =? 0)%Z.
  - destruct (float _) as [f|e];
      cbn [snd add_line add_attr set_result console];
      [now rewrite app_nil_r|now rewrite <- app_assoc].
  - cbn [snd add_line console]. now rewrite <- app_assoc.
Qed.

End SweepFacts.

Section SweepInstances.
Import Trial Evaluation.

Lemma sweep_steps (os : list arg -> child) (trial : handle) (st : state) :
  exists st',
    user_attrs st' = user_attrs st /\
    console st' = console st /\
    local_result st' = local_result st /\
    OptunaSweep.objective os trial st =
    try_except (try_block os 600 (OptunaSweep.command_line trial))
               (except_clauses trial) st'.
Proof.
  destruct (sweep_objective_steps os trial st) as (rest & st' & H).
  exists st'. tauto.
Qed.

Lemma rosenbrock_steps (os : list arg -> child) (trial : handle) (st : state) :
  exists st',
    user_attrs st' = user_attrs st /\
    console st' = console st /\
    local_result st' = local_result st /\
    OptunaSweepRosenbrock.objective os trial st =
    try_except (try_block os 1200 (OptunaSweepRosenbrock.command_line trial))
               (except_clauses trial) st'.
Proof.
  destruct (rosenbrock_objective_steps os trial st) as (rest & st' & H).
  exists st'. tauto.
Qed.

End SweepInstances.

(* ================================================================== *)
(** * Claims about the objective *)

Section ObjectiveClaims.
Import Trial Evaluation Outcome PyStr Examples.
Local Open Scope string_scope.

(** The three failures of an evaluation whose output decodes -- the child
    is still running when the time limit is reached, the child exits in
    time with a status other than zero, the child exits in time with status
    zero and an output whose last line [float] refuses -- make [objective]
    return negative infinity.  For the first one this holds whatever had
    been captured, so that nothing is parsed from a child that timed
    out. *)
Lemma decoded_failures_return_negative_infinity :
  forall (os : list arg -> child) (trial : handle) (st : state),
    (let c := os (OptunaSweep.command_line trial) in
     let returned := fst (OptunaSweep.objective os trial st) in
     (exceeds_budget c 600 = true -> returned = Return NegInf) /\
     (forall seconds status out err,
        c = Exits seconds status (Text out) (Text err) ->
        Qltb 600 seconds = false ->
        status <> 0 -> returned = Return NegInf) /\
     (forall seconds out err,
        c = Exits seconds 0 (Text out) (Text err) ->
        Qltb 600 seconds = false ->
        float (last_item (split_lines (strip out))) = Raise ValueError ->
        returned = Return NegInf)) /\
    (let c := os (OptunaSweepRosenbrock.command_line trial) in
     let returned := fst (OptunaSweepRosenbrock.objective os trial st) in
     (exceeds_budget c 1200 = true -> returned = Return NegInf) /\
     (forall seconds status out err,
        c = Exits seconds status (Text out) (Text err) ->
        Qltb 1200 seconds = false ->
        status <> 0 -> returned = Return NegInf) /\
     (forall seconds out err,
        c = Exits seconds 0 (Text out) (Text err) ->
        Qltb 1200 seconds = false ->
        float (last_item (split_lines (strip out))) = Raise ValueError ->
        returned = Return NegInf)).
Proof.
  intros os trial st. split; cbv zeta.
  - split; [|split].
    + intro H. now apply (objective_timeout _ _ _ sweep_steps os trial st H).
    + intros seconds status out err C T N.
      now apply (objective_process_error _ _ _ sweep_steps os trial st C T N).
    + intros seconds out err C T F.
      rewrite (objective_parses_last_line _ _ _ sweep_steps os trial st C T).
      rewrite float_fitness_str in F.
      destruct (trimmed_last_line out); [now rewrite F|reflexivity].
  - split; [|split].
    + intro H. now apply (objective_timeout _ _ _ rosenbrock_steps os trial st H).
    + intros seconds status out err C T N.
      now apply (objective_process_error _ _ _ rosenbrock_steps os trial st C T N).
    + intros seconds out err C T F.
      rewrite (objective_parses_last_line _ _ _ rosenbrock_steps os trial st C T).
      rewrite float_fitness_str in F.
      destruct (trimmed_last_line out); [now rewrite F|reflexivity].
Qed.

(** C3, at a trainer that writes bytes which do not decode (FF FE 0A) to
    its standard output and exits with status 0 after 12 seconds.
    [subprocess.run] raises [UnicodeDecodeError] while it decodes the
    output; the clause [except ValueError] catches it (the outcome is a
    parse error), prints it and then reads [result], which the [try] body
    has not assigned: [UnboundLocalError] leaves [objective], in both
    sweeps.  The trial is stored as failed, and [study.optimize] and [main]
    end with the exception at this first trial. *)
Theorem undecodable_output_raises_unbound_local_error :
  let args := OptunaSweep.command_line trial0 in
  exceeds_budget (undecodable args) 600 = false /\
  subprocess_run (undecodable args) 600 = Raise UnicodeDecodeError /\
  outcome undecodable 600 args = Some ParseError /\
  fst (OptunaSweep.objective undecodable trial0 fresh) =
    Raise UnboundLocalError /\
  console (snd (OptunaSweep.objective undecodable trial0 fresh)) =
    [Line_failed_to_parse 0 UnicodeDecodeError] /\
  fst (OptunaSweepRosenbrock.objective undecodable trial0 fresh) =
    Raise UnboundLocalError /\
  Study.state (Study.run_trial (OptunaSweep.objective undecodable) trial0
                 0 12) = Study.FAIL /\
  Optimizer.main undecodable SweepExamples.steady_env 100 [] =
    Raise UnboundLocalError.
Proof. cbv zeta. repeat split; vm_compute; reflexivity. Qed.

(** C4: the claim fails at a child that exits after 12 seconds with status
    1 and whose standard output does not decode: the exception of the
    [try] body is the [UnicodeDecodeError] of the decoding, which comes
    before the check of the exit status, not a [CalledProcessError]; the
    outcome is not a process error, and [objective] does not return
    negative infinity. *)
Lemma undecodable_nonzero_exit_is_no_process_error :
  let args := OptunaSweep.command_line trial0 in
  crashes_undecodable args = Exits 12 1 Undecodable (Text "boom") /\
  exceeds_budget (crashes_undecodable args) 600 = false /\
  subprocess_run (crashes_undecodable args) 600 = Raise UnicodeDecodeError /\
  outcome crashes_undecodable 600 args = Some ParseError /\
  (forall message,
     outcome crashes_undecodable 600 args <> Some (ProcessError message)) /\
  fst (OptunaSweep.objective crashes_undecodable trial0 fresh) <>
    Return NegInf.
Proof.
  cbv zeta. repeat split; try (vm_compute; reflexivity).
  - intros message H. vm_compute in H. discriminate H.
  - intro H. vm_compute in H. discriminate H.
Qed.

(** C4, as the code has it.  A child that exits within the time limit with
    a status other than zero is never a success, whatever it wrote, and
    [objective] never returns anything but negative infinity for it; when
    its output decodes, the outcome is [ProcessError], whatever its
    standard output holds, [objective] returns negative infinity and
    records no fitness attribute.  Stated for both sweeps. *)
Theorem decoded_nonzero_exit_is_process_error :
  forall (os : list arg -> child) (trial : handle) (st : state)
         (seconds : Q) (status : Z) (out err : captured),
    status <> 0 ->
    (os (OptunaSweep.command_line trial) = Exits seconds status out err ->
     Qltb 600 seconds = false ->
     (forall fitness,
        outcome os 600 (OptunaSweep.command_line trial) <>
          Some (Success fitness)) /\
     (forall v,
        fst (OptunaSweep.objective os trial st) = Return v -> v = NegInf) /\
     (forall o e, out = Text o -> err = Text e ->
        outcome os 600 (OptunaSweep.command_line trial) =
          Some (ProcessError e) /\
        fst (OptunaSweep.objective os trial st) = Return NegInf /\
        user_attrs (snd (OptunaSweep.objective os trial st)) =
          user_attrs st)) /\
    (os (OptunaSweepRosenbrock.command_line trial) =
       Exits seconds status out err ->
     Qltb 1200 seconds = false ->
     (forall fitness,
        outcome os 1200 (OptunaSweepRosenbrock.command_line trial) <>
          Some (Success fitness)) /\
     (forall v,
        fst (OptunaSweepRosenbrock.objective os trial st) = Return v ->
        v = NegInf) /\
     (forall o e, out = Text o -> err = Text e ->
        outcome os 1200 (OptunaSweepRosenbrock.command_line trial) =
          Some (ProcessError e) /\
        fst (OptunaSweepRosenbrock.objective os trial st) = Return NegInf /\
        user_attrs (snd (OptunaSweepRosenbrock.objective os trial st)) =
          user_attrs st)).
Proof.
  intros os trial st seconds status out err N. split; intros C T.
  - destruct (objective_no_success_after_failure _ _ _ sweep_steps
                os trial st C N) as [A B].
    split; [exact A|]. split; [exact B|].
    intros o e -> ->.
    exact (objective_process_error _ _ _ sweep_steps os trial st C T N).
  - destruct (objective_no_success_after_failure _ _ _ rosenbrock_steps
                os trial st C N) as [A B].
    split; [exact A|]. split; [exact B|].
    intros o e -> ->.
    exact (objective_process_error _ _ _ rosenbrock_steps os trial st C T N).
Qed.

(** A child that prints [42.0] and exits with status 1. *)
Lemma decoded_nonzero_exit_is_process_error_witness :
  float "42.0" = Return (binary64 42.0) /\
  outcome crashes 600 (OptunaSweep.command_line trial0) =
    Some (ProcessError "boom") /\
  fst (OptunaSweep.objective crashes trial0 fresh) = Return NegInf /\
  user_attrs (snd (OptunaSweep.objective crashes trial0 fresh)) = [].
Proof.
  split; [vm_compute; reflexivity|].
  apply (proj2 (proj2 (proj1 (@decoded_nonzero_exit_is_process_error
                  crashes trial0 fresh 12 1 (Text "42.0") (Text "boom")
                  ltac:(discriminate)) eq_refl eq_refl))
           "42.0" "boom" eq_refl eq_refl).
Defined.

(** C5: the claim fails at a child that exits with status 0 after writing
    the three lines [0.5], [2.5] followed by the separator FS, and an empty
    one.  The last line that is not empty is [2.5] with the separator, which
    [float] refuses; [objective] returns 2.5, not negative infinity,
    because [strip] has removed the separator with the line break after
    it. *)
Lemma separator_after_the_number_is_parsed :
  let out := "0.5" ++ LF ++ "2.5" ++ FS ++ LF in
  separator_after (OptunaSweep.command_line trial0) =
    Exits 12 0 (Text out) (Text EmptyString) /\
  split_lines out = ["0.5"; "2.5" ++ FS; EmptyString] /\
  last_nonblank_line out = Some ("2.5" ++ FS) /\
  float ("2.5" ++ FS) = Raise ValueError /\
  fst (OptunaSweep.objective separator_after trial0 fresh) =
    Return (binary64 2.5).
Proof. cbv zeta. repeat split; vm_compute; reflexivity. Qed.

(** C5, as the code has it.  A child that exits with status zero within
    the time limit and whose output decodes: the fitness is [float] of the
    last line of its standard output that is not blank (a line being blank
    when it holds nothing but white space), taken as [strip] leaves it --
    without its trailing white space, and without its leading white space
    when no line before it holds anything else; [objective] returns that
    number whatever the lines before it hold, and negative infinity when
    [float] refuses the text or when every line is blank.  When the line
    holds none of the separators FS..US, which are white space for [strip]
    and not for [float], this is [float] of the line itself.  Stated for
    both sweeps. *)
Theorem fitness_is_trimmed_last_line :
  forall (os : list arg -> child) (trial : handle) (st : state)
         (seconds : Q) (out err : str),
    let parsed (text : option str) : result pyfloat :=
      match text with
      | Some t =>
          match float t with
          | Return fitness => Return fitness
          | Raise _ => Return NegInf
          end
      | None => Return NegInf
      end in
    match last_nonblank_line out with
    | Some l =>
        trimmed_last_line out = Some (rstrip l) \/
        trimmed_last_line out = Some (strip l)
    | None => trimmed_last_line out = None
    end /\
    (os (OptunaSweep.command_line trial) =
       Exits seconds 0 (Text out) (Text err) ->
     Qltb 600 seconds = false ->
     fst (OptunaSweep.objective os trial st) =
       parsed (trimmed_last_line out) /\
     (forall l, last_nonblank_line out = Some l -> no_separator l = true ->
        fst (OptunaSweep.objective os trial st) = parsed (Some l))) /\
    (os (OptunaSweepRosenbrock.command_line trial) =
       Exits seconds 0 (Text out) (Text err) ->
     Qltb 1200 seconds = false ->
     fst (OptunaSweepRosenbrock.objective os trial st) =
       parsed (trimmed_last_line out) /\
     (forall l, last_nonblank_line out = Some l -> no_separator l = true ->
        fst (OptunaSweepRosenbrock.objective os trial st) = parsed (Some l))).
Proof.
  intros os trial st seconds out err parsed.
  assert (P : forall l, last_nonblank_line out = Some l ->
                no_separator l = true ->
                parsed (trimmed_last_line out) = parsed (Some l)).
  { intros l L S. pose proof (float_fitness_str_line _ L S) as F.
    rewrite float_fitness_str in F. subst parsed. cbv beta.
    destruct (trimmed_last_line out) as [t|]; [now rewrite F|].
    now rewrite <- F. }
  split; [exact (trimmed_last_line_cases out)|].
  split; intros C T.
  - rewrite (objective_parses_last_line _ _ _ sweep_steps os trial st C T).
    split; [reflexivity|exact P].
  - rewrite (objective_parses_last_line _ _ _ rosenbrock_steps os trial st C T).
    split; [reflexivity|exact P].
Qed.

(** Two lines of noise, the fitness, a blank line. *)
Lemma fitness_is_trimmed_last_line_witness :
  fst (OptunaSweep.objective noisy trial0 fresh) = Return (binary64 59.95).
Proof.
  rewrite (proj1 (proj1 (proj2 (@fitness_is_trimmed_last_line noisy trial0
                    fresh 12 _ _)) eq_refl eq_refl)).
  vm_compute. reflexivity.
Defined.

(** The ways of having no fitness: only blank lines, a last line that is
    no number, a separator before the number; and a trainer that cannot be
    started. *)
Example no_fitness_is_worst_fitness :
  fst (OptunaSweep.objective silent trial0 fresh) = Return NegInf /\
  fst (OptunaSweep.objective garbled trial0 fresh) = Return NegInf /\
  fst (OptunaSweep.objective separator_before trial0 fresh) = Return NegInf /\
  fst (OptunaSweep.objective missing trial0 fresh) = Raise FileNotFoundError.
Proof. repeat split; vm_compute; reflexivity. Qed.

(** C9.  [optuna_sweep.py] asks for [species_count] first and for
    [min_species_count] third, with upper bound
    [max(2, species_count // 3)] computed from the value the sampler gave
    for [species_count]; each name is asked once.  With 6 species the bound
    is 2. *)
Theorem min_species_bound_follows_species_count :
  forall (os : list arg -> child) (trial : handle),
    let s := sampler trial in
    let species_count := sample_int s "species_count" 4 30 in
    let high := Z.max 2 (species_count / 3) in
    let asked := params (snd (OptunaSweep.objective os trial fresh)) in
    map s_name asked =
      [ "species_count"; "individuals_per_species"; "min_species_count";
        "elites"; "tournament_size"; "parent_pool_percentage";
        "grace_generations"; "stagnation_threshold";
        "species_diversity_threshold"; "relative_performance_threshold";
        "weight_jitter"; "weight_jitter_stddev"; "weight_reset";
        "weight_l1_shrink"; "l1_shrink_factor"; "activation_swap";
        "node_param_mutate"; "node_param_stddev"; "edge_add";
        "edge_delete_random"; "edge_split"; "edge_redirect"; "edge_swap";
        "weak_edge_pruning_enabled"; "weak_edge_pruning_threshold";
        "weak_edge_pruning_base_rate"; "weak_edge_pruning_on_birth";
        "weak_edge_pruning_during_evolution" ] /\
    nth_error asked 0 =
      Some (Suggestion "species_count" (IntDistribution 4 30)
              (PInt species_count)) /\
    nth_error asked 2 =
      Some (Suggestion "min_species_count" (IntDistribution 2 high)
              (PInt (sample_int s "min_species_count" 2 high))) /\
    nth_error (params (snd (OptunaSweep.objective os trial6 fresh))) 2 =
      Some (Suggestion "min_species_count" (IntDistribution 2 2) (PInt 2)).
Proof.
  intros os trial s species_count high asked.
  assert (G : forall t,
    exists rest,
      params (snd (OptunaSweep.objective os t fresh)) =
      ([ Suggestion "species_count" (IntDistribution 4 30)
           (PInt (sample_int (sampler t) "species_count" 4 30));
         Suggestion "individuals_per_species" (IntDistribution 20 100)
           (PInt (sample_int (sampler t) "individuals_per_species" 20 100));
         Suggestion "min_species_count"
           (IntDistribution 2
              (Z.max 2 (sample_int (sampler t) "species_count" 4 30 / 3)))
           (PInt (sample_int (sampler t) "min_species_count" 2
                    (Z.max 2 (sample_int (sampler t) "species_count" 4 30 / 3))))
       ] ++ rest)%list /\
      map s_name rest =
      [ "elites"; "tournament_size"; "parent_pool_percentage";
        "grace_generations"; "stagnation_threshold";
        "species_diversity_threshold"; "relative_performance_threshold";
        "weight_jitter"; "weight_jitter_stddev"; "weight_reset";
        "weight_l1_shrink"; "l1_shrink_factor"; "activation_swap";
        "node_param_mutate"; "node_param_stddev"; "edge_add";
        "edge_delete_random"; "edge_split"; "edge_redirect"; "edge_swap";
        "weak_edge_pruning_enabled"; "weak_edge_pruning_threshold";
        "weak_edge_pruning_base_rate"; "weak_edge_pruning_on_birth";
        "weak_edge_pruning_during_evolution" ]).
  { intro t.
    destruct (sweep_objective_steps os t fresh)
      as (rest & st' & P & N & _ & _ & _ & E).
    exists rest. rewrite E, evaluate_params, P. now split. }
  destruct (G trial) as (rest & P & N).
  destruct (G trial6) as (rest6 & P6 & _).
  subst asked. rewrite P, P6. cbn [map app s_name nth_error].
  rewrite N. repeat split.
Qed.

(** The Rosenbrock sweep uses [max(3, species_count // 3)] in the same
    place. *)
Lemma rosenbrock_min_species_bound (os : list arg -> child) (trial : handle) :
  let s := sampler trial in
  let high := Z.max 3 (sample_int s "species_count" 10 40 / 3) in
  nth_error (params (snd (OptunaSweepRosenbrock.objective os trial fresh))) 2 =
  Some (Suggestion "min_species_count" (IntDistribution 3 high)
          (PInt (sample_int s "min_species_count" 3 high))).
Proof.
  intros s high.
  destruct (rosenbrock_objective_steps os trial fresh)
    as (rest & st' & P & _ & _ & _ & _ & E).
  rewrite E, evaluate_params, P. reflexivity.
Qed.

End ObjectiveClaims.

(* ================================================================== *)
(** * The order on floats *)

Section FloatOrder.

Lemma Qltb_irrefl (x : Q) : Qltb x x = false.
Proof. apply Qltb_ge. apply Qle_refl. Qed.

Lemma float_lt_asym (a b : pyfloat) :
  float_lt a b = true -> float_lt b a = false.
Proof.
  destruct a as [x| | |], b as [y| | |]; simpl; trivial; try discriminate.
  intro H. apply Qltb_lt in H. apply Qltb_ge. now apply Qlt_le_weak.
Qed.

(** [x < z] and [z <= y] give [x < y], for a [y] that is a number. *)
Lemma float_lt_le_trans (x y z : pyfloat) :
  isnan y = false ->
  float_lt x z = true -> float_lt y z = false -> float_lt x y = true.
Proof.
  destruct x as [x| | |], y as [y| | |], z as [z| | |]; simpl; trivial;
    try discriminate.
  intros _ H1 H2. apply Qltb_lt in H1. apply Qltb_ge in H2.
  apply Qltb_lt. eapply Qlt_le_trans; eassumption.
Qed.

End FloatOrder.

(* ================================================================== *)
(** * The monitor: completed trials and their ranking *)

Section MonitorFacts.
Import Study Monitor ProgressSpec.

Lemma state_eqb_eq (a b : TrialState) : state_eqb a b = true <-> a = b.
Proof. destruct a, b; simpl; split; congruence. Qed.

Lemma completed_trials_In (trials : list FrozenTrial) (t : FrozenTrial) :
  In t (completed_trials trials) <-> In t trials /\ state t = COMPLETE.
Proof.
  unfold completed_trials. rewrite filter_In, state_eqb_eq. tauto.
Qed.

Lemma valued_value (t : FrozenTrial) :
  valued t = true -> exists v, value t = Some v /\ isnan v = false.
Proof.
  unfold valued. destruct (value t) as [v|]; [|discriminate].
  intro H. exists v. split; trivial. now apply negb_true_iff.
Qed.

Lemma ranks_before_tie (x y : FrozenTrial) :
  value_lt x y = false -> (number x < number y)%nat -> ranks_before x y.
Proof.
  intros L N. unfold ranks_before.
  destruct (value_lt y x) eqn:G; auto.
Qed.

(** Inserting a record that is older than all the records of a ranked
    list. *)
Lemma insert_desc_ranked (x : FrozenTrial) (l : list FrozenTrial) :
  valued x = true ->
  Forall (fun t => valued t = true) l ->
  Forall (fun t => (number x < number t)%nat) l ->
  StronglySorted ranks_before l ->
  exists r,
    insert_desc x l = Return r /\ Permutation (x :: l) r /\
    StronglySorted ranks_before r.
Proof.
  intros Vx. destruct (valued_value _ Vx) as (vx & Ex & Nx).
  induction l as [|y l IH]; intros V N S.
  - exists [x]. repeat split; auto. repeat constructor.
  - inversion V as [|? ? Vy V']; subst.
    inversion N as [|? ? Ny N']; subst.
    apply StronglySorted_inv in S. destruct S as [S Fy].
    destruct (valued_value _ Vy) as (vy & Ey & NNy).
    cbn [insert_desc]. rewrite Ex, Ey. cbn [key_lt rbind].
    destruct (float_lt vx vy) eqn:L.
    + destruct (IH V' N' S) as (r & R & P & Sr).
      rewrite R. cbn [rbind]. exists (y :: r). repeat split.
      * rewrite perm_swap. now constructor.
      * constructor; trivial.
        eapply Permutation_Forall; [exact P|].
        constructor; trivial.
        left. unfold value_lt. now rewrite Ex, Ey.
    + exists (x :: y :: l). repeat split; auto.
      constructor; [now constructor|].
      assert (Lxy : value_lt x y = false)
        by (unfold value_lt; now rewrite Ex, Ey).
      constructor; [now apply ranks_before_tie|].
      rewrite Forall_forall in Fy, N', V' |- *. intros z Hz.
      apply ranks_before_tie; [|now apply N'].
      destruct (valued_value _ (V' z Hz)) as (vz & Ez & _).
      unfold value_lt. rewrite Ex, Ez.
      destruct (float_lt vx vz) eqn:Lxz; trivial.
      assert (Lyz : float_lt vy vz = false).
      { destruct (Fy z Hz) as [G|(G & _)]; unfold value_lt in G;
          rewrite ?Ey, ?Ez in G; [now apply float_lt_asym|exact G]. }
      rewrite (@float_lt_le_trans vx vy vz NNy Lxz Lyz) in L. discriminate.
Qed.

(** [sorted] on records that have a value other than NaN and come in the
    order of their numbers: the same records, the greater value first and,
    among equal values, the smaller number first. *)
Lemma sorted_desc_ranked (l : list FrozenTrial) :
  Forall (fun t => valued t = true) l ->
  StronglySorted (fun a b => (number a < number b)%nat) l ->
  exists s,
    sorted_desc l = Return s /\ Permutation l s /\
    StronglySorted ranks_before s.
Proof.
  induction l as [|x l IH]; intros V N.
  - exists []. repeat split; constructor.
  - inversion V as [|? ? Vx V']; subst.
    apply StronglySorted_inv in N. destruct N as [N Fx].
    destruct (IH V' N) as (s & R & P & S).
    cbn [sorted_desc]. rewrite R. cbn [rbind].
    destruct (@insert_desc_ranked x s Vx) as (r & R' & P' & S'); trivial.
    + eapply Permutation_Forall; eassumption.
    + eapply Permutation_Forall; eassumption.
    + exists r. repeat split; trivial.
      rewrite <- P'. now constructor.
Qed.

End MonitorFacts.

Section RankingClaim.
Import Study Monitor ProgressSpec Examples.

(** C7.  The top trials are the first five of the completed records sorted
    by value, greater first, records of equal value in the order of their
    trial numbers (the completed records are those of the study, which come
    in the order of their numbers, and hold values other than NaN).  For
    the values 10, 55.2, 3, 55.2, 90 of trials 0 to 4 the best trial is
    trial 4, and the ranking starts with trials 4, 1, 3. *)
Theorem top_trials_by_value_then_number :
  (forall completed : list FrozenTrial,
     Forall (fun t => valued t = true) completed ->
     StronglySorted (fun a b => (number a < number b)%nat) completed ->
     exists s,
       sorted_desc completed = Return s /\
       Permutation completed s /\
       StronglySorted ranks_before s /\
       top_trials completed = Return (firstn 5 s)) /\
  (t <- best_trial ranking_example ;; Return (number t)) = Return 4%nat /\
  (top <- top_trials ranking_example ;; Return (map number top)) =
    Return [4; 1; 3; 0; 2]%nat /\
  (top <- top_trials ranking_example ;; Return (firstn 3 (map number top))) =
    Return [4; 1; 3]%nat.
Proof.
  split; [|repeat split; vm_compute; reflexivity].
  intros completed V N.
  destruct (sorted_desc_ranked V N) as (s & R & P & S).
  exists s. repeat split; trivial.
  unfold top_trials. now rewrite R.
Qed.

Lemma top_trials_by_value_then_number_witness :
  exists s,
    sorted_desc ranking_example = Return s /\
    Permutation ranking_example s /\
    StronglySorted ranks_before s /\
    top_trials ranking_example = Return (firstn 5 s).
Proof.
  apply (proj1 top_trials_by_value_then_number).
  - repeat constructor.
  - repeat constructor.
Defined.

End RankingClaim.

(* ================================================================== *)
(** * The monitor: which trials count as completed *)

Section CompletedClaim.
Import Trial Evaluation Outcome Study Monitor Examples.
Local Open Scope string_scope.

(** The state and value the optimizer stores for a trial, by the outcome of
    its evaluation. *)
Lemma run_trial_by_outcome
    (objective : (list arg -> child) -> handle -> M pyfloat)
    (command_line : handle -> list arg) (timeout : Q)
    (steps : forall os trial st, exists st',
       user_attrs st' = user_attrs st /\
       console st' = console st /\
       local_result st' = local_result st /\
       objective os trial st =
       try_except (try_block os timeout (command_line trial))
                  (except_clauses trial) st')
    (os : list arg -> child) (trial : handle) (started finished : Q) :
  let t := run_trial (objective os) trial started finished in
  match outcome os timeout (command_line trial) with
  | Some (Success fitness) =>
      if isnan fitness then state t = FAIL /\ value t = None
      else state t = COMPLETE /\ value t = Some fitness
  | Some ParseError =>
      if decodes (os (command_line trial))
      then state t = COMPLETE /\ value t = Some NegInf
      else state t = FAIL /\ value t = None
  | Some _ => state t = COMPLETE /\ value t = Some NegInf
  | None => state t = FAIL /\ value t = None
  end.
Proof.
  cbv zeta. unfold run_trial.
  pose proof (objective_by_outcome objective command_line timeout steps
                os trial fresh eq_refl) as B.
  destruct (outcome os timeout (command_line trial)) as [[f| |m|]|].
  - rewrite B. destruct (isnan f); split; reflexivity.
  - rewrite B. split; reflexivity.
  - rewrite B. split; reflexivity.
  - rewrite B. destruct (decodes (os (command_line trial))); split; reflexivity.
  - destruct B as (_ & e & ->). split; reflexivity.
Qed.

(** The records the monitor counts as completed around one record. *)
Lemma completed_trials_around (before after : list FrozenTrial)
    (t : FrozenTrial) :
  completed_trials (before ++ t :: after) =
  (completed_trials before ++
   (if state_eqb (state t) COMPLETE then [t] else []) ++
   completed_trials after)%list.
Proof.
  unfold completed_trials. rewrite filter_app. cbn [filter].
  now destruct (state_eqb (state t) COMPLETE).
Qed.

Lemma completed_trials_counts (before after : list FrozenTrial)
    (t : FrozenTrial) :
  state t = COMPLETE ->
  completed_trials (before ++ t :: after) =
  (completed_trials before ++ t :: completed_trials after)%list.
Proof. intro S. rewrite completed_trials_around, S. reflexivity. Qed.

Lemma completed_trials_leaves_out (before after : list FrozenTrial)
    (t : FrozenTrial) :
  state t <> COMPLETE ->
  completed_trials (before ++ t :: after) =
  (completed_trials before ++ completed_trials after)%list.
Proof.
  intro S. rewrite completed_trials_around.
  destruct (state_eqb (state t) COMPLETE) eqn:E; [|reflexivity].
  apply state_eqb_eq in E. contradiction.
Qed.

Lemma stored_trial_in_the_study
    (objective : (list arg -> child) -> handle -> M pyfloat)
    (command_line : handle -> list arg) (timeout : Q)
    (steps : forall os trial st, exists st',
       user_attrs st' = user_attrs st /\
       console st' = console st /\
       local_result st' = local_result st /\
       objective os trial st =
       try_except (try_block os timeout (command_line trial))
                  (except_clauses trial) st')
    (os : list arg -> child) (trial : handle) (started finished : Q)
    (before after : list FrozenTrial) :
  let t := run_trial (objective os) trial started finished in
  let counted :=
    completed_trials (before ++ t :: after) =
    (completed_trials before ++ t :: completed_trials after)%list in
  let left_out :=
    completed_trials (before ++ t :: after) =
    (completed_trials before ++ completed_trials after)%list in
  match outcome os timeout (command_line trial) with
  | Some (Success fitness) =>
      if isnan fitness then left_out /\ state t = FAIL
      else counted /\ value t = Some fitness
  | Some ParseError =>
      if decodes (os (command_line trial))
      then counted /\ value t = Some NegInf
      else left_out /\ state t = FAIL
  | Some _ => counted /\ value t = Some NegInf
  | None => left_out /\ state t = FAIL
  end.
Proof.
  cbv zeta.
  pose proof (@run_trial_by_outcome _ _ _ steps os trial started finished)
    as R. cbv zeta in R.
  assert (Y : forall v,
    state (run_trial (objective os) trial started finished) = COMPLETE /\
    value (run_trial (objective os) trial started finished) = Some v ->
    completed_trials
      (before ++ run_trial (objective os) trial started finished :: after) =
    (completed_trials before ++
     run_trial (objective os) trial started finished ::
     completed_trials after)%list /\
    value (run_trial (objective os) trial started finished) = Some v).
  { intros v [S V]. split; [now apply completed_trials_counts|exact V]. }
  assert (N :
    state (run_trial (objective os) trial started finished) = FAIL /\
    value (run_trial (objective os) trial started finished) = None ->
    completed_trials
      (before ++ run_trial (objective os) trial started finished :: after) =
    (completed_trials before ++ completed_trials after)%list /\
    state (run_trial (objective os) trial started finished) = FAIL).
  { intros [S _]. split; [|exact S].
    apply completed_trials_leaves_out. rewrite S. discriminate. }
  destruct (outcome os timeout (command_line trial)) as [[f| |m|]|]; auto.
  - destruct (isnan f); auto.
  - destruct (decodes (os (command_line trial))); auto.
Qed.

(** C6, as the code has it.  The monitor counts as completed exactly the
    records whose state is COMPLETE.  A trial gets that state whenever its
    objective returns a number: after a success with a fitness other than
    NaN, and also after a timeout, a process error or a parse error of an
    output that decodes, which the objective turns into the value negative
    infinity.  Left out of the completed records are the trials stored as
    FAIL -- a success that parsed NaN, an evaluation that could not be
    started, an output that does not decode -- and the trials that are
    still running.  Stated for both sweeps, for a trial anywhere among the
    records the monitor loads. *)
Theorem completed_is_state_complete :
  forall (os : list arg -> child) (trial : handle) (started finished : Q)
         (before after : list FrozenTrial),
    (let t := run_trial (OptunaSweep.objective os) trial started finished in
     let counted :=
       completed_trials (before ++ t :: after) =
       (completed_trials before ++ t :: completed_trials after)%list in
     let left_out :=
       completed_trials (before ++ t :: after) =
       (completed_trials before ++ completed_trials after)%list in
     match outcome os 600 (OptunaSweep.command_line trial) with
     | Some (Success fitness) =>
         if isnan fitness then left_out /\ state t = FAIL
         else counted /\ value t = Some fitness
     | Some ParseError =>
         if decodes (os (OptunaSweep.command_line trial))
         then counted /\ value t = Some NegInf
         else left_out /\ state t = FAIL
     | Some _ => counted /\ value t = Some NegInf
     | None => left_out /\ state t = FAIL
     end) /\
    (let t :=
       run_trial (OptunaSweepRosenbrock.objective os) trial started finished in
     let counted :=
       completed_trials (before ++ t :: after) =
       (completed_trials before ++ t :: completed_trials after)%list in
     let left_out :=
       completed_trials (before ++ t :: after) =
       (completed_trials before ++ completed_trials after)%list in
     match outcome os 1200 (OptunaSweepRosenbrock.command_line trial) with
     | Some (Success fitness) =>
         if isnan fitness then left_out /\ state t = FAIL
         else counted /\ value t = Some fitness
     | Some ParseError =>
         if decodes (os (OptunaSweepRosenbrock.command_line trial))
         then counted /\ value t = Some NegInf
         else left_out /\ state t = FAIL
     | Some _ => counted /\ value t = Some NegInf
     | None => left_out /\ state t = FAIL
     end) /\
    (forall n since,
       completed_trials (before ++ running_trial n since :: after) =
       (completed_trials before ++ completed_trials after)%list).
Proof.
  intros os trial started finished before after. split; [|split].
  - exact (@stored_trial_in_the_study _ _ _ sweep_steps os trial started
             finished before after).
  - exact (@stored_trial_in_the_study _ _ _ rosenbrock_steps os trial started
             finished before after).
  - intros n since. now apply completed_trials_leaves_out.
Qed.

(** A study of three trials: the first timed out, the second exited with
    status 1, the third printed no number.  None of them is a success; the
    monitor counts the three as completed. *)
Lemma failed_trials_are_counted_completed :
  let t0 := run_trial (OptunaSweep.objective hangs) trial0 0 600 in
  let t1 := run_trial (OptunaSweep.objective crashes) trial0 600 612 in
  let t2 := run_trial (OptunaSweep.objective garbled) trial0 612 624 in
  outcome hangs 600 (OptunaSweep.command_line trial0) = Some Timeout /\
  outcome crashes 600 (OptunaSweep.command_line trial0) =
    Some (ProcessError "boom") /\
  outcome garbled 600 (OptunaSweep.command_line trial0) = Some ParseError /\
  completed_trials [t0; t1; t2] = [t0; t1; t2] /\
  map value (completed_trials [t0; t1; t2]) =
    [Some NegInf; Some NegInf; Some NegInf].
Proof. cbv zeta. repeat split; vm_compute; reflexivity. Qed.

(** A trial that is still running is not counted. *)
Example running_trial_is_not_completed :
  completed_trials [running_trial 7 0] = [] /\
  running_trials [running_trial 7 0] = [running_trial 7 0].
Proof. split; reflexivity. Qed.

End CompletedClaim.

(* ================================================================== *)
(** * The monitor: progress and time remaining *)

Section ProgressFacts.
Import Study Monitor ProgressSpec FitnessCodec.

Lemma recent_is_last_ten (completed : list FrozenTrial) :
  recent completed = last_n 10 completed.
Proof.
  unfold recent, last_n. now rewrite firstn_rev, rev_involutive.
Qed.

Lemma length_recent (completed : list FrozenTrial) :
  List.length (recent completed) = Nat.min 10 (List.length completed).
Proof. unfold recent. rewrite length_skipn. lia. Qed.

Lemma recent_incl (completed : list FrozenTrial) (t : FrozenTrial) :
  In t (recent completed) -> In t completed.
Proof.
  unfold recent. intro H.
  rewrite <- (firstn_skipn (List.length completed - 10) completed).
  apply in_or_app. now right.
Qed.

Lemma sum_durations_timed (l : list FrozenTrial) :
  Forall (fun t => timed t = true) l ->
  sum_durations l = Return (fold_right Qplus 0%Q (map seconds l)).
Proof.
  induction 1 as [|t l T _ IH]; [reflexivity|].
  cbn [sum_durations map fold_right]. rewrite IH.
  unfold duration, seconds. unfold timed in T.
  destruct (datetime_complete t), (datetime_start t); try discriminate.
  reflexivity.
Qed.

(** The progress block, with fewer than two completed records and with two
    or more. *)
Lemma progress_too_few (completed : list FrozenTrial) :
  (List.length completed < 2)%nat -> progress completed = Return None.
Proof.
  intro H. unfold progress.
  destruct (Nat.ltb_spec 1 (List.length completed)); [lia|reflexivity].
Qed.

Lemma progress_value (completed : list FrozenTrial) :
  (2 <= List.length completed)%nat ->
  Forall (fun t => timed t = true) (recent completed) ->
  progress completed =
  Return (Some
    {| avg_time := mean_duration (last_n 10 completed);
       remaining := target_total - Z.of_nat (List.length completed);
       eta_seconds := eta_spec target_total completed;
       eta_hours := (eta_spec target_total completed / 3600)%Q;
       percent := Z.of_nat (List.length completed) * 100 / 200 |}).
Proof.
  intros H T. unfold progress.
  destruct (Nat.ltb_spec 1 (List.length completed)); [|lia].
  destruct (Nat.ltb_spec 1 (List.length (recent completed))) as [_|C];
    [|rewrite length_recent in C; lia].
  rewrite (sum_durations_timed T). cbn [rbind].
  unfold eta_spec, mean_duration. now rewrite recent_is_last_ten.
Qed.

(** What a pass of the loop reports as time remaining is what the progress
    block computes on the completed records. *)
Lemma iteration_eta (trials : list FrozenTrial) (s : Summary) :
  iteration trials = Return s ->
  progress (completed_trials trials) = Return (eta s).
Proof.
  unfold iteration.
  destruct (completed_trials trials) as [|t l] eqn:E.
  - intro H. injection H as <-. reflexivity.
  - destruct (best_report trials); [|discriminate]. cbn [rbind].
    destruct (top_trials (t :: l)) as [tops|]; [|discriminate]. cbn [rbind].
    destruct (top_lines 1 tops); [|discriminate]. cbn [rbind].
    destruct (progress (t :: l)); [|discriminate].
    cbn [rbind]. intro H. injection H as <-. reflexivity.
Qed.

Lemma decode_returns (v : pyfloat) :
  v <> PosInf -> exists d, decode v = Return d.
Proof.
  intro H. destruct v as [q| | |]; [| congruence | |];
    unfold decode; simpl; try destruct (Qltb 0 q); simpl; eauto.
Qed.

Lemma decode_value_returns (t : FrozenTrial) :
  decodable t = true -> exists d, decode_value (value t) = Return d.
Proof.
  unfold decodable, decode_value.
  destruct (value t) as [v|]; [|discriminate].
  intro H. apply decode_returns. destruct v; congruence.
Qed.

Lemma top_lines_return (l : list FrozenTrial) :
  Forall (fun t => decodable t = true) l ->
  forall i, exists lines, top_lines i l = Return lines.
Proof.
  induction 1 as [|t l D _ IH]; intro i; [now eexists|].
  cbn [top_lines].
  destruct (decode_value_returns _ D) as (d & ->). cbn [rbind].
  destruct (IH (S i)) as (rest & ->). cbn [rbind]. now eexists.
Qed.

Lemma insert_desc_returns (x : FrozenTrial) (l : list FrozenTrial) :
  decodable x = true ->
  Forall (fun t => decodable t = true) l ->
  exists r, insert_desc x l = Return r /\ Permutation (x :: l) r.
Proof.
  intros Dx. induction 1 as [|y l Dy _ IH].
  - exists [x]. now split.
  - cbn [insert_desc]. unfold decodable in Dx, Dy.
    destruct (value x) as [vx|]; [|discriminate].
    destruct (value y) as [vy|]; [|discriminate].
    cbn [key_lt rbind].
    destruct (float_lt vx vy).
    + destruct IH as (r & -> & P). cbn [rbind].
      exists (y :: r). split; trivial.
      rewrite perm_swap. now constructor.
    + now exists (x :: y :: l).
Qed.

Lemma sorted_desc_returns (l : list FrozenTrial) :
  Forall (fun t => decodable t = true) l ->
  exists s, sorted_desc l = Return s /\ Permutation l s.
Proof.
  induction 1 as [|x l Dx D IH].
  - now exists [].
  - destruct IH as (s & R & P). cbn [sorted_desc]. rewrite R. cbn [rbind].
    destruct (@insert_desc_returns x s Dx) as (r & R' & P').
    + eapply Permutation_Forall; eassumption.
    + exists r. split; trivial. rewrite <- P'. now constructor.
Qed.

Lemma fold_best_In (l : list FrozenTrial) (t : FrozenTrial) :
  In (fold_left (fun best u => if value_lt best u then u else best) l t)
     (t :: l).
Proof.
  revert t. induction l as [|u l IH]; intro t; [now left|].
  cbn [fold_left].
  destruct (value_lt t u).
  - right. apply IH.
  - destruct (IH t) as [<-|H]; [now left|right; now right].
Qed.

(** On a study whose completed records have their times and a value that
    [int()] accepts, a pass of the loop prints its status. *)
Lemma iteration_returns (trials : list FrozenTrial) :
  Forall (fun t => decodable t = true /\ timed t = true)
         (completed_trials trials) ->
  exists s, iteration trials = Return s.
Proof.
  intro W. unfold iteration, best_report, best_trial.
  fold (completed_trials trials).
  destruct (completed_trials trials) as [|t l] eqn:E; [now eexists|].
  assert (D : Forall (fun t => decodable t = true) (t :: l)).
  { eapply Forall_impl; [|exact W]. now intros ? []. }
  assert (T : Forall (fun t => timed t = true) (t :: l)).
  { eapply Forall_impl; [|exact W]. now intros ? []. }
  cbn [rbind].
  pose proof (fold_best_In l t) as B.
  rewrite Forall_forall in D.
  destruct (decode_value_returns _ (D _ B)) as (d & ->). cbn [rbind].
  rewrite <- Forall_forall in D.
  destruct (sorted_desc_returns D) as (s & R & P).
  unfold top_trials. rewrite R. cbn [rbind].
  assert (D5 : Forall (fun t => decodable t = true) (firstn 5 s)).
  { apply Forall_forall. intros u Hu.
    rewrite Forall_forall in D. apply D.
    eapply Permutation_in; [symmetry; exact P|].
    rewrite <- (firstn_skipn 5 s). apply in_or_app. now left. }
  destruct (top_lines_return D5 1) as (lines & ->). cbn [rbind].
  destruct (Nat.lt_ge_cases (List.length (t :: l)) 2) as [Few|Many].
  - rewrite (progress_too_few _ Few). cbn [rbind]. now eexists.
  - rewrite (progress_value _ Many); [cbn [rbind]; now eexists|].
    apply Forall_forall. intros u Hu. apply recent_incl in Hu.
    rewrite Forall_forall in T. now apply T.
Qed.

End ProgressFacts.

Section ProgressClaims.
Import Study Monitor ProgressSpec Examples.

Lemma remaining_times_positive_mean (r : Z) (m : Q) :
  r < 0 -> (0 < m)%Q -> (inject_Z r * m < 0)%Q.
Proof.
  intros R M.
  assert (I : (inject_Z r < 0)%Q).
  { change 0%Q with (inject_Z 0). now rewrite <- Zlt_Qlt. }
  setoid_replace 0%Q with (0 * m)%Q by ring.
  apply Qmult_lt_compat_r; assumption.
Qed.

(** C8.  The progress block computes no time remaining with fewer than two
    completed records, and computes one with two or more: the mean duration
    of the last ten completed records (of all of them when there are fewer
    than ten) times the number of trials remaining, which is the target of
    200 minus the number of completed records.  A pass of the loop that
    prints its status reports exactly that, and a pass prints its status on
    every study whose completed records have their times and a value that
    [int()] accepts. *)
Theorem eta_is_remaining_times_mean :
  (forall completed : list FrozenTrial,
     (List.length completed < 2)%nat -> progress completed = Return None) /\
  (forall completed : list FrozenTrial,
     (2 <= List.length completed)%nat ->
     Forall (fun t => timed t = true) (last_n 10 completed) ->
     exists p,
       progress completed = Return (Some p) /\
       avg_time p = mean_duration (last_n 10 completed) /\
       remaining p = target_total - Z.of_nat (List.length completed) /\
       eta_seconds p =
         (inject_Z (target_total - Z.of_nat (List.length completed))
          * mean_duration (last_n 10 completed))%Q /\
       eta_hours p = (eta_seconds p / 3600)%Q) /\
  (forall (trials : list FrozenTrial) (s : Summary),
     iteration trials = Return s ->
     progress (completed_trials trials) = Return (eta s)) /\
  (forall trials : list FrozenTrial,
     Forall (fun t => decodable t = true /\ timed t = true)
            (completed_trials trials) ->
     exists s, iteration trials = Return s).
Proof.
  split; [exact progress_too_few|].
  split; [|split; [exact iteration_eta|exact iteration_returns]].
  intros completed Many T.
  rewrite <- recent_is_last_ten in T.
  rewrite (progress_value completed Many T).
  eexists. split; [reflexivity|]. repeat split.
Qed.

(** Two completed records of 30 seconds each: 198 trials remain, 5940
    seconds. *)
Lemma eta_is_remaining_times_mean_witness :
  exists p,
    progress (steady 2) = Return (Some p) /\
    avg_time p = mean_duration (last_n 10 (steady 2)) /\
    remaining p = target_total - Z.of_nat (List.length (steady 2)) /\
    eta_seconds p =
      (inject_Z (target_total - Z.of_nat (List.length (steady 2)))
       * mean_duration (last_n 10 (steady 2)))%Q /\
    eta_hours p = (eta_seconds p / 3600)%Q.
Proof.
  apply (proj1 (proj2 eta_is_remaining_times_mean)).
  - simpl. lia.
  - repeat constructor.
Defined.

Example eta_of_two_steady_trials :
  progress (steady 1) = Return None /\
  exists p, progress (steady 2) = Return (Some p) /\
            remaining p = 198 /\ (eta_seconds p == 5940)%Q.
Proof.
  split; [reflexivity|]. eexists. split; [vm_compute; reflexivity|].
  split; reflexivity.
Qed.

(** C10: the claim fails with 201 completed records, where the percentage
    is 100 and not more. *)
Lemma percent_is_100_with_201_completed :
  (200 < List.length (steady 201))%nat /\
  exists p,
    progress (steady 201) = Return (Some p) /\
    remaining p = -1 /\ (eta_seconds p < 0)%Q /\
    percent p = 100 /\ ~ 100 < percent p.
Proof.
  split; [vm_compute; lia|].
  eexists. split; [vm_compute; reflexivity|].
  cbn [remaining eta_seconds percent].
  split; [reflexivity|]. split; [reflexivity|]. split; [reflexivity|lia].
Qed.

(** C10, as the code has it.  Progress is computed against the constant
    200: the percentage is [completed * 100 // 200], the number remaining
    is [200 - completed], the time remaining is that number times the mean
    duration.  With more than 200 completed records the number remaining is
    negative, the time remaining is negative when the mean duration is
    positive, and the percentage is at least 100; it exceeds 100 from 202
    completed records on. *)
Theorem progress_against_200 :
  forall completed : list FrozenTrial,
    (2 <= List.length completed)%nat ->
    Forall (fun t => timed t = true) (last_n 10 completed) ->
    exists p,
      progress completed = Return (Some p) /\
      percent p = Z.of_nat (List.length completed) * 100 / 200 /\
      remaining p = 200 - Z.of_nat (List.length completed) /\
      eta_seconds p = (inject_Z (remaining p) * avg_time p)%Q /\
      ((200 < List.length completed)%nat ->
       remaining p < 0 /\
       100 <= percent p /\
       (100 < percent p <-> (202 <= List.length completed)%nat) /\
       ((0 < avg_time p)%Q -> (eta_seconds p < 0)%Q)).
Proof.
  intros completed Many T.
  rewrite <- recent_is_last_ten in T.
  rewrite (progress_value completed Many T).
  eexists. split; [reflexivity|].
  cbn [percent remaining eta_seconds avg_time].
  unfold eta_spec, target_total.
  split; [reflexivity|]. split; [reflexivity|]. split; [reflexivity|].
  intro Over.
  set (n := Z.of_nat (List.length completed)).
  assert (N : 200 < n) by (subst n; lia).
  split; [lia|]. split.
  - apply Z.div_le_lower_bound; lia.
  - split.
    + split; intro H.
      * assert (202 <= n); [|subst n; lia].
        destruct (Z.lt_ge_cases n 202) as [L|]; [|assumption].
        assert (n * 100 / 200 < 101)
          by (apply Z.div_lt_upper_bound; lia).
        lia.
      * assert (202 <= n) by (subst n; lia).
        assert (101 <= n * 100 / 200)
          by (apply Z.div_le_lower_bound; lia).
        lia.
    + apply remaining_times_positive_mean. lia.
Qed.

(** 202 completed records of 30 seconds each: 101 percent. *)
Lemma progress_against_200_witness :
  exists p,
    progress (steady 202) = Return (Some p) /\
    percent p = Z.of_nat (List.length (steady 202)) * 100 / 200 /\
    remaining p = 200 - Z.of_nat (List.length (steady 202)) /\
    eta_seconds p = (inject_Z (remaining p) * avg_time p)%Q /\
    ((200 < List.length (steady 202))%nat ->
     remaining p < 0 /\
     100 <= percent p /\
     (100 < percent p <-> (202 <= List.length (steady 202))%nat) /\
     ((0 < avg_time p)%Q -> (eta_seconds p < 0)%Q)).
Proof.
  apply progress_against_200.
  - vm_compute. lia.
  - vm_compute. repeat constructor.
Defined.

(** Records whose two times are equal: the time remaining is zero, also
    with more than 200 of them. *)
Example eta_of_instant_trials :
  exists p, progress (instant 201) = Return (Some p) /\
            remaining p = -1 /\ (eta_seconds p == 0)%Q.
Proof.
  eexists. split; [vm_compute; reflexivity|]. split; reflexivity.
Qed.

End ProgressClaims.

(* ================================================================== *)
(** * Further properties: the decoder *)

Section DecoderProperties.
Import FitnessCodec Monitor.

Lemma Qfloor_nonneg (q : Q) : (0 <= q)%Q -> 0 <= Qfloor q.
Proof.
  intro H. change 0 with (Qfloor 0). now apply Qfloor_resp_le.
Qed.

Lemma Qfloor_int_plus (n : Z) (sec : Q) :
  (Qabs sec < 1)%Q ->
  Qfloor (inject_Z n + sec) = if Qle_bool 0 sec then n else n - 1.
Proof.
  intro H. apply Qabs_Qlt_condition in H. destruct H as [Hlo Hhi].
  destruct (Qle_bool 0 sec) eqn:S.
  - apply Qle_bool_iff in S. apply Qfloor_unique; lra.
  - assert (S' : (sec < 0)%Q).
    { apply Qnot_le_lt. intro L. apply Qle_bool_iff in L. congruence. }
    assert (E : (inject_Z (n - 1) == inject_Z n - 1)%Q).
    { unfold Z.sub. rewrite inject_Z_plus. reflexivity. }
    apply Qfloor_unique; rewrite E; lra.
Qed.

(** X1.  Whatever [decode] returns, the solve rate is not negative and the
    two parts add up to the decoded value; for a positive value the
    secondary lies in [0, 1), so that a negative average fitness is never
    shown beside a positive fitness. *)
Theorem decoded_parts (value : pyfloat) (solve_rate : Z) (avg_fitness : pyfloat) :
  decode value = Return (solve_rate, avg_fitness) ->
  0 <= solve_rate /\
  int_add_float solve_rate avg_fitness =~ value /\
  (float_gt value (Fin 0) = true ->
   float_lt avg_fitness (Fin 0) = false /\
   float_lt avg_fitness (Fin 1) = true).
Proof.
  destruct value as [q| | |].
  - rewrite decode_Fin. cbn [float_gt float_lt].
    destruct (Qltb 0 q) eqn:G; intro H; injection H as <- <-.
    + apply Qltb_lt in G.
      pose proof (Qfloor_le q) as F1. pose proof (Qlt_floor q) as F2.
      rewrite inject_Z_plus in F2. change (inject_Z 1) with 1%Q in F2.
      split; [apply Qfloor_nonneg; lra|]. split; [simpl; ring|].
      intros _. cbn [float_lt]. split.
      * apply Qltb_ge. lra.
      * apply Qltb_lt. lra.
    + split; [lia|]. split; [|discriminate].
      simpl. change (inject_Z 0) with 0%Q. ring.
  - discriminate.
  - intro H. injection H as <- <-. repeat split; discriminate.
  - intro H. injection H as <- <-. repeat split; discriminate.
Qed.

Lemma decoded_parts_witness :
  0 <= 59 /\
  int_add_float 59 (Fin (59.95 - inject_Z 59)) =~ Fin 59.95 /\
  (float_gt (Fin 59.95) (Fin 0) = true ->
   float_lt (Fin (59.95 - inject_Z 59)) (Fin 0) = false /\
   float_lt (Fin (59.95 - inject_Z 59)) (Fin 1) = true).
Proof.
  apply (@decoded_parts (Fin 59.95) 59 (Fin (59.95 - inject_Z 59))).
  reflexivity.
Defined.

(** X2.  [decode] raises on positive infinity, an [OverflowError], and on
    no other float: negative infinity and NaN are not greater than zero
    and decode to a solve rate of 0. *)
Theorem decode_raises_on_positive_infinity_only :
  decode PosInf = Raise OverflowError /\
  decode NegInf = Return (0, NegInf) /\
  decode NaN = Return (0, NaN) /\
  (forall (value : pyfloat) (e : exn),
     decode value = Raise e -> value = PosInf /\ e = OverflowError).
Proof.
  repeat split; try reflexivity;
    destruct value as [q| | |]; try discriminate;
    try (injection H as <-; reflexivity).
  - rewrite decode_Fin in H. destruct (Qltb 0 q); discriminate.
  - rewrite decode_Fin in H. destruct (Qltb 0 q); discriminate.
Qed.

(** X3.  The seeds shown beside the solve rate are [solve_rate // 20].  For
    a fitness that encodes [k] solved seeds of 5 (a solve rate of [20 * k])
    and a secondary of magnitude below 1, the monitor shows [k] when the
    secondary is not negative or [k] is 0, and [k - 1] when the secondary is
    negative. *)
Theorem seeds_shown (k : Z) (sec : Q) :
  0 <= k <= 5 -> (Qabs sec < 1)%Q ->
  exists solve_rate avg_fitness,
    decode (encode (20 * k) (Fin sec)) = Return (solve_rate, avg_fitness) /\
    solve_rate / 20 = if Qle_bool 0 sec || (k =? 0) then k else k - 1.
Proof.
  intros K S. unfold encode, int_add_float. rewrite decode_Fin.
  pose proof (@Qfloor_int_plus (20 * k) sec S) as F.
  pose proof S as S'. apply Qabs_Qlt_condition in S'. destruct S' as [Hlo Hhi].
  assert (P0 : (0 <= inject_Z (20 * k))%Q).
  { change 0%Q with (inject_Z 0). rewrite <- Zle_Qle. lia. }
  destruct (Qltb 0 (inject_Z (20 * k) + sec)) eqn:G.
  - do 2 eexists. split; [reflexivity|]. rewrite F.
    destruct (Qle_bool 0 sec) eqn:L; cbn [orb].
    + rewrite Z.mul_comm. now rewrite Z.div_mul by lia.
    + destruct (Z.eqb_spec k 0) as [->|N].
      * apply Qltb_lt in G. change (inject_Z (20 * 0)) with 0%Q in G.
        assert (sec < 0)%Q; [|lra].
        apply Qnot_le_lt. intro C. apply Qle_bool_iff in C. congruence.
      * replace (20 * k - 1) with (19 + (k - 1) * 20) by lia.
        rewrite Z.div_add by lia. reflexivity.
  - do 2 eexists. split; [reflexivity|]. apply Qltb_ge in G.
    destruct (Qle_bool 0 sec) eqn:L; cbn [orb].
    + apply Qle_bool_iff in L.
      assert (A : (inject_Z (20 * k) <= inject_Z 0)%Q)
        by (change (inject_Z 0) with 0%Q; lra).
      rewrite <- Zle_Qle in A. assert (k = 0) by lia. now subst k.
    + destruct (Z.eqb_spec k 0) as [->|N]; [reflexivity|].
      assert (P1 : (1 <= inject_Z (20 * k))%Q).
      { change 1%Q with (inject_Z 1). rewrite <- Zle_Qle. lia. }
      lra.
Qed.

(** Three seeds of five and an average fitness of -0.05: two seeds are
    shown. *)
Lemma seeds_shown_witness :
  exists solve_rate avg_fitness,
    decode (encode (20 * 3) (Fin (-0.05))) = Return (solve_rate, avg_fitness) /\
    solve_rate / 20 = 2.
Proof.
  apply (@seeds_shown 3 (-0.05)); [lia|reflexivity].
Defined.

End DecoderProperties.

Lemma decode_raises_on_positive_infinity_only_witness :
  PosInf = PosInf /\ OverflowError = OverflowError.
Proof.
  apply (proj2 (proj2 (proj2 decode_raises_on_positive_infinity_only))).
  reflexivity.
Defined.

(* ================================================================== *)
(** * Further properties: the objective *)

Section ObjectiveProperties.
Import Trial Evaluation Outcome PyStr Diagnostics Bounds Examples.
Local Open Scope string_scope.

(** X4.  The command line of a trial is the seven fixed words
    [dotnet run --project <project> -c Release --] followed by one
    [name=value] token for every parameter the objective suggested, in the
    order of the suggestions and with the suggested value.  Stated for both
    sweeps. *)
Theorem command_line_mirrors_suggestions :
  forall (os : list arg -> child) (trial : handle),
    (firstn 7 (OptunaSweep.command_line trial) =
       [ Word "dotnet"; Word "run"; Word "--project";
         Word OptunaSweep.project; Word "-c"; Word "Release"; Word "--" ] /\
     map token (skipn 7 (OptunaSweep.command_line trial)) =
       map suggested (params (snd (OptunaSweep.objective os trial fresh)))) /\
    (firstn 7 (OptunaSweepRosenbrock.command_line trial) =
       [ Word "dotnet"; Word "run"; Word "--project";
         Word OptunaSweepRosenbrock.project; Word "-c"; Word "Release";
         Word "--" ] /\
     map token (skipn 7 (OptunaSweepRosenbrock.command_line trial)) =
       map suggested
           (params (snd (OptunaSweepRosenbrock.objective os trial fresh)))).
Proof.
  intros os trial. split; (split; [reflexivity|]).
  - unfold OptunaSweep.objective. repeat sample_step. cbv zeta.
    rewrite evaluate_params. reflexivity.
  - unfold OptunaSweepRosenbrock.objective. repeat sample_step. cbv zeta.
    rewrite evaluate_params. reflexivity.
Qed.

(** X5.  No clause of [objective] catches the [OSError] of a trainer that
    cannot be started: the [FileNotFoundError] of a missing executable, the
    [PermissionError] of one that may not be executed, or another
    [OSError] of [subprocess.run] leaves [objective], after the sampling
    (which never raises: no range is empty, whatever the sampler answers
    for [species_count]) and before anything is printed or any attribute is
    set.  Stated for both sweeps. *)
Theorem start_failures_leave_objective :
  forall (os : list arg -> child) (trial : handle) (st : state),
    (starts (os (OptunaSweep.command_line trial)) = false ->
     fst (OptunaSweep.objective os trial st) =
       match os (OptunaSweep.command_line trial) with
       | NoSuchExecutable => Raise FileNotFoundError
       | NotPermitted => Raise PermissionError
       | _ => Raise OSError
       end /\
     user_attrs (snd (OptunaSweep.objective os trial st)) = user_attrs st /\
     console (snd (OptunaSweep.objective os trial st)) = console st) /\
    (starts (os (OptunaSweepRosenbrock.command_line trial)) = false ->
     fst (OptunaSweepRosenbrock.objective os trial st) =
       match os (OptunaSweepRosenbrock.command_line trial) with
       | NoSuchExecutable => Raise FileNotFoundError
       | NotPermitted => Raise PermissionError
       | _ => Raise OSError
       end /\
     user_attrs (snd (OptunaSweepRosenbrock.objective os trial st)) =
       user_attrs st /\
     console (snd (OptunaSweepRosenbrock.objective os trial st)) =
       console st).
Proof.
  intros os trial st. split; intro S.
  - exact (objective_not_started _ _ _ sweep_steps os trial st S).
  - exact (objective_not_started _ _ _ rosenbrock_steps os trial st S).
Qed.

(** A trainer that may not be executed. *)
Lemma start_failures_leave_objective_witness :
  fst (OptunaSweep.objective forbidden trial0 fresh) = Raise PermissionError /\
  user_attrs (snd (OptunaSweep.objective forbidden trial0 fresh)) = [] /\
  console (snd (OptunaSweep.objective forbidden trial0 fresh)) = [].
Proof.
  apply (proj1 (start_failures_leave_objective forbidden trial0 fresh)).
  reflexivity.
Defined.

(** X6.  [objective] sets the user attribute [fitness] exactly when the
    evaluation succeeds, to the fitness it returns; after a timeout, a
    process error or a parse error the attributes of the trial are as they
    were.  Stated for both sweeps. *)
Theorem fitness_attribute_set_on_success_only :
  forall (os : list arg -> child) (trial : handle) (st : state),
    user_attrs (snd (OptunaSweep.objective os trial st)) =
      (user_attrs st ++
       match outcome os 600 (OptunaSweep.command_line trial) with
       | Some (Success fitness) => [("fitness", fitness)]
       | _ => []
       end)%list /\
    user_attrs (snd (OptunaSweepRosenbrock.objective os trial st)) =
      (user_attrs st ++
       match outcome os 1200 (OptunaSweepRosenbrock.command_line trial) with
       | Some (Success fitness) => [("fitness", fitness)]
       | _ => []
       end)%list.
Proof.
  intros os trial st. split.
  - exact (objective_attrs _ _ _ sweep_steps os trial st).
  - exact (objective_attrs _ _ _ rosenbrock_steps os trial st).
Qed.

(** X7.  What [objective] prints, its local variable [result] being
    unbound when it is entered: nothing while it samples and nothing after
    a success; after a timeout one line with the trial's number; after a
    process error the exception and the child's standard error; after a
    parse error the exception and the child's whole standard output; and
    for an output that does not decode, whatever the exit status, the
    exception alone (reading [result.stdout] raises before the second
    line).  Stated for both sweeps. *)
Theorem failures_are_printed_with_diagnostics :
  forall (os : list arg -> child) (trial : handle) (st : state),
    local_result st = None ->
    console (snd (OptunaSweep.objective os trial st)) =
      (console st ++
       printed_lines (number trial) 600
                     (os (OptunaSweep.command_line trial)))%list /\
    console (snd (OptunaSweepRosenbrock.objective os trial st)) =
      (console st ++
       printed_lines (number trial) 1200
                     (os (OptunaSweepRosenbrock.command_line trial)))%list.
Proof.
  intros os trial st L. split.
  - exact (objective_console _ _ _ sweep_steps os trial st L).
  - exact (objective_console _ _ _ rosenbrock_steps os trial st L).
Qed.

(** A trainer that exits with status 1 and whose output does not decode:
    one line, and neither the process error nor the standard error. *)
Lemma failures_are_printed_with_diagnostics_witness :
  console (snd (OptunaSweep.objective crashes_undecodable trial0 fresh)) =
    ([] ++ [Line_failed_to_parse 0 UnicodeDecodeError])%list.
Proof.
  apply (proj1 (failures_are_printed_with_diagnostics crashes_undecodable
                  trial0 fresh eq_refl)).
Defined.

Example printed_by_the_three_failures :
  console (snd (OptunaSweep.objective hangs trial0 fresh)) =
    [Line_timed_out 0] /\
  console (snd (OptunaSweep.objective crashes trial0 fresh)) =
    [Line_failed_with_error 0 (CalledProcessError 1 "42.0" "boom");
     Line_stderr "boom"] /\
  console (snd (OptunaSweep.objective garbled trial0 fresh)) =
    [Line_failed_to_parse 0 ValueError; Line_output "done"] /\
  console (snd (OptunaSweep.objective undecodable trial0 fresh)) =
    [Line_failed_to_parse 0 UnicodeDecodeError] /\
  console (snd (OptunaSweep.objective noisy trial0 fresh)) = [].
Proof. repeat split; vm_compute; reflexivity. Qed.

(** X8.  [subprocess.run] decodes what the child wrote before it checks
    the exit status.  For a child that exits within the time limit and
    whose output does not decode, the exit status therefore plays no part:
    whatever it is, the exception of the [try] body is caught by the clause
    [except ValueError], and that clause, reading [result], which is
    unbound, raises [UnboundLocalError]; no attribute is set and the one
    line printed is the one with the decoding error.  Stated for both
    sweeps. *)
Theorem undecodable_output_whatever_the_status :
  forall (os : list arg -> child) (trial : handle) (st : state)
         (seconds : Q) (status : Z) (out err : captured),
    local_result st = None ->
    (os (OptunaSweep.command_line trial) = Exits seconds status out err ->
     Qltb 600 seconds = false ->
     decodes (os (OptunaSweep.command_line trial)) = false ->
     outcome os 600 (OptunaSweep.command_line trial) = Some ParseError /\
     fst (OptunaSweep.objective os trial st) = Raise UnboundLocalError /\
     user_attrs (snd (OptunaSweep.objective os trial st)) = user_attrs st /\
     console (snd (OptunaSweep.objective os trial st)) =
       (console st ++
        [Line_failed_to_parse (number trial) UnicodeDecodeError])%list) /\
    (os (OptunaSweepRosenbrock.command_line trial) =
       Exits seconds status out err ->
     Qltb 1200 seconds = false ->
     decodes (os (OptunaSweepRosenbrock.command_line trial)) = false ->
     outcome os 1200 (OptunaSweepRosenbrock.command_line trial) =
       Some ParseError /\
     fst (OptunaSweepRosenbrock.objective os trial st) =
       Raise UnboundLocalError /\
     user_attrs (snd (OptunaSweepRosenbrock.objective os trial st)) =
       user_attrs st /\
     console (snd (OptunaSweepRosenbrock.objective os trial st)) =
       (console st ++
        [Line_failed_to_parse (number trial) UnicodeDecodeError])%list).
Proof.
  intros os trial st seconds status out err L. split; intros C T D.
  - exact (objective_undecodable _ _ _ sweep_steps os trial st L C T D).
  - exact (objective_undecodable _ _ _ rosenbrock_steps os trial st L C T D).
Qed.

(** A trainer that exits with status 1 and whose standard output does not
    decode. *)
Lemma undecodable_output_whatever_the_status_witness :
  outcome crashes_undecodable 600 (OptunaSweep.command_line trial0) =
    Some ParseError /\
  fst (OptunaSweep.objective crashes_undecodable trial0 fresh) =
    Raise UnboundLocalError /\
  user_attrs (snd (OptunaSweep.objective crashes_undecodable trial0 fresh)) =
    [] /\
  console (snd (OptunaSweep.objective crashes_undecodable trial0 fresh)) =
    ([] ++ [Line_failed_to_parse 0 UnicodeDecodeError])%list.
Proof.
  apply (proj1 (@undecodable_output_whatever_the_status crashes_undecodable
                  trial0 fresh 12 1 Undecodable (Text "boom") eq_refl));
    reflexivity.
Defined.

(** X9.  With a sampler that answers within the range it is asked, the
    [min_species_count] on the command line never exceeds the
    [species_count] on it: in [optuna_sweep.py] it lies between 2 and
    [max(2, species_count // 3)] with [species_count] between 4 and 30; in
    [optuna_sweep_rosenbrock.py] it lies between 3 and
    [species_count // 3] with [species_count] between 10 and 40. *)
Theorem min_species_count_within_species_count :
  forall trial : handle,
    int_in_range (sampler trial) ->
    (forall sc m : Z,
       In (IntArg "species_count" sc) (OptunaSweep.command_line trial) ->
       In (IntArg "min_species_count" m) (OptunaSweep.command_line trial) ->
       (4 <= sc <= 30 /\ 2 <= m <= Z.max 2 (sc / 3) /\ m <= sc)%Z) /\
    (forall sc m : Z,
       In (IntArg "species_count" sc)
          (OptunaSweepRosenbrock.command_line trial) ->
       In (IntArg "min_species_count" m)
          (OptunaSweepRosenbrock.command_line trial) ->
       (10 <= sc <= 40 /\ 3 <= m <= sc / 3 /\ m <= sc)%Z).
Proof.
  intros trial R. split; intros sc m Hsc Hm.
  - unfold OptunaSweep.command_line in Hsc, Hm. cbv zeta in Hsc, Hm.
    cbn [In] in Hsc, Hm.
    repeat (destruct Hsc as [Hsc|Hsc]; [try discriminate Hsc|]);
      [|contradiction].
    repeat (destruct Hm as [Hm|Hm]; [try discriminate Hm|]);
      [|contradiction].
    injection Hsc as <-. injection Hm as <-.
    pose proof (R "species_count" 4 30 ltac:(lia))%Z as B.
    set (sc := sample_int (sampler trial) "species_count" 4 30) in *.
    pose proof (R "min_species_count" 2 (Z.max 2 (sc / 3)) ltac:(lia))%Z as C.
    assert (sc / 3 <= sc)%Z by (apply Z.div_le_upper_bound; lia).
    lia.
  - unfold OptunaSweepRosenbrock.command_line in Hsc, Hm.
    cbv zeta in Hsc, Hm. cbn [In] in Hsc, Hm.
    repeat (destruct Hsc as [Hsc|Hsc]; [try discriminate Hsc|]);
      [|contradiction].
    repeat (destruct Hm as [Hm|Hm]; [try discriminate Hm|]);
      [|contradiction].
    injection Hsc as <-. injection Hm as <-.
    pose proof (R "species_count" 10 40 ltac:(lia))%Z as B.
    set (sc := sample_int (sampler trial) "species_count" 10 40) in *.
    pose proof (R "min_species_count" 3 (Z.max 3 (sc / 3)) ltac:(lia))%Z as C.
    assert (sc / 3 <= sc)%Z by (apply Z.div_le_upper_bound; lia).
    assert (3 <= sc / 3)%Z by (apply Z.div_le_lower_bound; lia).
    lia.
Qed.

Lemma min_species_count_within_species_count_witness :
  (4 <= 4 <= 30 /\ 2 <= 2 <= Z.max 2 (4 / 3) /\ 2 <= 4)%Z.
Proof.
  apply (proj1 (@min_species_count_within_species_count trial0
                  ltac:(intros name low high H; simpl; lia)) 4 2)%Z.
  - simpl. tauto.
  - simpl. tauto.
Defined.

End ObjectiveProperties.

(* ================================================================== *)
(** * Further properties: the monitor's status *)

Section StatusFacts.
Import Study Monitor ProgressSpec.

Lemma insert_desc_perm (x : FrozenTrial) (l r : list FrozenTrial) :
  insert_desc x l = Return r -> Permutation (x :: l) r.
Proof.
  revert r. induction l as [|y l IH]; intros r.
  - intro H. injection H as <-. reflexivity.
  - cbn [insert_desc].
    destruct (key_lt (value x) (value y)) as [[|]|]; cbn [rbind];
      [|intro H; injection H as <-; reflexivity|discriminate].
    destruct (insert_desc x l) as [r'|]; [|discriminate]. cbn [rbind].
    intro H. injection H as <-. rewrite perm_swap. constructor. now apply IH.
Qed.

Lemma sorted_desc_perm (l s : list FrozenTrial) :
  sorted_desc l = Return s -> Permutation l s.
Proof.
  revert s. induction l as [|x l IH]; intros s.
  - intro H. injection H as <-. constructor.
  - cbn [sorted_desc].
    destruct (sorted_desc l) as [s'|]; [|discriminate]. cbn [rbind].
    intro H. apply insert_desc_perm in H. rewrite <- H.
    constructor. now apply IH.
Qed.

Lemma top_lines_ranks (l : list FrozenTrial) :
  forall (i : nat) (lines : list TopLine),
    top_lines i l = Return lines ->
    map rank lines = seq i (List.length l) /\
    map trial_number lines = map number l.
Proof.
  induction l as [|t l IH]; intros i lines.
  - intro H. injection H as <-. now split.
  - cbn [top_lines].
    destruct (decode_value (value t)) as [d|]; [|discriminate]. cbn [rbind].
    destruct (top_lines (S i) l) as [rest|] eqn:R; [|discriminate].
    cbn [rbind]. intro H. injection H as <-.
    destruct (IH _ _ R) as [A B]. cbn [map rank trial_number List.length seq].
    now rewrite A, B.
Qed.

Lemma completed_and_running (trials : list FrozenTrial) :
  (List.length (completed_trials trials) + List.length (running_trials trials)
   <= List.length trials)%nat.
Proof.
  unfold completed_trials, running_trials.
  induction trials as [|t l IH]; [reflexivity|].
  cbn [filter]. destruct (state t); cbn [state_eqb List.length]; lia.
Qed.

Lemma progress_none (completed : list FrozenTrial) :
  progress completed = Return None <-> (List.length completed < 2)%nat.
Proof.
  split; [|apply progress_too_few].
  unfold progress.
  destruct (Nat.ltb_spec 1 (List.length completed)) as [Many|]; [|lia].
  destruct (Nat.ltb_spec 1 (List.length (recent completed))) as [_|C];
    [|rewrite length_recent in C; lia].
  destruct (sum_durations (recent completed)); discriminate.
Qed.

Lemma StronglySorted_app_inv {A : Type} (R : A -> A -> Prop) (a b : list A) :
  StronglySorted R (a ++ b) ->
  StronglySorted R a /\ forall x y, In x a -> In y b -> R x y.
Proof.
  induction a as [|h a IH]; intro S.
  - split; [constructor|intros ? ? []].
  - cbn [app] in S. apply StronglySorted_inv in S. destruct S as [S F].
    destruct (IH S) as [Sa Cross]. rewrite Forall_forall in F. split.
    + constructor; trivial. apply Forall_forall. intros x Hx.
      apply F. apply in_or_app. now left.
    + intros x y [<-|Hx] Hy; [|now apply Cross].
      apply F. apply in_or_app. now right.
Qed.

Lemma StronglySorted_weaken {A : Type} (R R' : A -> A -> Prop) (l : list A) :
  (forall x y, R x y -> R' x y) -> StronglySorted R l -> StronglySorted R' l.
Proof.
  intros W. induction 1 as [|a l S IH F]; constructor; trivial.
  eapply Forall_impl; [|exact F]. intros y. apply W.
Qed.

Lemma value_lt_asym (a b : FrozenTrial) :
  value_lt a b = true -> value_lt b a = false.
Proof.
  unfold value_lt. destruct (value a), (value b); try discriminate.
  apply float_lt_asym.
Qed.

Lemma ranks_before_not_less (a b : FrozenTrial) :
  ranks_before a b -> value_lt a b = false.
Proof.
  intros [H|(H & _)]; [now apply value_lt_asym|exact H].
Qed.

Lemma value_lt_le_trans (x y z : FrozenTrial) :
  valued y = true ->
  value_lt x z = true -> value_lt y z = false -> value_lt x y = true.
Proof.
  intros Vy. destruct (valued_value _ Vy) as (vy & Ey & Ny).
  unfold value_lt. rewrite Ey.
  destruct (value x) as [vx|]; [|discriminate].
  destruct (value z) as [vz|]; [|discriminate].
  now apply float_lt_le_trans.
Qed.

Lemma value_lt_irrefl (t : FrozenTrial) : value_lt t t = false.
Proof.
  unfold value_lt. destruct (value t) as [v|]; trivial.
  destruct v; simpl; trivial. apply Qltb_irrefl.
Qed.

(** The trial [study.best_trial] returns has a value that no completed
    trial exceeds. *)
Lemma fold_best_max (l : list FrozenTrial) :
  forall t : FrozenTrial,
    Forall (fun u => valued u = true) (t :: l) ->
    forall u, In u (t :: l) ->
      value_lt (fold_left (fun best u => if value_lt best u then u else best)
                          l t) u = false.
Proof.
  induction l as [|u0 l IH]; intros t V u Hu.
  - destruct Hu as [<-|[]]. apply value_lt_irrefl.
  - cbn [fold_left].
    inversion V as [|? ? Vt V']; subst. inversion V' as [|? ? Vu0 V'']; subst.
    remember (if value_lt t u0 then u0 else t) as b0 eqn:Eb.
    assert (Vb : Forall (fun u => valued u = true) (b0 :: l)).
    { constructor; trivial. subst b0. now destruct (value_lt t u0). }
    pose proof (IH b0 Vb) as M.
    remember (fold_left (fun best u => if value_lt best u then u else best)
                        l b0) as r eqn:Er.
    clear Er IH.
    assert (Mb : value_lt r b0 = false) by (apply M; now left).
    assert (Both : value_lt r t = false /\ value_lt r u0 = false).
    { destruct (value_lt t u0) eqn:L; subst b0; split; trivial.
      - destruct (value_lt r t) eqn:C; trivial.
        pose proof (value_lt_asym _ _ L) as L'.
        rewrite (@value_lt_le_trans r u0 t Vu0 C L') in Mb. discriminate.
      - destruct (value_lt r u0) eqn:C; trivial.
        rewrite (@value_lt_le_trans r t u0 Vt C L) in Mb. discriminate. }
    destruct Hu as [<-|[<-|Hu]]; [tauto|tauto|].
    apply M. now right.
Qed.

End StatusFacts.

Section StatusProperties.
Import Study Monitor MonitorLoop ProgressSpec Examples.

(** X10.  The shape of every status the monitor prints: the completed and
    the running trials together are at most all the trials; the best trial
    is shown exactly when some trial is completed; the ranking has as many
    lines as there are completed trials, up to five, ranked 1, 2, ... in
    this order; the time remaining is shown exactly when two or more trials
    are completed. *)
Theorem status_shape (trials : list FrozenTrial) (s : Summary) :
  iteration trials = Return s ->
  n_total s = List.length trials /\
  (n_completed s + n_running s <= n_total s)%nat /\
  (best s = None <-> n_completed s = 0%nat) /\
  List.length (top s) = Nat.min 5 (n_completed s) /\
  map rank (top s) = seq 1 (List.length (top s)) /\
  (eta s = None <-> (n_completed s < 2)%nat).
Proof.
  intro H. pose proof (iteration_eta _ H) as E.
  pose proof (completed_and_running trials) as CR.
  pose proof (progress_none (completed_trials trials)) as PN.
  unfold iteration in H.
  destruct (completed_trials trials) as [|t l] eqn:C.
  - injection H as <-. cbn in *. repeat split; trivial; lia.
  - destruct (best_report trials) as [b|]; [|discriminate]. cbn [rbind] in H.
    unfold top_trials in H.
    destruct (sorted_desc (t :: l)) as [sorted|] eqn:S; [|discriminate].
    cbn [rbind] in H.
    destruct (top_lines 1 (firstn 5 sorted)) as [lines|] eqn:L;
      [|discriminate].
    cbn [rbind] in H.
    destruct (progress (t :: l)) as [p|]; [|discriminate].
    cbn [rbind] in H. injection H as <-.
    cbn [n_total n_completed n_running best top eta] in *.
    destruct (top_lines_ranks _ _ L) as [R _].
    assert (Len : List.length lines = List.length (firstn 5 sorted)).
    { rewrite <- (length_map rank), R. apply length_seq. }
    pose proof (Permutation_length (sorted_desc_perm _ S)) as PL.
    split; [reflexivity|]. split; [exact CR|].
    split; [split; [discriminate|cbn; lia]|].
    split; [rewrite Len, length_firstn, <- PL; reflexivity|].
    split; [now rewrite R, Len|].
    rewrite <- PN.
    split; [intros ->; reflexivity|intro X; now injection X].
Qed.

Lemma status_shape_witness :
  exists s,
    iteration ranking_example = Return s /\
    n_total s = List.length ranking_example /\
    (n_completed s + n_running s <= n_total s)%nat /\
    (best s = None <-> n_completed s = 0%nat) /\
    List.length (top s) = Nat.min 5 (n_completed s) /\
    map rank (top s) = seq 1 (List.length (top s)) /\
    (eta s = None <-> (n_completed s < 2)%nat).
Proof.
  eexists. split; [vm_compute; reflexivity|].
  apply (@status_shape ranking_example). vm_compute. reflexivity.
Defined.

(** X11.  In the ranking of the monitor the values never increase from one
    line to the next, and no completed trial that is left out has a value
    greater than a trial that is listed (for completed records in the order
    of their numbers, with values other than NaN). *)
Theorem top_trials_dominate (completed top : list FrozenTrial) :
  Forall (fun t => valued t = true) completed ->
  StronglySorted (fun a b => (number a < number b)%nat) completed ->
  top_trials completed = Return top ->
  StronglySorted (fun a b => value_lt a b = false) top /\
  (forall t u, In t top -> In u completed -> ~ In u top ->
               value_lt t u = false).
Proof.
  intros V N T.
  destruct (sorted_desc_ranked V N) as (s & R & P & S).
  unfold top_trials in T. rewrite R in T. cbn [rbind] in T.
  injection T as <-.
  rewrite <- (firstn_skipn 5 s) in S.
  apply StronglySorted_app_inv in S. destruct S as [S Cross].
  split.
  - eapply StronglySorted_weaken; [|exact S]. apply ranks_before_not_less.
  - intros t u Ht Hu Out. apply ranks_before_not_less. apply Cross; trivial.
    assert (I : In u s) by (eapply Permutation_in; eassumption).
    rewrite <- (firstn_skipn 5 s) in I.
    apply in_app_or in I. now destruct I.
Qed.

Lemma top_trials_dominate_witness :
  StronglySorted (fun a b => value_lt a b = false)
                 (firstn 5 (steady 7)) /\
  (forall t u, In t (firstn 5 (steady 7)) -> In u (steady 7) ->
               ~ In u (firstn 5 (steady 7)) -> value_lt t u = false).
Proof.
  apply (@top_trials_dominate (steady 7) (firstn 5 (steady 7))).
  - repeat constructor.
  - vm_compute. repeat constructor.
  - vm_compute. reflexivity.
Defined.

(** X12.  A completed trial whose value is positive infinity makes every
    pass of the monitor end in an [OverflowError] (from [int()] on the best
    value), which the loop prints in place of the status. *)
Theorem infinite_fitness_breaks_the_status (trials : list FrozenTrial) :
  Forall (fun t => valued t = true) (completed_trials trials) ->
  (exists t, In t (completed_trials trials) /\ value t = Some PosInf) ->
  iteration trials = Raise OverflowError /\
  loop_body trials = Error OverflowError.
Proof.
  intros V (u & Hu & Eu).
  assert (I : iteration trials = Raise OverflowError).
  { unfold iteration, best_report, best_trial.
    fold (completed_trials trials).
    destruct (completed_trials trials) as [|t l] eqn:C; [destruct Hu|].
    cbn [rbind].
    pose proof (@fold_best_max l t V u Hu) as M.
    pose proof (fold_best_In l t) as B.
    set (r := fold_left _ l t) in *.
    rewrite Forall_forall in V.
    destruct (valued_value _ (V r B)) as (vr & Er & Nr).
    unfold value_lt in M. rewrite Er, Eu in M.
    destruct vr; try discriminate. rewrite Er. reflexivity. }
  split; [exact I|]. unfold loop_body. now rewrite I.
Qed.

Lemma infinite_fitness_breaks_the_status_witness :
  let t := {| number := 0; state := COMPLETE; value := Some PosInf;
              datetime_start := Some 0%Q; datetime_complete := Some 1%Q |} in
  iteration (ranking_example ++ [t]) = Raise OverflowError /\
  loop_body (ranking_example ++ [t]) = Error OverflowError.
Proof.
  intro t. apply infinite_fitness_breaks_the_status.
  - repeat constructor.
  - exists t. split; [simpl; tauto|reflexivity].
Defined.

End StatusProperties.

(* ================================================================== *)
(** * Further properties: progress below the target, and the loop *)

Section ProgressProperties.
Import Study Monitor MonitorLoop ProgressSpec Examples.

Lemma sum_nonneg (l : list Q) :
  Forall (fun d => (0 <= d)%Q) l -> (0 <= fold_right Qplus 0 l)%Q.
Proof.
  induction 1 as [|d l D _ IH]; cbn [fold_right]; [apply Qle_refl|].
  change 0%Q with (0 + 0)%Q. now apply Qplus_le_compat.
Qed.

Lemma mean_duration_nonneg (window : list FrozenTrial) :
  Forall (fun t => (0 <= seconds t)%Q) window ->
  (0 <= mean_duration window)%Q.
Proof.
  intro H. unfold mean_duration, Qdiv.
  apply Qmult_le_0_compat.
  - apply sum_nonneg. now apply Forall_map.
  - apply Qinv_le_0_compat. change 0%Q with (inject_Z 0).
    rewrite <- Zle_Qle. lia.
Qed.

(** X13.  Up to the target of 200 completed trials the progress figures stay
    in range: the percentage is between 0 and 100 and is 100 only at 200,
    the number remaining is not negative, and the time remaining is not
    negative when no trial of the window ends before it starts. *)
Theorem progress_up_to_the_target (completed : list FrozenTrial) :
  (2 <= List.length completed <= 200)%nat ->
  Forall (fun t => timed t = true) (last_n 10 completed) ->
  Forall (fun t => (0 <= seconds t)%Q) (last_n 10 completed) ->
  exists p,
    progress completed = Return (Some p) /\
    0 <= percent p <= 100 /\
    (percent p = 100 <-> List.length completed = 200%nat) /\
    0 <= remaining p /\
    (0 <= eta_seconds p)%Q.
Proof.
  intros [Lo Hi] T D.
  rewrite <- recent_is_last_ten in T.
  rewrite (progress_value completed Lo T).
  eexists. split; [reflexivity|].
  cbn [percent remaining eta_seconds]. unfold eta_spec, target_total.
  set (n := Z.of_nat (List.length completed)).
  assert (N : 2 <= n <= 200) by (subst n; lia).
  assert (P0 : 0 <= n * 100 / 200) by (apply Z.div_pos; lia).
  assert (P1 : n * 100 / 200 <= 100)
    by (apply Z.div_le_upper_bound; lia).
  split; [lia|]. split; [|split; [lia|]].
  - split; intro H.
    + assert (n = 200); [|subst n; lia].
      destruct (Z.lt_ge_cases n 200) as [L|]; [|lia].
      assert (n * 100 / 200 < 100) by (apply Z.div_lt_upper_bound; lia).
      lia.
    + assert (E : n = 200) by (subst n; lia). rewrite E. reflexivity.
  - apply Qmult_le_0_compat; [|now apply mean_duration_nonneg].
    change 0%Q with (inject_Z 0). rewrite <- Zle_Qle. lia.
Qed.

Lemma progress_up_to_the_target_witness :
  exists p,
    progress (steady 37) = Return (Some p) /\
    0 <= percent p <= 100 /\
    (percent p = 100 <-> List.length (steady 37) = 200%nat) /\
    0 <= remaining p /\
    (0 <= eta_seconds p)%Q.
Proof.
  apply progress_up_to_the_target.
  - vm_compute. lia.
  - vm_compute. repeat constructor.
  - vm_compute. repeat constructor; discriminate.
Defined.

(** The spec's example: 37 completed trials are 18 percent. *)
Example percent_of_37 :
  exists p, progress (steady 37) = Return (Some p) /\ percent p = 18.
Proof. eexists. split; [vm_compute; reflexivity|reflexivity]. Qed.

(** X14.  No error stops the monitor: over passes during which Ctrl+C does
    not arrive, the loop prints for every pass either its status or the
    exception of the pass (from loading the study or from computing the
    status), and is still running afterwards. *)
Theorem errors_never_stop_the_monitor (passes : list pass) :
  forallb quiet passes = true ->
  main passes = (map shows passes, StillRunning).
Proof.
  induction passes as [|p rest IH]; [reflexivity|].
  cbn [forallb]. intro H. apply andb_true_iff in H. destruct H as [Q Rest].
  unfold quiet in Q. apply negb_true_iff in Q.
  cbn [main map]. unfold shows at 1. rewrite Q, (IH Rest).
  destruct (rbind (load p) _); reflexivity.
Qed.

Lemma errors_never_stop_the_monitor_witness :
  main [ {| load := Raise ValueError; ctrl_c := false |};
         {| load := Return ranking_example; ctrl_c := false |} ] =
  (map shows [ {| load := Raise ValueError; ctrl_c := false |};
               {| load := Return ranking_example; ctrl_c := false |} ],
   StillRunning).
Proof.
  apply errors_never_stop_the_monitor. reflexivity.
Defined.

(** X15.  Ctrl+C ends the monitor in one of two ways.  When it arrives in
    a pass that printed its status, the loop prints that monitoring stopped
    and is left through [break].  When it arrives in a pass that printed an
    error, the [KeyboardInterrupt] is raised by the [sleep] of the [except]
    clause, which no clause catches: it leaves [main] and nothing more is
    printed.  The passes after it are not made. *)
Theorem ctrl_c_ends_the_monitor (before after : list pass) (p : pass) :
  forallb quiet before = true ->
  ctrl_c p = true ->
  main (before ++ p :: after) =
  match shows p with
  | Shown (Status s) =>
      (map shows before ++ [Shown (Status s); MonitoringStopped], Stopped)
  | other => (map shows before ++ [other], Interrupted)
  end.
Proof.
  intros Q C. induction before as [|b before IH].
  - cbn [app main map]. unfold shows. rewrite C.
    destruct (rbind (load p) _); reflexivity.
  - cbn [forallb] in Q. apply andb_true_iff in Q. destruct Q as [Qb Q].
    unfold quiet in Qb. apply negb_true_iff in Qb.
    cbn [app main map]. rewrite Qb, (IH Q).
    destruct (shows p) as [[s|err]|]; unfold shows;
      destruct (rbind (load b) _); reflexivity.
Qed.

Lemma ctrl_c_ends_the_monitor_witness :
  main ([ {| load := Return ranking_example; ctrl_c := false |} ] ++
        {| load := Raise ValueError; ctrl_c := true |} :: []) =
  (map shows [ {| load := Return ranking_example; ctrl_c := false |} ] ++
   [Shown (Error ValueError)], Interrupted).
Proof.
  apply (@ctrl_c_ends_the_monitor
           [ {| load := Return ranking_example; ctrl_c := false |} ] []
           {| load := Raise ValueError; ctrl_c := true |});
    reflexivity.
Defined.

End ProgressProperties.

(* ================================================================== *)
(** * Further properties: the final report of the Rosenbrock sweep *)

Section ReportFacts.
Import Study Monitor RosenbrockReport FitnessCodec ProgressSpec.

Lemma insert_by_key_sorted (x : FrozenTrial) (l : list FrozenTrial) :
  Forall keyed l ->
  StronglySorted key_not_less l ->
  Permutation (x :: l) (insert_by_key x l) /\
  StronglySorted key_not_less (insert_by_key x l).
Proof.
  induction l as [|y l IH]; intros K S.
  - split; [reflexivity|repeat constructor].
  - inversion K as [|? ? Ky K']; subst.
    apply StronglySorted_inv in S. destruct S as [S Fy].
    cbn [insert_by_key].
    destruct (float_lt (report_key x) (report_key y)) eqn:L.
    + destruct (IH K' S) as [P S']. split.
      * rewrite perm_swap. now constructor.
      * constructor; trivial.
        eapply Permutation_Forall; [exact P|].
        constructor; trivial. now apply float_lt_asym.
    + split; [reflexivity|].
      constructor; [now constructor|].
      constructor; trivial.
      rewrite Forall_forall in Fy |- *. intros z Hz.
      unfold key_not_less in *.
      destruct (float_lt (report_key x) (report_key z)) eqn:C; trivial.
      rewrite (@float_lt_le_trans _ _ _ Ky C (Fy z Hz)) in L. discriminate.
Qed.

Lemma sorted_by_key_sorted (l : list FrozenTrial) :
  Forall keyed l ->
  Permutation l (sorted_by_key l) /\
  StronglySorted key_not_less (sorted_by_key l).
Proof.
  induction 1 as [|x l Kx K IH]; [split; constructor|].
  destruct IH as [P S]. cbn [sorted_by_key].
  destruct (@insert_by_key_sorted x (sorted_by_key l)) as [P' S']; trivial.
  - eapply Permutation_Forall; eassumption.
  - split; trivial. rewrite <- P'. now constructor.
Qed.

Lemma insert_by_key_perm (x : FrozenTrial) (l : list FrozenTrial) :
  Permutation (x :: l) (insert_by_key x l).
Proof.
  induction l as [|y l IH]; [reflexivity|]. cbn [insert_by_key].
  destruct (float_lt (report_key x) (report_key y)); [|reflexivity].
  rewrite perm_swap. now constructor.
Qed.

Lemma sorted_by_key_perm (l : list FrozenTrial) :
  Permutation l (sorted_by_key l).
Proof.
  induction l as [|x l IH]; [constructor|]. cbn [sorted_by_key].
  rewrite <- insert_by_key_perm. now constructor.
Qed.

(** The entries written for a list of trials: one for each trial that has a
    value, ranked with its position in the list. *)
Lemma entries_positions (l : list FrozenTrial) :
  forall (i : nat) (es : list Entry),
    entries i l = Return es ->
    map (fun e => (e_rank e, e_number e, Some (e_value e))) es =
    map (fun it => (fst it, number (snd it), value (snd it)))
        (filter (fun it => match value (snd it) with
                           | Some _ => true
                           | None => false
                           end)
                (combine (seq i (List.length l)) l)).
Proof.
  induction l as [|t l IH]; intros i es.
  - intro H. injection H as <-. reflexivity.
  - cbn [entries List.length seq combine filter snd].
    destruct (value t) as [v|] eqn:E.
    + destruct (decode v) as [d|]; [|discriminate]. cbn [rbind].
      destruct (entries (S i) l) as [rest|] eqn:R; [|discriminate].
      cbn [rbind]. intro H. injection H as <-.
      cbn [map fst snd e_rank e_number e_value]. rewrite E.
      now rewrite (IH _ _ R).
    + intro H. now apply IH.
Qed.

Lemma entries_length (l : list FrozenTrial) :
  forall (i : nat) (es : list Entry),
    entries i l = Return es -> (List.length es <= List.length l)%nat.
Proof.
  induction l as [|t l IH]; intros i es.
  - intro H. injection H as <-. reflexivity.
  - cbn [entries List.length].
    destruct (value t) as [v|].
    + destruct (decode v) as [d|]; [|discriminate]. cbn [rbind].
      destruct (entries (S i) l) as [rest|] eqn:R; [|discriminate].
      cbn [rbind]. intro H. injection H as <-.
      cbn [List.length]. apply IH in R. lia.
    + intro H. apply IH in H. lia.
Qed.

Lemma decode_raise_inv (v : pyfloat) (e : exn) :
  decode v = Raise e -> v = PosInf /\ e = OverflowError.
Proof.
  destruct v as [q| | |]; try discriminate.
  - rewrite decode_Fin. destruct (Qltb 0 q); discriminate.
  - intro H. injection H as <-. now split.
Qed.

Lemma entries_raise (l : list FrozenTrial) :
  forall (i : nat) (e : exn),
    entries i l = Raise e ->
    e = OverflowError /\ exists t, In t l /\ value t = Some PosInf.
Proof.
  induction l as [|t l IH]; intros i e; [discriminate|].
  cbn [entries].
  destruct (value t) as [v|] eqn:E.
  - destruct (decode v) as [d|e'] eqn:D; cbn [rbind].
    + destruct (entries (S i) l) as [rest|e''] eqn:R; [discriminate|].
      cbn [rbind]. intro H. injection H as <-.
      destruct (IH _ _ R) as (-> & u & Hu & Eu).
      split; trivial. exists u. split; [now right|trivial].
    + intro H. injection H as <-.
      destruct (decode_raise_inv _ D) as [-> ->].
      split; trivial. exists t. split; [now left|trivial].
  - intro H. destruct (IH _ _ H) as (-> & u & Hu & Eu).
    split; trivial. exists u. split; [now right|trivial].
Qed.

End ReportFacts.

Section ReportProperties.
Import Study Monitor RosenbrockReport FitnessCodec ProgressSpec Examples.

(** X16.  The "Top 10 Trials" section of the Rosenbrock report has one
    entry for each trial that has a value among the first ten of the sorted
    trials, and no entry for the others; an entry carries the position of
    its trial among those ten as its rank, so that the ranks written can
    skip numbers, and at most ten entries are written. *)
Theorem top10_entries (trials : list FrozenTrial) (es : list Entry) :
  top10 trials = Return es ->
  let listed := firstn 10 (sorted_by_key trials) in
  map (fun e => (e_rank e, e_number e, Some (e_value e))) es =
  map (fun it => (fst it, number (snd it), value (snd it)))
      (filter (fun it => match value (snd it) with
                         | Some _ => true
                         | None => false
                         end)
              (combine (seq 1 (List.length listed)) listed)) /\
  (List.length es <= 10)%nat.
Proof.
  unfold top10. intro H. cbv zeta. split.
  - now apply entries_positions.
  - apply entries_length in H. rewrite length_firstn in H. lia.
Qed.

(** A running trial and a trial that timed out: the running trial is first
    of the two and is not written, the other is written with rank 2. *)
Lemma top10_entries_witness :
  let timed_out := {| number := 1; state := COMPLETE; value := Some NegInf;
                      datetime_start := Some 0%Q;
                      datetime_complete := Some 600%Q |} in
  let trials := [running_trial 0 0; timed_out] in
  let listed := firstn 10 (sorted_by_key trials) in
  map (fun e => (e_rank e, e_number e, Some (e_value e)))
      [ {| e_rank := 2; e_number := 1; e_value := NegInf;
           e_sr := 0; e_af := NegInf |} ] =
  map (fun it => (fst it, number (snd it), value (snd it)))
      (filter (fun it => match value (snd it) with
                         | Some _ => true
                         | None => false
                         end)
              (combine (seq 1 (List.length listed)) listed)) /\
  (List.length [ {| e_rank := 2; e_number := 1; e_value := NegInf;
                    e_sr := 0; e_af := NegInf |} ] <= 10)%nat.
Proof.
  intros timed_out trials.
  apply (@top10_entries trials). reflexivity.
Defined.

(** X17.  The trials of the final report are the trials of the study in an
    order in which no sort key increases (the key is the value, negative
    infinity for a trial without one; the keys are numbers).  A trial
    without a value is therefore followed only by trials without a value
    or with the value negative infinity. *)
Theorem final_ranking_order (trials : list FrozenTrial) :
  Forall keyed trials ->
  Permutation trials (sorted_by_key trials) /\
  StronglySorted key_not_less (sorted_by_key trials) /\
  (forall before a after,
     sorted_by_key trials = before ++ a :: after ->
     value a = None ->
     Forall (fun b => report_key b = NegInf) after).
Proof.
  intro K. destruct (sorted_by_key_sorted K) as [P S].
  split; [exact P|]. split; [exact S|].
  intros before a after E Na. rewrite E in S.
  apply StronglySorted_app_inv in S. destruct S as [_ Cross].
  apply Forall_forall. intros b Hb.
  assert (Kb : keyed b).
  { rewrite Forall_forall in K. apply K.
    eapply Permutation_in; [symmetry; exact P|].
    rewrite E. apply in_or_app. right. now right. }
  assert (S : StronglySorted key_not_less (a :: after)).
  { pose proof (sorted_by_key_sorted K) as [_ S']. rewrite E in S'.
    clear - S'. induction before as [|h before IH]; [exact S'|].
    apply IH. cbn [app] in S'. now apply StronglySorted_inv in S'. }
  apply StronglySorted_inv in S. destruct S as [_ F].
  rewrite Forall_forall in F. specialize (F b Hb).
  unfold key_not_less, report_key at 1 in F. rewrite Na in F.
  unfold keyed in Kb.
  destruct (report_key b); simpl in *; congruence.
Qed.

Lemma final_ranking_order_witness :
  Permutation (running_trial 0 0 :: ranking_example)
              (sorted_by_key (running_trial 0 0 :: ranking_example)) /\
  StronglySorted key_not_less
                 (sorted_by_key (running_trial 0 0 :: ranking_example)) /\
  (forall before a after,
     sorted_by_key (running_trial 0 0 :: ranking_example) =
       before ++ a :: after ->
     value a = None ->
     Forall (fun b => report_key b = NegInf) after).
Proof.
  apply final_ranking_order. repeat constructor.
Defined.

Example valueless_trials_are_listed_last :
  map number (sorted_by_key (running_trial 9 0 :: ranking_example)) =
  [4; 1; 3; 0; 2; 9]%nat.
Proof. reflexivity. Qed.

(** X18.  The "Top 10 Trials" section is written unless some trial has the
    value positive infinity: then, and only then, writing it raises, an
    [OverflowError].  A trial without a value raises nothing. *)
Theorem top10_raises_on_infinite_fitness_only (trials : list FrozenTrial) :
  Forall keyed trials ->
  ((exists t, In t trials /\ value t = Some PosInf) <->
   top10 trials = Raise OverflowError) /\
  (forall e, top10 trials = Raise e -> e = OverflowError).
Proof.
  intro K. split; [split|].
  - intros (u & Hu & Eu).
    destruct (sorted_by_key_sorted K) as [P S].
    unfold top10.
    destruct (sorted_by_key trials) as [|h s] eqn:E.
    { apply Permutation_sym, Permutation_nil in P. subst. destruct Hu. }
    assert (Kh : keyed h).
    { rewrite Forall_forall in K. apply K.
      eapply Permutation_in; [symmetry; exact P|now left]. }
    assert (Eh : value h = Some PosInf).
    { assert (I : In u (h :: s)) by (eapply Permutation_in; eassumption).
      destruct I as [->|I]; trivial.
      apply StronglySorted_inv in S. destruct S as [_ F].
      rewrite Forall_forall in F. specialize (F u I).
      unfold key_not_less, keyed, report_key in *. rewrite Eu in F.
      destruct (value h) as [[| | |]|]; simpl in *; congruence. }
    cbn [firstn entries]. rewrite Eh. reflexivity.
  - intro H. unfold top10 in H.
    destruct (entries_raise _ _ H) as (_ & t & Ht & Et).
    exists t. split; trivial.
    eapply Permutation_in; [symmetry; apply sorted_by_key_perm|].
    rewrite <- (firstn_skipn 10 (sorted_by_key trials)).
    apply in_or_app. now left.
  - intros e H. unfold top10 in H. now destruct (entries_raise _ _ H).
Qed.

Lemma top10_raises_on_infinite_fitness_only_witness :
  ((exists t, In t ranking_example /\ value t = Some PosInf) <->
   top10 ranking_example = Raise OverflowError) /\
  (forall e, top10 ranking_example = Raise e -> e = OverflowError).
Proof.
  apply top10_raises_on_infinite_fitness_only. repeat constructor.
Defined.

(** X19.  The final report of the Rosenbrock sweep is not produced on a
    study without a completed trial ([study.best_trial] raises a
    [ValueError]) nor on a study with a completed trial of value positive
    infinity ([int()] raises an [OverflowError] on the best value). *)
Theorem report_raises (trials : list FrozenTrial) :
  (completed_trials trials = [] -> report trials = Raise ValueError) /\
  (Forall (fun t => valued t = true) (completed_trials trials) ->
   (exists t, In t (completed_trials trials) /\ value t = Some PosInf) ->
   report trials = Raise OverflowError).
Proof.
  unfold report, best_trial. fold (completed_trials trials). split.
  - intros ->. reflexivity.
  - intros V (u & Hu & Eu).
    destruct (completed_trials trials) as [|t l] eqn:C; [destruct Hu|].
    cbn [rbind].
    pose proof (@fold_best_max l t V u Hu) as M.
    pose proof (fold_best_In l t) as B.
    set (r := fold_left _ l t) in *.
    rewrite Forall_forall in V.
    destruct (valued_value _ (V r B)) as (vr & Er & Nr).
    unfold value_lt in M. rewrite Er, Eu in M.
    destruct vr; try discriminate. rewrite Er. reflexivity.
Qed.

Lemma report_raises_witness :
  report [running_trial 0 0] = Raise ValueError.
Proof.
  apply (proj1 (report_raises [running_trial 0 0])). reflexivity.
Defined.

End ReportProperties.

(* ================================================================== *)
(** * Further properties: the sweeps' [main] *)

Section OptimizerFacts.
Import Trial Evaluation Outcome Study Optimizer Bounds.

Variable objective : handle -> M pyfloat.
Variable env : Env.

Lemma optimize_without_exception (n : nat) :
  forall study study' : list StoredTrial,
    optimize objective env n study = (study', None) ->
    study' =
      study ++ map (run_stored objective env) (seq (List.length study) n).
Proof.
  induction n as [|n IH]; intros study study'.
  - intro H. injection H as <-. cbn. now rewrite app_nil_r.
  - cbn [optimize].
    destruct (fst (objective (handle_of env (List.length study)) fresh));
      [|discriminate].
    intro H. apply IH in H. rewrite H, length_app. cbn [List.length seq map].
    rewrite <- app_assoc, Nat.add_1_r. reflexivity.
Qed.

Lemma optimize_returns (n : nat) :
  (forall i, exists v, fst (objective (handle_of env i) fresh) = Return v) ->
  forall study : list StoredTrial,
    optimize objective env n study =
    (study ++ map (run_stored objective env) (seq (List.length study) n), None).
Proof.
  intro R. induction n as [|n IH]; intro study.
  - cbn. now rewrite app_nil_r.
  - cbn [optimize].
    destruct (R (List.length study)) as (v & ->).
    rewrite IH, length_app. cbn [List.length seq map].
    rewrite <- app_assoc, Nat.add_1_r. reflexivity.
Qed.

Lemma run_trial_number (trial : handle) (a b : Q) :
  Study.number (run_trial objective trial a b) = Trial.number trial.
Proof.
  unfold run_trial.
  destruct (fst (objective trial fresh)) as [v|]; [|reflexivity].
  destruct (isnan v); reflexivity.
Qed.

Lemma run_trial_complete (trial : handle) (a b : Q) :
  state (run_trial objective trial a b) = COMPLETE ->
  exists v,
    fst (objective trial fresh) = Return v /\
    value (run_trial objective trial a b) = Some v.
Proof.
  unfold run_trial.
  destruct (fst (objective trial fresh)) as [v|]; [|discriminate].
  destruct (isnan v); [discriminate|]. intros _. now exists v.
Qed.

Lemma map_number_run_stored (start n : nat) :
  map (fun t => Study.number (frozen t))
      (map (run_stored objective env) (seq start n)) = seq start n.
Proof.
  rewrite map_map. rewrite <- (map_id (seq start n)) at 2.
  apply map_ext. intro i. apply run_trial_number.
Qed.

End OptimizerFacts.

Section BestStoredFacts.
Import Study Optimizer.

Lemma fold_best_stored_In (l : list StoredTrial) (t : StoredTrial) :
  In (fold_left (fun best u => if stored_lt best u then u else best) l t)
     (t :: l).
Proof.
  revert t. induction l as [|u l IH]; intro t; [now left|].
  cbn [fold_left].
  destruct (stored_lt t u).
  - right. apply IH.
  - destruct (IH t) as [<-|H]; [now left|right; now right].
Qed.

Lemma best_stored_In (study : list StoredTrial) (b : StoredTrial) :
  best_stored study = Return b ->
  In b study /\ state (frozen b) = COMPLETE.
Proof.
  unfold best_stored.
  destruct (filter _ study) as [|t l] eqn:F; [discriminate|].
  intro H. injection H as <-.
  pose proof (fold_best_stored_In l t) as I. rewrite <- F in I.
  apply filter_In in I. destruct I as [I S]. split; trivial.
  now apply state_eqb_eq.
Qed.

Lemma fold_best_frozen (l : list StoredTrial) (t : StoredTrial) :
  frozen (fold_left (fun best u => if stored_lt best u then u else best) l t) =
  fold_left (fun best u => if value_lt best u then u else best)
            (map frozen l) (frozen t).
Proof.
  revert t. induction l as [|u l IH]; intro t; [reflexivity|].
  cbn [fold_left map]. rewrite IH. unfold stored_lt.
  now destruct (value_lt (frozen t) (frozen u)).
Qed.

Lemma filter_map_frozen (study : list StoredTrial) :
  filter (fun t => state_eqb (state t) COMPLETE) (map frozen study) =
  map frozen (filter (fun t => state_eqb (state (frozen t)) COMPLETE) study).
Proof.
  induction study as [|t l IH]; [reflexivity|]. cbn [map filter].
  destruct (state_eqb (state (frozen t)) COMPLETE); cbn [map]; now rewrite IH.
Qed.

(** [study.best_trial] is the same trial with or without its
    parameters. *)
Lemma best_trial_frozen (study : list StoredTrial) :
  best_trial (map frozen study) =
  (b <- best_stored study ;; Return (frozen b)).
Proof.
  unfold best_trial, best_stored. rewrite filter_map_frozen.
  destruct (filter _ study) as [|t l]; [reflexivity|].
  cbn [map rbind]. now rewrite fold_best_frozen.
Qed.

End BestStoredFacts.

Section MainProperties.
Import Trial Evaluation Outcome Study Optimizer Bounds Examples.
Import RosenbrockReport SweepExamples.
Local Open Scope string_scope.

Lemma sweep_params_are_tokens (os : list arg -> child) (trial : handle) :
  map suggested (params (snd (OptunaSweep.objective os trial fresh))) =
  map token (skipn 7 (OptunaSweep.command_line trial)).
Proof.
  unfold OptunaSweep.objective. repeat sample_step. cbv zeta.
  rewrite evaluate_params. reflexivity.
Qed.

Lemma sweep_returns (os : list arg -> child) (trial : handle) :
  runs_cleanly (os (OptunaSweep.command_line trial)) 600 = true ->
  exists v, fst (OptunaSweep.objective os trial fresh) = Return v.
Proof.
  exact (objective_returns _ _ _ sweep_steps os trial fresh eq_refl).
Qed.

Lemma rosenbrock_returns (os : list arg -> child) (trial : handle) :
  runs_cleanly (os (OptunaSweepRosenbrock.command_line trial)) 1200 = true ->
  exists v, fst (OptunaSweepRosenbrock.objective os trial fresh) = Return v.
Proof.
  exact (objective_returns _ _ _ rosenbrock_steps os trial fresh eq_refl).
Qed.

(** X20.  No timeout, process error or parse error ends a sweep early: as
    long as the trainer is started and what it wrote decodes (or it is
    killed at the time limit), [study.optimize] runs all of its [n_trials]
    trials, stores each of them after the trials the study already holds,
    numbered consecutively, and ends without an exception.  Stated for both
    sweeps. *)
Theorem sweep_runs_all_trials :
  forall (os : list arg -> child) (env : Env) (n_trials : nat)
         (study : list StoredTrial),
    ((forall args, runs_cleanly (os args) 600 = true) ->
     exists new,
       optimize (OptunaSweep.objective os) env n_trials study =
         ((study ++ new)%list, None) /\
       map (fun t => Study.number (frozen t)) new =
         seq (List.length study) n_trials) /\
    ((forall args, runs_cleanly (os args) 1200 = true) ->
     exists new,
       optimize (OptunaSweepRosenbrock.objective os) env n_trials study =
         ((study ++ new)%list, None) /\
       map (fun t => Study.number (frozen t)) new =
         seq (List.length study) n_trials).
Proof.
  intros os env n study. split; intro N; eexists; split.
  - apply optimize_returns. intro i. apply sweep_returns, N.
  - apply map_number_run_stored.
  - apply optimize_returns. intro i. apply rosenbrock_returns, N.
  - apply map_number_run_stored.
Qed.

Lemma sweep_runs_all_trials_witness :
  exists new,
    optimize (OptunaSweep.objective crashes) steady_env 3 [] =
      (([] ++ new)%list, None) /\
    map (fun t => Study.number (frozen t)) new =
      seq (List.length (@nil StoredTrial)) 3.
Proof.
  apply (proj1 (sweep_runs_all_trials crashes steady_env 3 [])).
  intro args. reflexivity.
Defined.

(** X21.  A trainer that cannot be started ends the sweep at the first
    trial: the trial is stored as failed, [study.optimize] raises the
    [FileNotFoundError] and [main] ends with it, before any result is
    printed or written.  Stated for both sweeps. *)
Theorem sweep_aborts_when_not_started :
  forall (os : list arg -> child) (env : Env) (n_trials : nat)
         (study : list StoredTrial),
    let number := List.length study in
    (os (OptunaSweep.command_line (handle_of env number)) = NoSuchExecutable ->
     let failed := run_stored (OptunaSweep.objective os) env number in
     optimize (OptunaSweep.objective os) env (S n_trials) study =
       ((study ++ [failed])%list, Some FileNotFoundError) /\
     state (frozen failed) = FAIL /\
     Optimizer.main os env (S n_trials) study = Raise FileNotFoundError) /\
    (os (OptunaSweepRosenbrock.command_line (handle_of env number)) =
       NoSuchExecutable ->
     let failed := run_stored (OptunaSweepRosenbrock.objective os) env number in
     optimize (OptunaSweepRosenbrock.objective os) env (S n_trials) study =
       ((study ++ [failed])%list, Some FileNotFoundError) /\
     state (frozen failed) = FAIL /\
     RosenbrockMain.main os env (S n_trials) study = Raise FileNotFoundError).
Proof.
  intros os env n study number. split; intros C failed.
  - assert (E : fst (OptunaSweep.objective os (handle_of env number) fresh) =
                Raise FileNotFoundError)
      by (rewrite (objective_by_child _ _ _ sweep_steps os _ fresh eq_refl);
          now rewrite C).
    assert (O : optimize (OptunaSweep.objective os) env (S n) study =
                ((study ++ [failed])%list, Some FileNotFoundError)).
    { cbn [optimize]. fold number. now rewrite E. }
    split; [exact O|]. split.
    + subst failed. unfold run_stored, run_trial. cbn [frozen].
      now rewrite E.
    + unfold Optimizer.main. now rewrite O.
  - assert (E : fst (OptunaSweepRosenbrock.objective os (handle_of env number)
                       fresh) = Raise FileNotFoundError)
      by (rewrite (objective_by_child _ _ _ rosenbrock_steps os _ fresh
                     eq_refl);
          now rewrite C).
    assert (O : optimize (OptunaSweepRosenbrock.objective os) env (S n) study =
                ((study ++ [failed])%list, Some FileNotFoundError)).
    { cbn [optimize]. fold number. now rewrite E. }
    split; [exact O|]. split.
    + subst failed. unfold run_stored, run_trial. cbn [frozen].
      now rewrite E.
    + unfold RosenbrockMain.main. now rewrite O.
Qed.

Lemma sweep_aborts_when_not_started_witness :
  Optimizer.main missing steady_env 100 [] = Raise FileNotFoundError.
Proof.
  apply (proj1 (sweep_aborts_when_not_started missing steady_env 99 [])).
  reflexivity.
Defined.

(** X22.  The results [main] of [optuna_sweep.py] prints and writes after a
    sweep on a new study belong together: the best trial is one of the
    trials of the sweep, the best fitness is the float the objective
    returned for it, and the best hyper-parameters are, in this order, the
    [name=value] tokens of the command line that was evaluated for it. *)
Theorem results_are_those_of_the_best_trial
    (os : list arg -> child) (env : Env) (n_trials : nat) (r : Results) :
  Optimizer.main os env n_trials [] = Return r ->
  (best_number r < n_trials)%nat /\
  (exists fitness,
     best_fitness r = Some fitness /\
     fst (OptunaSweep.objective os (handle_of env (best_number r)) fresh) =
       Return fitness) /\
  map Some (best_params r) =
    map token (skipn 7 (OptunaSweep.command_line
                          (handle_of env (best_number r)))).
Proof.
  unfold Optimizer.main.
  destruct (optimize _ env n_trials []) as [study' [e|]] eqn:O;
    [discriminate|].
  apply optimize_without_exception in O. cbn [app List.length] in O.
  unfold results.
  destruct (best_stored study') as [b|] eqn:B; [|discriminate].
  cbn [rbind]. intro H. injection H as <-.
  cbn [best_number best_fitness best_params].
  destruct (best_stored_In _ B) as [I S]. rewrite O in I.
  apply in_map_iff in I. destruct I as (i & <- & Hi).
  apply in_seq in Hi. cbn [run_stored frozen stored_params] in *.
  rewrite run_trial_number. cbn [handle_of Trial.number].
  split; [lia|].
  destruct (run_trial_complete _ _ _ _ S) as (v & Ev & ->).
  split; [now exists v|].
  rewrite <- sweep_params_are_tokens with (os := os).
  now rewrite map_map.
Qed.

Lemma results_are_those_of_the_best_trial_witness :
  exists r,
    Optimizer.main noisy steady_env 2 [] = Return r /\
    (best_number r < 2)%nat /\
    (exists fitness,
       best_fitness r = Some fitness /\
       fst (OptunaSweep.objective noisy
              (handle_of steady_env (best_number r)) fresh) =
         Return fitness) /\
    map Some (best_params r) =
      map token (skipn 7 (OptunaSweep.command_line
                            (handle_of steady_env (best_number r)))).
Proof.
  eexists. split; [vm_compute; reflexivity|].
  apply (@results_are_those_of_the_best_trial noisy steady_env 2).
  vm_compute. reflexivity.
Defined.

Lemma failed_trial_is_stored_complete
    (objective : (list arg -> child) -> handle -> M pyfloat)
    (command_line : handle -> list arg) (timeout : Q)
    (steps : forall os trial st, exists st',
       user_attrs st' = user_attrs st /\
       console st' = console st /\
       local_result st' = local_result st /\
       objective os trial st =
       try_except (try_block os timeout (command_line trial))
                  (except_clauses trial) st')
    (os : list arg -> child) (env : Env) (i : nat) :
  (runs_cleanly (os (command_line (handle_of env i))) timeout = true /\
   exists o, outcome os timeout (command_line (handle_of env i)) = Some o /\
             is_failure o = true) ->
  fst (objective os (handle_of env i) fresh) = Return NegInf /\
  state (frozen (run_stored (objective os) env i)) = COMPLETE /\
  value (frozen (run_stored (objective os) env i)) = Some NegInf.
Proof.
  intros (C & o & O & F).
  assert (R : fst (objective os (handle_of env i) fresh) = Return NegInf)
    by exact (objective_failure _ _ _ steps os _ fresh eq_refl C O F).
  split; [exact R|].
  cbn [run_stored frozen]. unfold run_trial. rewrite R. now split.
Qed.

Lemma best_of_failed_sweep
    (objective : handle -> M pyfloat) (env : Env) (n : nat) :
  (forall i,
     state (frozen (run_stored objective env i)) = COMPLETE /\
     value (frozen (run_stored objective env i)) = Some NegInf) ->
  exists b,
    best_stored (map (run_stored objective env) (seq 0 (S n))) = Return b /\
    value (frozen b) = Some NegInf.
Proof.
  intro A.
  destruct (best_stored (map (run_stored objective env) (seq 0 (S n))))
    as [b|e] eqn:B.
  - exists b. split; trivial.
    destruct (best_stored_In _ B) as [I _].
    apply in_map_iff in I. destruct I as (i & <- & _). apply A.
  - exfalso. unfold best_stored in B.
    destruct (filter _ _) as [|t l] eqn:F; [|discriminate].
    assert (I : In (run_stored objective env 0)
                   (filter (fun t => state_eqb (state (frozen t)) COMPLETE)
                           (map (run_stored objective env) (seq 0 (S n))))).
    { apply filter_In. split; [now left|].
      apply state_eqb_eq. apply A. }
    rewrite F in I. destruct I.
Qed.

(** X23.  A sweep on a new study in which every evaluation fails by
    timeout, by process error or by parse error, the trainer being started
    and its output decoding (unless it is killed at the time limit), still
    ends with its results: [main] of [optuna_sweep.py] gives a best fitness
    of negative infinity, and the report of [optuna_sweep_rosenbrock.py] a
    best value of negative infinity, decoded as a solve rate of 0 and an
    average fitness of negative infinity. *)
Theorem all_failed_sweep_still_reports :
  forall (os : list arg -> child) (env : Env) (n : nat),
    ((forall i,
        runs_cleanly (os (OptunaSweep.command_line (handle_of env i))) 600 =
          true /\
        exists o,
          outcome os 600 (OptunaSweep.command_line (handle_of env i)) =
            Some o /\
          is_failure o = true) ->
     exists r,
       Optimizer.main os env (S n) [] = Return r /\
       best_fitness r = Some NegInf) /\
    ((forall i,
        runs_cleanly
          (os (OptunaSweepRosenbrock.command_line (handle_of env i))) 1200 =
          true /\
        exists o,
          outcome os 1200
                  (OptunaSweepRosenbrock.command_line (handle_of env i)) =
            Some o /\
          is_failure o = true) ->
     exists rep,
       RosenbrockMain.main os env (S n) [] = Return rep /\
       r_best_value rep = Some NegInf /\
       r_solve_rate_approx rep = 0 /\
       r_avg_fitness_approx rep = NegInf).
Proof.
  intros os env n. split; intro A.
  - assert (F : forall i,
      fst (OptunaSweep.objective os (handle_of env i) fresh) = Return NegInf /\
      state (frozen (run_stored (OptunaSweep.objective os) env i)) = COMPLETE /\
      value (frozen (run_stored (OptunaSweep.objective os) env i)) =
        Some NegInf)
      by (intro i;
          apply (@failed_trial_is_stored_complete _ _ _ sweep_steps), A).
    unfold Optimizer.main.
    rewrite optimize_returns by (intro i; eexists; apply F).
    cbn [app List.length]. unfold results.
    destruct (@best_of_failed_sweep (OptunaSweep.objective os) env n)
      as (b & -> & V); [intro i; apply F|].
    cbn [rbind]. eexists. split; [reflexivity|exact V].
  - assert (F : forall i,
      fst (OptunaSweepRosenbrock.objective os (handle_of env i) fresh) =
        Return NegInf /\
      state (frozen (run_stored (OptunaSweepRosenbrock.objective os) env i)) =
        COMPLETE /\
      value (frozen (run_stored (OptunaSweepRosenbrock.objective os) env i)) =
        Some NegInf)
      by (intro i;
          apply (@failed_trial_is_stored_complete _ _ _ rosenbrock_steps), A).
    unfold RosenbrockMain.main.
    rewrite optimize_returns by (intro i; eexists; apply F).
    cbn [app List.length]. unfold report.
    rewrite best_trial_frozen.
    destruct (@best_of_failed_sweep (OptunaSweepRosenbrock.objective os) env n)
      as (b & -> & V); [intro i; apply F|].
    cbn [rbind]. rewrite V. cbn [Monitor.decode_value].
    change (FitnessCodec.decode NegInf) with (@Return (Z * pyfloat) (0, NegInf)).
    cbn [rbind].
    destruct (top10 _) as [top|e] eqn:T.
    + cbn [rbind]. eexists. split; [reflexivity|]. repeat split.
    + exfalso. unfold top10 in T.
      destruct (entries_raise _ _ T) as (_ & t & Ht & Et).
      assert (I : In t (map frozen
                          (map (run_stored (OptunaSweepRosenbrock.objective os)
                                           env) (seq 0 (S n))))).
      { eapply Permutation_in; [symmetry; apply sorted_by_key_perm|].
        rewrite <- (firstn_skipn 10 (sorted_by_key _)).
        apply in_or_app. left. exact Ht. }
      rewrite map_map in I. apply in_map_iff in I.
      destruct I as (i & <- & _).
      destruct (F i) as (_ & _ & Vi). rewrite Vi in Et. discriminate.
Qed.

Lemma all_failed_sweep_still_reports_witness :
  exists r,
    Optimizer.main hangs steady_env (S 2) [] = Return r /\
    best_fitness r = Some NegInf.
Proof.
  apply (proj1 (all_failed_sweep_still_reports hangs steady_env 2)).
  intro i. split; [reflexivity|]. exists Timeout. split; reflexivity.
Defined.

End MainProperties.
